(** * Seattle crime pipeline: ingestion and cleaning, verified

    A shallow embedding of [SeattleCrimeData_analysis/assets.py]:
    the incremental ingestion asset [fetch_crime_data] (checkpoint,
    day-by-day paginated fetch, MongoDB upsert) and the cleaning asset
    [clean_and_analyze_crime_data].

    Conventions.
    - A MongoDB document and a Socrata JSON record are finite maps from
      field names to strings ([gmap string string]); the resource
      endpoint renders every value, numbers included, as a JSON string.
    - A collection is the list of its documents in natural order; the
      position of a document plays the role of its [_id], which no
      operation of the pipeline changes.
    - Exceptions are explicit outcomes; loops that Python writes as
      [while] carry fuel, and running out of it is an outcome of its
      own, never confused with a result. *)

From Stdlib Require Import ZArith Lia Ascii.
From stdpp Require Import base gmap strings list fin_maps sorting.

Abbreviation doc := (gmap string string).

(** ** The upsert sink (assets.py, lines 100-111) *)

Module Sink.

(** [UpdateOne({"report_number": k}, {"$set": record}, upsert=True)]
    on a collection: the first document whose [report_number] is [k]
    gets every field of [record] set (the other fields stay); when no
    document matches, one is inserted, built from the equality filter
    and then the [$set].  The second component is the operation's
    contribution to [upserted_count]. *)
Fixpoint update_one (k : string) (record : doc) (c : list doc)
  : list doc * nat :=
  match c with
  | [] => ([record ∪ {[ "report_number" := k ]}], 1)
  | d :: c' =>
      if decide (d !! "report_number" = Some k)
      then ((record ∪ d) :: c', 0)
      else let '(c'', n) := update_one k record c' in (d :: c'', n)
  end.

(** The list comprehension of lines 100-107: one operation per record
    of the batch that has a [report_number]; the others are skipped. *)
Definition operations (batch : list doc) : list (string * doc) :=
  omap (λ record : doc, (λ k, (k, record)) <$> record !! "report_number") batch.

(** Applying a list of operations one after the other. *)
Fixpoint apply_ops (ops : list (string * doc)) (c : list doc)
  : list doc * nat :=
  match ops with
  | [] => (c, 0)
  | (k, record) :: ops' =>
      let '(c1, n1) := update_one k record c in
      let '(c2, n2) := apply_ops ops' c1 in
      (c2, n1 + n2)
  end.

Definition has_key (k : string) (d : doc) : Prop :=
  d !! "report_number" = Some k.

#[global] Instance has_key_dec k d : Decision (has_key k d).
Proof. unfold has_key. apply _. Defined.

End Sink.

(** ** Calendar dates (Python's [datetime.date]) *)

Module Calendar.

Record date := mkdate { year : Z; month : Z; day : Z }.

Definition is_leap (y : Z) : bool :=
  (y mod 4 =? 0)%Z && (negb (y mod 100 =? 0)%Z || (y mod 400 =? 0)%Z).

Definition days_in_month (y m : Z) : Z :=
  if (m =? 2)%Z then (if is_leap y then 29 else 28)%Z
  else if ((m =? 4) || (m =? 6) || (m =? 9) || (m =? 11))%Z then 30%Z
  else 31%Z.

(** What the [date] constructor accepts: MINYEAR = 1, MAXYEAR = 9999. *)
Definition valid_date (d : date) : bool :=
  ((1 <=? year d) && (year d <=? 9999) && (1 <=? month d) && (month d <=? 12)
   && (1 <=? day d) && (day d <=? days_in_month (year d) (month d)))%Z.

(** [d + timedelta(days=1)].  Python goes through the day ordinal; on a
    valid date that is the next calendar day.  Dates read by pandas end
    in 2262 and the clock is far from 9999-12-31, so the overflow of
    the last representable day is left out. *)
Definition next_day (d : date) : date :=
  if (day d <? days_in_month (year d) (month d))%Z
  then mkdate (year d) (month d) (day d + 1)
  else if (month d <? 12)%Z then mkdate (year d) (month d + 1) 1
  else mkdate (year d + 1) 1 1.

(** Comparison of dates is that of the triples (year, month, day). *)
Definition date_compare (a b : date) : comparison :=
  match (year a ?= year b)%Z with
  | Eq => match (month a ?= month b)%Z with
          | Eq => (day a ?= day b)%Z
          | c => c
          end
  | c => c
  end.

Definition date_leb (a b : date) : bool :=
  match date_compare a b with Gt => false | _ => true end.

Definition date_ltb (a b : date) : bool :=
  match date_compare a b with Lt => true | _ => false end.

#[global] Instance date_eq_dec : EqDecision date.
Proof. solve_decision. Defined.

(** A date that has everything of a valid date but the upper bound on
    the year: what the day loop keeps while it counts upwards. *)
Definition shaped (d : date) : Prop :=
  (1 ≤ year d ∧ 1 ≤ month d ≤ 12
   ∧ 1 ≤ day d ≤ days_in_month (year d) (month d))%Z.

(** A measure that grows by at least one with every [next_day]; it
    bounds the number of iterations of the day loop. *)
Definition rank (d : date) : Z :=
  ((year d * 12 + (month d - 1)) * 31 + (day d - 1))%Z.

Definition digit_char (n : Z) : ascii :=
  Ascii.ascii_of_N (Z.to_N (48 + n mod 10)).

Definition pad2 (n : Z) : string :=
  String (digit_char (n / 10)) (String (digit_char n) EmptyString).

Definition pad4 (n : Z) : string :=
  String (digit_char (n / 1000)) (String (digit_char (n / 100)) (pad2 n)).

(** [str(d)], that is [d.isoformat()]: ["%04d-%02d-%02d"]. *)
Definition date_str (d : date) : string :=
  pad4 (year d) +:+ "-" +:+ pad2 (month d) +:+ "-" +:+ pad2 (day d).

End Calendar.

(** ** The ingestion asset [fetch_crime_data] (assets.py, lines 33-130) *)

Module Ingest.
Import Calendar Sink.

(** The query parameters of one page request (lines 83-91).  The
    [$where] clause is [offense_date >= 'where_lo' AND offense_date <=
    'where_hi']; [$order] is always [offense_date ASC]. *)
Record request := mkreq {
  where_lo : string;
  where_hi : string;
  limit : nat;
  offset : nat
}.

#[global] Instance request_eq_dec : EqDecision request.
Proof. solve_decision. Defined.

(** What [requests.get] can come back with: a transport failure
    (connection error, timeout), or a response with a status code and
    a body, which is a JSON array of flat records or not. *)
Inductive response :=
| TransportFailure
| Http (status : Z) (body : option (list doc)).

Inductive error :=
| EParse                 (* pd.to_datetime could not read the checkpoint *)
| ETransport             (* requests.get raised *)
| EHttp (status : Z)     (* raise_for_status raised *)
| EBody.                 (* response.json() raised *)

Inductive page_result :=
| PageError (e : error)
| PageOk (batch : list doc).

(** Lines 93-95: [requests.get], [raise_for_status] (which raises on
    the 4xx and 5xx codes), [response.json()]. *)
Definition read_page (r : response) : page_result :=
  match r with
  | TransportFailure => PageError ETransport
  | Http status body =>
      if ((400 <=? status) && (status <? 600))%Z then PageError (EHttp status)
      else match body with
           | None => PageError EBody
           | Some batch => PageOk batch
           end
  end.

(** The part of the outside world a run touches: the collection, and
    the page requests sent so far, oldest first. *)
Record world := mkworld { sink : list doc; sent : list request }.

#[global] Instance world_eq_dec : EqDecision world.
Proof. solve_decision. Defined.

Inductive loop_result :=
| Done (inserted : nat)
| Raise (e : error)
| NoFuel.

Inductive outcome :=
| NoNewData (today start_date : date)
| Completed (today start_date : date) (inserted_total : nat)
| Failed (e : error)
| Unfinished.

#[global] Instance error_eq_dec : EqDecision error.
Proof. solve_decision. Defined.

#[global] Instance outcome_eq_dec : EqDecision outcome.
Proof. solve_decision. Defined.

Definition max_str (a b : string) : string :=
  if String.leb a b then b else a.

(** Lines 48-52: [find_one] over the documents that have an
    [offense_date], sorted by it in descending order; only the value
    is used.  MongoDB compares strings byte by byte. *)
Fixpoint latest_offense_date (c : list doc) : option string :=
  match c with
  | [] => None
  | d :: c' =>
      match d !! "offense_date", latest_offense_date c' with
      | Some v, Some m => Some (max_str v m)
      | Some v, None => Some v
      | None, r => r
      end
  end.

(** The first-run fallback of line 58. *)
Definition epoch : date := mkdate 2025 1 1.

Definition day_request (d : date) (off : nat) : request :=
  {| where_lo := date_str d +:+ "T00:00:00";
     where_hi := date_str d +:+ "T23:59:59";
     limit := 1000;
     offset := off |}.

Section Run.
(** The remote service, seen from one run. *)
Variable http_get : request → response.
(** [bulk_write(..., ordered=False)]: the server applies the
    operations of a batch in an order of its choosing. *)
Variable exec_order : list (string * doc) → list (string * doc).
(** [pd.to_datetime(v).date()]; [None] when pandas raises. *)
Variable to_date : string → option date.

(** Lines 54-58. *)
Definition resolve_start (c : list doc) : option date :=
  match latest_offense_date c with
  | Some v => next_day <$> to_date v
  | None => Some epoch
  end.

(** Lines 100-111. *)
Definition store_page (batch : list doc) (c : list doc) : list doc * nat :=
  match operations batch with
  | [] => (c, 0)
  | ops => apply_ops (exec_order ops) c
  end.

(** The page loop of one day, lines 82-114.  The pause of line 114
    has no effect on the state and is not modelled. *)
Fixpoint fetch_day (fuel : nat) (d : date) (off inserted_day : nat)
    (w : world) : loop_result * world :=
  match fuel with
  | 0 => (NoFuel, w)
  | S fuel' =>
      let req := day_request d off in
      let w1 := {| sink := sink w; sent := sent w ++ [req] |} in
      match read_page (http_get req) with
      | PageError e => (Raise e, w1)
      | PageOk [] => (Done inserted_day, w1)
      | PageOk batch =>
          let '(c, n) := store_page batch (sink w1) in
          fetch_day fuel' d (off + 1000) (inserted_day + n)
            {| sink := c; sent := sent w1 |}
      end
  end.

(** The day loop, lines 74-117. *)
Fixpoint fetch_days (dfuel pfuel : nat) (current_date today : date)
    (inserted_total : nat) (w : world) : loop_result * world :=
  if negb (date_leb current_date today) then (Done inserted_total, w)
  else match dfuel with
       | 0 => (NoFuel, w)
       | S dfuel' =>
           match fetch_day pfuel current_date 0 0 w with
           | (Done inserted_day, w') =>
               fetch_days dfuel' pfuel (next_day current_date) today
                 (inserted_total + inserted_day) w'
           | (r, w') => (r, w')
           end
       end.

(** What a sequence of page requests leaves in the collection: the
    pages that came back in full are stored, in the order of their
    requests; a request that raised stores nothing. *)
Definition replay (c : list doc) (reqs : list request) : list doc :=
  foldl (λ s req, match read_page (http_get req) with
                  | PageOk batch => (store_page batch s).1
                  | PageError _ => s
                  end) c reqs.

Definition raises (req : request) (e : error) : Prop :=
  read_page (http_get req) = PageError e.

Definition retrieved (req : request) : Prop :=
  ∃ batch, read_page (http_get req) = PageOk batch.

(** The shape of the requests of a loop that ended with [r]: every
    request was answered in full, except the last one of a loop that
    raised, which is the one that raised. *)
Definition fail_fast_trace (r : loop_result) (reqs : list request) : Prop :=
  match r with
  | Raise e =>
      ∃ prior req, reqs = prior ++ [req] ∧ Forall retrieved prior ∧ raises req e
  | _ => Forall retrieved reqs
  end.

(** [s] is an ISO timestamp of the calendar day [d], and pandas reads
    it as such. *)
Definition stamp_day (s : string) (d : date) : Prop :=
  valid_date d = true
  ∧ (∃ t, s = date_str d +:+ "T" +:+ t)
  ∧ to_date s = Some d.

(** A record whose [offense_date], when it has one, is such a timestamp. *)
Definition dated (r : doc) : Prop :=
  ∀ s, r !! "offense_date" = Some s → ∃ d, stamp_day s d.

(** The checkpoint of the collection is at day [d] or later. *)
Definition covered (c : list doc) (d : date) : Prop :=
  ∃ v dv, latest_offense_date c = Some v ∧ stamp_day v dv
          ∧ date_leb d dv = true.

(** The asset.  [today] is [datetime.utcnow().date()]. *)
Definition fetch_crime_data (dfuel pfuel : nat) (today : date)
    (c : list doc) : outcome * world :=
  let w := {| sink := c; sent := [] |} in
  match resolve_start c with
  | None => (Failed EParse, w)
  | Some start_date =>
      if date_ltb today start_date then (NoNewData today start_date, w)
      else match fetch_days dfuel pfuel start_date today 0 w with
           | (Done inserted_total, w') =>
               (Completed today start_date inserted_total, w')
           | (Raise e, w') => (Failed e, w')
           | (NoFuel, w') => (Unfinished, w')
           end
  end.
End Run.

End Ingest.

(** ** The remote incident API

    The service is outside the repository.  It is modelled as section 6
    of the specification describes it: a read-only dataset queried with
    a window filter on the occurrence timestamp, [limit]/[offset]
    paging and ascending sort by occurrence timestamp.  The dataset
    renders a timestamp as [YYYY-MM-DDTHH:MM:SS.mmm]; a literal of the
    query that stops at the seconds denotes the start of that second,
    so that comparing timestamps is comparing their renderings. *)

Module Remote.
Import Calendar Ingest.

Definition stamp_of_literal (s : string) : string :=
  if decide (String.length s = 19) then s +:+ ".000" else s.

Definition offense_date_of (r : doc) : string :=
  default EmptyString (r !! "offense_date").

Definition in_window (lo hi : string) (r : doc) : bool :=
  match r !! "offense_date" with
  | Some o => String.leb (stamp_of_literal lo) o
              && String.leb o (stamp_of_literal hi)
  | None => false
  end.

Definition by_offense_date (a b : doc) : Prop :=
  String.le (offense_date_of a) (offense_date_of b).

#[global] Instance by_offense_date_dec : RelDecision by_offense_date.
Proof. intros a b. unfold by_offense_date. apply _. Defined.

(** All the records of the window, in the order the service pages them. *)
Definition window (ds : list doc) (lo hi : string) : list doc :=
  merge_sort by_offense_date (filter (λ r, in_window lo hi r) ds).

Definition soda_query (ds : list doc) (req : request) : list doc :=
  take (limit req) (drop (offset req) (window ds (where_lo req) (where_hi req))).

(** A service that always answers, from a dataset that does not change. *)
Definition soda_get (ds : list doc) (req : request) : response :=
  Http 200 (Some (soda_query ds req)).

(** The records the service has for the day [d], as the asset asks
    for them. *)
Definition day_window (ds : list doc) (d : date) : list doc :=
  window ds (where_lo (day_request d 0)) (where_hi (day_request d 0)).

(** The requests of [k] successive pages of the day [d], from the
    offset [off] on. *)
Definition page_requests (d : date) (off k : nat) : list request :=
  (λ i, day_request d (off + 1000 * i)) <$> seq 0 k.

(** The service has, for the day [d], a record with a report number. *)
Definition keyed_on (ds : list doc) (d : date) : Prop :=
  ∃ r : doc, r ∈ day_window ds d ∧ is_Some (r !! "report_number").

(** No incident with a report number is dated after [today1] and up to
    [today2]. *)
Definition quiet_between (to_date : string → option date) (ds : list doc)
    (today1 today2 : date) : Prop :=
  ∀ r s d, r ∈ ds → is_Some (r !! "report_number") →
    r !! "offense_date" = Some s → stamp_day to_date s d →
    date_ltb today1 d = true → date_leb d today2 = true → False.

End Remote.

(** ** The upsert as the specification words it *)

Module SinkSpec.

(** "Insert if absent, else replace all fields (full-document upsert,
    not a merge-patch)". *)
Fixpoint replace_one (k : string) (record : doc) (c : list doc)
  : list doc * nat :=
  match c with
  | [] => ([record], 1)
  | d :: c' =>
      if decide (d !! "report_number" = Some k)
      then (record :: c', 0)
      else let '(c'', n) := replace_one k record c' in (d :: c'', n)
  end.

End SinkSpec.


(** ** Regular expressions, as far as the pipeline uses them

    A string is a sequence of code points below 256.  In that range
    [\d] is [0-9] and [\s] is the set below.  The matcher explores the
    alternatives in the order of Python's backtracking matcher and
    lists every way to match a prefix of the text, first choice first,
    with the named groups and the text that is left. *)

Module Regex.

Inductive regex :=
| Eps
| Lit (c : ascii)
| Class (p : ascii → bool)
| Seq (r1 r2 : regex)
| Alt (r1 r2 : regex)
| Opt (r : regex)
| Plus (p : ascii → bool)
| Group (name : string) (r : regex)
| Eos.

Definition code (c : ascii) : Z := Z.of_N (Ascii.N_of_ascii c).

Definition in_range (lo hi : ascii) (c : ascii) : bool :=
  ((code lo <=? code c) && (code c <=? code hi))%Z.

Definition is_digit : ascii → bool := in_range "0" "9".

(** [\s] on text: the ASCII white space, the separators FS, GS, RS, US,
    NEL and the no-break space. *)
Definition is_space (c : ascii) : bool :=
  let n := code c in
  ((9 <=? n) && (n <=? 13) || (28 <=? n) && (n <=? 32)
   || (n =? 133) || (n =? 160))%Z.

Definition captures := list (string * string).

(** The text that was consumed between [s] and what is left of it. *)
Fixpoint consumed (s : string) (n : nat) : string :=
  match n, s with
  | S n', String c s' => String c (consumed s' n')
  | _, _ => EmptyString
  end.

Fixpoint plus_class (p : ascii → bool) (s : string) : list (captures * string) :=
  match s with
  | String c s' => if p c then plus_class p s' ++ [([], s')] else []
  | EmptyString => []
  end.

Fixpoint run (r : regex) (s : string) : list (captures * string) :=
  match r with
  | Eps => [([], s)]
  | Lit c =>
      match s with
      | String c' s' => if Ascii.eqb c c' then [([], s')] else []
      | EmptyString => []
      end
  | Class p =>
      match s with
      | String c' s' => if p c' then [([], s')] else []
      | EmptyString => []
      end
  | Seq r1 r2 =>
      m1 ← run r1 s; (λ m2, (m1.1 ++ m2.1, m2.2)) <$> run r2 m1.2
  | Alt r1 r2 => run r1 s ++ run r2 s
  | Opt r1 => run r1 s ++ [([], s)]
  | Plus p => plus_class p s
  | Group name r1 =>
      (λ m, (m.1 ++ [(name, consumed s (String.length s - String.length m.2))],
             m.2)) <$> run r1 s
  | Eos =>
      (* the end of the text, or just before a newline that ends it *)
      if decide (s = EmptyString ∨ s = String "010" EmptyString) then [([], s)] else []
  end.

(** [r] matches a prefix of [s] and leaves [rest]. *)
Definition matches (r : regex) (s rest : string) : Prop :=
  ∃ g, (g, rest) ∈ run r s.

(** [re.match(r, s)]: the first way to match at the start, if any. *)
Definition re_match (r : regex) (s : string) : option (captures * string) :=
  head (run r s).

Fixpoint seq (rs : list regex) : regex :=
  match rs with
  | [] => Eps
  | [r] => r
  | r :: rs' => Seq r (seq rs')
  end.

Fixpoint alt (rs : list regex) : regex :=
  match rs with
  | [] => Eps
  | [r] => r
  | r :: rs' => Alt r (alt rs')
  end.

Definition d : regex := Class is_digit.
Definition rng (lo hi : ascii) : regex := Class (in_range lo hi).

End Regex.

(** ** What the code leaves to the interpreter and to pandas

    The repository pins neither the version of Python nor that of
    pandas ([setup.py] lists the packages by name), and two steps of
    the cleaning asset behave differently from one version to
    another. *)

Module Platform.

Record platform := mkplatform {
  (** [strftime] writes [%Y] with four digits.  Python does so from
      3.13 on; before that it writes what the C library writes, and
      glibc writes a year below 1000 without leading zeros. *)
  pads_year : bool;
  (** The columns of [pd.DataFrame()] are a [RangeIndex], as they are
      from pandas 2 on; before that they are an empty index of
      objects. *)
  range_columns : bool
}.

#[global] Instance platform_eq_dec : EqDecision platform.
Proof. solve_decision. Defined.

End Platform.

(** ** Timestamps of the cleaning step (assets.py, lines 221-251) *)

Module Timestamp.
Import Calendar Regex Platform.

(** Lines 221-224:
    [^\d{4}-(0[1-9]|1[0-2])-(0[1-9]|[12]\d|3[01])T]
    [([01]\d|2[0-3]):([0-5]\d):([0-5]\d)(\.\d{1,3})?$]. *)
Definition iso_8601_pattern : regex :=
  seq [ d; d; d; d; Lit "-";
        alt [Seq (Lit "0") (rng "1" "9"); Seq (Lit "1") (rng "0" "2")]; Lit "-";
        alt [Seq (Lit "0") (rng "1" "9"); Seq (rng "1" "2") d;
             Seq (Lit "3") (rng "0" "1")];
        Lit "T";
        alt [Seq (rng "0" "1") d; Seq (Lit "2") (rng "0" "3")]; Lit ":";
        Seq (rng "0" "5") d; Lit ":";
        Seq (rng "0" "5") d;
        Opt (seq [Lit "."; d; Opt (Seq d (Opt d))]);
        Eos ].

Definition iso_match (val : string) : bool :=
  match re_match iso_8601_pattern val with
  | Some _ => true
  | None => false
  end.

(** The directives of [_strptime.TimeRE]. *)
Definition directive_Y : regex := Group "Y" (seq [d; d; d; d]).
Definition directive_m : regex :=
  Group "m" (alt [Seq (Lit "1") (rng "0" "2"); Seq (Lit "0") (rng "1" "9");
                  rng "1" "9"]).
Definition directive_d : regex :=
  Group "d" (alt [Seq (Lit "3") (rng "0" "1"); Seq (rng "1" "2") d;
                  Seq (Lit "0") (rng "1" "9"); rng "1" "9";
                  Seq (Lit " ") (rng "1" "9")]).
Definition directive_H : regex :=
  Group "H" (alt [Seq (Lit "2") (rng "0" "3"); Seq (rng "0" "1") d; d]).
Definition directive_M : regex :=
  Group "M" (alt [Seq (rng "0" "5") d; d]).
Definition directive_S : regex :=
  Group "S" (alt [Seq (Lit "6") (rng "0" "1"); Seq (rng "0" "5") d; d]).

(** A letter of a format, matched without regard to case (the format
    is compiled with [IGNORECASE]). *)
Definition letter_T : regex :=
  Class (λ c, Ascii.eqb c "T" || Ascii.eqb c "t").

(** ["%Y-%m-%d %H:%M:%S"]; white space in a format stands for [\s+]. *)
Definition format_space : regex :=
  seq [directive_Y; Lit "-"; directive_m; Lit "-"; directive_d; Plus is_space;
       directive_H; Lit ":"; directive_M; Lit ":"; directive_S].

(** ["%Y-%m-%dT%H:%M:%S"]. *)
Definition format_T : regex :=
  seq [directive_Y; Lit "-"; directive_m; Lit "-"; directive_d; letter_T;
       directive_H; Lit ":"; directive_M; Lit ":"; directive_S].

Record datetime := mkdatetime {
  dt_date : date; hour : Z; minute : Z; second : Z
}.

(** [int(text)] on a group of digits, which the day directive may have
    preceded by a space. *)
Definition int_of (s : string) : Z :=
  fold_left (λ acc c, if is_digit c then (10 * acc + (code c - 48))%Z else acc)
            (String.list_ascii_of_string s) 0%Z.

Definition group (g : captures) (name : string) : Z :=
  match list_find (λ p, p.1 = name) g with
  | Some (_, (_, text)) => int_of text
  | None => 0%Z
  end.

(** What the [datetime] constructor accepts. *)
Definition well_formed (dt : datetime) : Prop :=
  valid_date (dt_date dt) = true
  ∧ (0 ≤ hour dt ≤ 23)%Z ∧ (0 ≤ minute dt ≤ 59)%Z ∧ (0 ≤ second dt ≤ 59)%Z.

(** [datetime.strptime(s, fmt)]: the format has to match at the start
    and to use up the text, and the fields have to make a [datetime]
    ([None] stands for the [ValueError]). *)
Definition strptime (fmt : regex) (s : string) : option datetime :=
  match re_match fmt s with
  | Some (g, EmptyString) =>
      let dt := mkdatetime (mkdate (group g "Y") (group g "m") (group g "d"))
                           (group g "H") (group g "M") (group g "S") in
      if valid_date (dt_date dt)
         && (0 <=? hour dt)%Z && (hour dt <=? 23)%Z
         && (0 <=? minute dt)%Z && (minute dt <=? 59)%Z
         && (0 <=? second dt)%Z && (second dt <=? 59)%Z
      then Some dt else None
  | _ => None
  end.

(** A year from 1 to 9999 in decimal, with the digits it has. *)
Definition plain_year (y : Z) : string :=
  if (y <? 10)%Z then String (digit_char y) EmptyString
  else if (y <? 100)%Z then pad2 y
  else if (y <? 1000)%Z then String (digit_char (y / 100)) (pad2 y)
  else pad4 y.

(** The year as [%Y] of [strftime] writes it. *)
Definition year_str (p : platform) (y : Z) : string :=
  if pads_year p then pad4 y else plain_year y.

(** [dt.strftime("%Y-%m-%dT%H:%M:%S.000")]. *)
Definition strftime (p : platform) (dt : datetime) : string :=
  year_str p (year (dt_date dt)) +:+ "-" +:+ pad2 (month (dt_date dt))
  +:+ "-" +:+ pad2 (day (dt_date dt))
  +:+ "T" +:+ pad2 (hour dt) +:+ ":" +:+ pad2 (minute dt)
  +:+ ":" +:+ pad2 (second dt) +:+ ".000".

(** Lines 226-232. *)
Definition correct_datetime (p : platform) (date_str : string) : option string :=
  match strptime format_space date_str with
  | Some dt => Some (strftime p dt)
  | None =>
      match strptime format_T date_str with
      | Some dt => Some (strftime p dt)
      | None => None
      end
  end.

(** The counters and the column the loop of lines 234-249 builds. *)
Record tally := mktally {
  valid_dt : nat;
  invalid_dt : nat;
  corrected_dates : list (option string)
}.

(** One iteration of the loop, lines 239-249; [if fixed] is the truth
    value of a string, false on the empty one. *)
Definition validate_one (p : platform) (t : tally) (val : string) : tally :=
  if iso_match val
  then mktally (valid_dt t + 1) (invalid_dt t) (corrected_dates t ++ [Some val])
  else match correct_datetime p val with
       | Some (String c fixed) =>
           mktally (valid_dt t + 1) (invalid_dt t)
                   (corrected_dates t ++ [Some (String c fixed)])
       | _ =>
           mktally (valid_dt t) (invalid_dt t + 1) (corrected_dates t ++ [None])
       end.

Definition validate_all (p : platform) (vals : list string) : tally :=
  fold_left (validate_one p) vals (mktally 0 0 []).

End Timestamp.

(** ** Tables (pandas [DataFrame]) *)

Module Frame.
Import Platform.

(** A cell of a table.  A float is its IEEE 754 binary64 bit pattern;
    a timestamp is its count of nanoseconds.  [CNull] is the missing
    value of the column ([NaN], [None] or [NaT]). *)
Inductive cell :=
| CNull
| CStr (s : string)
| CTime (t : Z)
| CNum (bits : Z).

#[global] Instance cell_eq_dec : EqDecision cell.
Proof. solve_decision. Defined.

(** A row is its index label and its cells, in the order of the
    columns; a cell a row does not have is missing.  The model covers
    tables whose column labels are distinct, which is the case of
    every table the loading asset returns. *)
Definition row : Type := Z * list cell.

Record frame := mkframe { columns : list string; rows : list row }.

#[global] Instance frame_eq_dec : EqDecision frame.
Proof. solve_decision. Defined.

Inductive exn :=
| KeyError (label : string)
| ValueError (text : string)
| TypeError
| AttributeError
| NoObject.       (* a reference to no object: does not arise in Python *)

#[global] Instance exn_eq_dec : EqDecision exn.
Proof. solve_decision. Defined.

Definition is_nan (bits : Z) : bool :=
  ((bits / 2 ^ 52) mod 2 ^ 11 =? 2047)%Z && negb (bits mod 2 ^ 52 =? 0)%Z.

(** [x == 0.0]: true of both zeros. *)
Definition is_zero (bits : Z) : bool :=
  ((bits =? 0) || (bits =? 2 ^ 63))%Z.

Definition isnull (c : cell) : bool :=
  match c with
  | CNull => true
  | CNum bits => is_nan bits
  | _ => false
  end.

(** [series != text], cell by cell. *)
Definition ne_str (c : cell) (text : string) : bool :=
  match c with
  | CStr s => negb (String.eqb s text)
  | _ => true
  end.

(** [series == 0.0], cell by cell. *)
Definition eq_zero (c : cell) : bool :=
  match c with
  | CNum bits => is_zero bits
  | _ => false
  end.

(** Equality of cells as [duplicated] sees it: missing values are
    equal to each other, and so are the two zeros. *)
Definition same_cell (a b : cell) : bool :=
  if isnull a then isnull b
  else match a, b with
       | CNum x, CNum y => (x =? y)%Z || (is_zero x && is_zero y)
       | _, _ => bool_decide (a = b)
       end.

Fixpoint same_cells (a b : list cell) : bool :=
  match a, b with
  | [], [] => true
  | x :: a', y :: b' => same_cell x y && same_cells a' b'
  | _, _ => false
  end.

Definition seen_in (cells : list cell) (seen : list (list cell)) : bool :=
  existsb (same_cells cells) seen.

(** [df.duplicated().any()]: some row repeats an earlier one. *)
Fixpoint any_duplicated (seen : list (list cell)) (rs : list row) : bool :=
  match rs with
  | [] => false
  | r :: rs' => seen_in r.2 seen || any_duplicated (r.2 :: seen) rs'
  end.

(** [df.drop_duplicates()]: the first of equal rows stays. *)
Fixpoint drop_duplicated (seen : list (list cell)) (rs : list row) : list row :=
  match rs with
  | [] => []
  | r :: rs' =>
      if seen_in r.2 seen then drop_duplicated seen rs'
      else r :: drop_duplicated (r.2 :: seen) rs'
  end.

Definition duplicated_any (df : frame) : bool := any_duplicated [] (rows df).

Definition drop_duplicates (df : frame) : frame :=
  mkframe (columns df) (drop_duplicated [] (rows df)).

Fixpoint index_of (label : string) (cols : list string) : option nat :=
  match cols with
  | [] => None
  | c :: cols' =>
      if decide (c = label) then Some 0 else S <$> index_of label cols'
  end.

Definition cell_at (i : nat) (r : row) : cell := default CNull (r.2 !! i).

(** The position of a column; [df[label]] raises [KeyError] on a label
    the table does not have. *)
Definition position (df : frame) (label : string) : exn + nat :=
  match index_of label (columns df) with
  | Some i => inr i
  | None => inl (KeyError label)
  end.

(** [df[mask]]: the rows the mask keeps, in a new table. *)
Definition keep_rows (p : row → bool) (df : frame) : frame :=
  mkframe (columns df) (List.filter p (rows df)).

Definition map_rows (f : row → row) (df : frame) : frame :=
  mkframe (columns df) (f <$> rows df).

Definition set_cell (i : nat) (c : cell) (r : row) : row := (r.1, <[i := c]> r.2).

(** [df.dropna()]: the rows with no missing value in any column. *)
Definition complete (ncols : nat) (r : row) : bool :=
  forallb (λ i, negb (isnull (cell_at i r))) (seq 0 ncols).

Definition dropna (df : frame) : frame :=
  keep_rows (complete (length (columns df))) df.

(** [series.value_counts().to_dict()]: how often each value that is
    not missing occurs (pandas lists them by decreasing count; here
    they come in the order of their first occurrence). *)
Fixpoint count_value (c : cell) (acc : list (cell * nat)) : list (cell * nat) :=
  match acc with
  | [] => [(c, 1)]
  | (x, n) :: acc' =>
      if decide (x = c) then (x, S n) :: acc' else (x, n) :: count_value c acc'
  end.

Definition value_counts (cells : list cell) : list (cell * nat) :=
  fold_left (λ acc c, if isnull c then acc else count_value c acc) cells [].

(** Column labels (lines 185-191). *)
Definition lower_char (c : ascii) : ascii :=
  let n := Z.of_N (Ascii.N_of_ascii c) in
  if ((65 <=? n) && (n <=? 90) || (192 <=? n) && (n <=? 222) && negb (n =? 215))%Z
  then Ascii.ascii_of_N (Z.to_N (n + 32)) else c.

Fixpoint lower (s : string) : string :=
  match s with
  | EmptyString => EmptyString
  | String c s' => String (lower_char c) (lower s')
  end.

(** [s.replace(pat, rep)] for a pattern that is not empty: the
    occurrences are replaced from left to right and do not overlap;
    [skip] counts the characters of an occurrence still to pass. *)
Fixpoint replace_from (pat rep : string) (skip : nat) (s : string) : string :=
  match s with
  | EmptyString => EmptyString
  | String c s' =>
      match skip with
      | S k => replace_from pat rep k s'
      | 0 =>
          if String.prefix pat s
          then rep +:+ replace_from pat rep (String.length pat - 1) s'
          else String c (replace_from pat rep 0 s')
      end
  end.

Definition replace (pat rep s : string) : string := replace_from pat rep 0 s.

Fixpoint lstrip (c : ascii) (s : string) : string :=
  match s with
  | String c' s' => if Ascii.eqb c c' then lstrip c s' else s
  | EmptyString => EmptyString
  end.

Definition strip (c : ascii) (s : string) : string :=
  String.rev (lstrip c (String.rev (lstrip c s))).

Definition normalize_label (label : string) : string :=
  strip "_" (replace "__" "_" (replace " " "_" (replace "nibrs" EmptyString (lower label)))).

(** Of the tables without columns the model has the two the loading
    asset returns.  [pd.DataFrame()], for an empty collection (line
    146), has no row either, and its columns are a [RangeIndex] from
    pandas 2 on.  [df[[]]], for documents with none of the required
    fields (line 158), has a row for every document, and its columns
    are an empty index of objects.  [is_bare] tells the first from the
    second. *)
Definition is_bare (df : frame) : bool :=
  bool_decide (columns df = []) && bool_decide (rows df = []).

(** The table with its labels normalised. *)
Definition relabel (df : frame) : frame :=
  mkframe (normalize_label <$> columns df) (rows df).

(** The assignment of lines 185-191.  The [.str] accessor takes an
    index of texts, an empty index of objects included; on the
    [RangeIndex] of [pd.DataFrame()] it raises [AttributeError]. *)
Definition normalize_columns (p : platform) (df : frame) : exn + frame :=
  if range_columns p && is_bare df then inl AttributeError
  else inr (relabel df).

End Frame.

(** ** The cleaning asset [clean_and_analyze_crime_data]
       (assets.py, lines 177-266) *)

Module Clean.
Import Platform Frame Timestamp.

(** Python objects live in a heap and variables hold references:
    an assignment to a column or to [columns] changes the table the
    variable refers to, a filter makes a new table. *)
Abbreviation loc := nat.
Abbreviation heap := (gmap nat frame).

Definition M (A : Type) : Type := heap → (exn + A) * heap.

Definition ret {A} (a : A) : M A := λ h, (inr a, h).

Definition raise {A} (e : exn) : M A := λ h, (inl e, h).

Definition bind {A B} (m : M A) (k : A → M B) : M B :=
  λ h, match m h with
       | (inr a, h') => k a h'
       | (inl e, h') => (inl e, h')
       end.

Notation "'let*' x ':=' m 'in' k" := (bind m (λ x, k))
  (at level 10, x name, m at level 100, k at level 200).

(** The same sequencing for steps that only compute. *)
Definition and_then {A B} (m : exn + A) (k : A → exn + B) : exn + B :=
  match m with
  | inr a => k a
  | inl e => inl e
  end.

Notation "'let?' x ':=' m 'in' k" := (and_then m (λ x, k))
  (at level 10, x name, m at level 100, k at level 200).

Definition lift {A} (m : exn + A) : M A := λ h, (m, h).

Definition load (l : loc) : M frame :=
  λ h, match h !! l with
       | Some df => (inr df, h)
       | None => (inl NoObject, h)
       end.

Definition alloc (df : frame) : M loc :=
  λ h, let l := fresh (dom h) in (inr l, <[l := df]> h).

Definition store (l : loc) (df : frame) : M unit :=
  λ h, (inr tt, <[l := df]> h).

(** [x = f(x)]: a new table, and the reference to it. *)
Definition rebind (f : frame → exn + frame) (l : loc) : M loc :=
  let* df := load l in
  let* df' := lift (f df) in
  alloc df'.

(** [x[...] = ...]: the table [x] refers to is changed. *)
Definition mutate (f : frame → exn + frame) (l : loc) : M unit :=
  let* df := load l in
  let* df' := lift (f df) in
  store l df'.

Definition read {A} (f : frame → exn + A) (l : loc) : M A :=
  let* df := load l in
  lift (f df).

(** The table [l] refers to is [df], [l] is a table made since the
    heap was [h0], and the tables of [h0] are as they were. *)
Definition current (h0 h : heap) (l : loc) (df : frame) : Prop :=
  h0 ⊆ h ∧ h0 !! l = None ∧ h !! l = Some df.

Record metadata := mkmetadata {
  rows_after_cleaning : nat;
  duplicates_removed : bool;
  valid_records : nat;
  invalid_records : nat;
  distribution_before : list (cell * nat);
  distribution_after : list (cell * nat);
  top_10_rows : list row
}.

#[global] Instance metadata_eq_dec : EqDecision metadata.
Proof. solve_decision. Defined.

Section Cleaning.
(** The versions of Python and pandas the asset runs on. *)
Variable p : platform.
(** [float(text)]; [None] when Python raises [ValueError]. *)
Variable float_of_str : string → option Z.
(** [str(x)] of a cell that is not a string. *)
Variable render : cell → string.

(** Lines 193-195 and 198-200. *)
Definition dedup (df : frame) : frame :=
  if duplicated_any df then drop_duplicates df else df.

(** [df[df[label] != text]]. *)
Definition where_ne (label text : string) (df : frame) : exn + frame :=
  let? i := position df label in
  inr (keep_rows (λ r, ne_str (cell_at i r) text) df).

Definition counts (label : string) (df : frame) : exn + list (cell * nat) :=
  let? i := position df label in
  inr (value_counts (cell_at i <$> rows df)).

(** Lines 209-211. *)
Definition drop_marked_latitude (df : frame) : exn + frame :=
  let? i := position df "latitude" in
  inr (keep_rows (λ r, ne_str (cell_at i r) "REDACTED"
                       && ne_str (cell_at i r) "-1.0") df).

(** [float(x)] on a cell; a missing value stays missing. *)
Definition to_float (c : cell) : exn + cell :=
  match c with
  | CNull => inr CNull
  | CNum bits => inr (CNum bits)
  | CStr s =>
      match float_of_str s with
      | Some bits => inr (CNum bits)
      | None => inl (ValueError s)
      end
  | CTime _ => inl TypeError
  end.

Fixpoint to_float_rows (i : nat) (rs : list row) : exn + list row :=
  match rs with
  | [] => inr []
  | r :: rs' =>
      let? c := to_float (cell_at i r) in
      let? rs'' := to_float_rows i rs' in
      inr (set_cell i c r :: rs'')
  end.

(** [df[label] = df[label].astype(float)], lines 212-213. *)
Definition astype_float (label : string) (df : frame) : exn + frame :=
  let? i := position df label in
  let? rs := to_float_rows i (rows df) in
  inr (mkframe (columns df) rs).

(** Line 218. *)
Definition drop_zero_coordinates (df : frame) : exn + frame :=
  let? i := position df "longitude" in
  let? j := position df "latitude" in
  inr (keep_rows (λ r, negb (eq_zero (cell_at i r) && eq_zero (cell_at j r))) df).

(** [series.astype(str)], cell by cell. *)
Definition as_str (c : cell) : string :=
  match c with
  | CStr s => s
  | _ => render c
  end.

Definition date_cell (o : option string) : cell :=
  match o with
  | Some s => CStr s
  | None => CNull
  end.

(** [df["offense_date"] = corrected_dates], line 250. *)
Definition set_dates (i : nat) (dates : list (option string)) (df : frame) : frame :=
  mkframe (columns df)
          (zip_with (λ r o, set_cell i (date_cell o) r) (rows df) dates).

(** [df.dropna(subset=["offense_date"])], line 251. *)
Definition drop_undated (i : nat) (df : frame) : frame :=
  keep_rows (λ r, negb (isnull (cell_at i r))) df.

(** Lines 234-251 on the table: the counters, and the table that is
    left. *)
Definition validate_dates (df : frame) : tally * frame :=
  match index_of "offense_date" (columns df) with
  | Some i =>
      let t := validate_all p (as_str ∘ cell_at i <$> rows df) in
      (t, drop_undated i (set_dates i (corrected_dates t) df))
  | None => (mktally 0 0 [], df)
  end.

(** The table and the metadata the asset computes from the table it
    is given. *)
Definition cleaned (raw : frame) : exn + (frame * metadata) :=
  let? df := normalize_columns p raw in
  let df := dedup df in
  let had_duplicates := duplicated_any df in
  let df := dedup df in
  let? df := where_ne "crime_against_category" "-" df in
  let? df := where_ne "precinct" "-" df in
  let? before := counts "crime_against_category" df in
  let? df := drop_marked_latitude df in
  let? df := astype_float "latitude" df in
  let? df := astype_float "longitude" df in
  let df := dropna df in
  let? df := where_ne "crime_against_category" "NOT_A_CRIME" df in
  let? df := drop_zero_coordinates df in
  let '(t, df) := validate_dates df in
  let? after := counts "crime_against_category" df in
  inr (df, mkmetadata (length (rows df)) had_duplicates
             (valid_dt t) (invalid_dt t) before after (take 10 (rows df))).

(** The asset, statement by statement.  [input] refers to the table
    the loading asset returned; the result refers to the cleaned
    table.  (Line 181 silences warnings and has no other effect.) *)
Definition clean_and_analyze_crime_data (input : loc) : M (loc * metadata) :=
  let* crime_df := rebind inr input in                          (* .copy() *)
  let* _ := mutate (normalize_columns p) crime_df in
  let* had_duplicates := read (inr ∘ duplicated_any) crime_df in
  let* crime_df :=
    if had_duplicates then rebind (inr ∘ drop_duplicates) crime_df
    else ret crime_df in
  let* had_duplicates := read (inr ∘ duplicated_any) crime_df in
  let* crime_df :=
    if had_duplicates then rebind (inr ∘ drop_duplicates) crime_df
    else ret crime_df in
  let* crime_df := rebind (where_ne "crime_against_category" "-") crime_df in
  let* crime_df := rebind (where_ne "precinct" "-") crime_df in
  let* before := read (counts "crime_against_category") crime_df in
  let* crime_df := rebind drop_marked_latitude crime_df in
  let* _ := mutate (astype_float "latitude") crime_df in
  let* _ := mutate (astype_float "longitude") crime_df in
  let* crime_df := rebind (inr ∘ dropna) crime_df in
  let* crime_df :=
    rebind (where_ne "crime_against_category" "NOT_A_CRIME") crime_df in
  let* crime_df := rebind drop_zero_coordinates crime_df in
  let* has_dates :=
    read (λ df, inr (index_of "offense_date" (columns df))) crime_df in
  let* dated :=
    match has_dates with
    | Some i =>
        let* vals := read (λ df, inr (as_str ∘ cell_at i <$> rows df)) crime_df in
        let t := validate_all p vals in
        let* _ := mutate (inr ∘ set_dates i (corrected_dates t)) crime_df in
        let* crime_df := rebind (inr ∘ drop_undated i) crime_df in
        ret (t, crime_df)
    | None => ret (mktally 0 0 [], crime_df)
    end in
  let* after := read (counts "crime_against_category") dated.2 in
  let* n := read (λ df, inr (length (rows df))) dated.2 in
  let* top := read (λ df, inr (take 10 (rows df))) dated.2 in
  ret (dated.2, mkmetadata n had_duplicates (valid_dt dated.1)
                  (invalid_dt dated.1) before after top).
End Cleaning.

End Clean.

(** ** What the sink keeps from run to run *)

Module SinkInvariants.
Import Sink.

(** The report numbers of the collection, in the order of the
    documents that have one. *)
Definition keys (c : list doc) : list string :=
  omap (λ d : doc, d !! "report_number") c.

(** At most one document per report number. *)
Definition unique_keys (c : list doc) : Prop := NoDup (keys c).

(** A stored document after some upserts: it has the fields it had,
    and perhaps more, and the report number it had. *)
Definition kept (d d' : doc) : Prop :=
  dom d ⊆ dom d' ∧ d' !! "report_number" = d !! "report_number".

(** The collection [c'] is [c] after some upserts: the documents of
    [c] are where they were, and the documents after them are new and
    have a report number. *)
Definition grown (c c' : list doc) : Prop :=
  ∃ upd new, c' = upd ++ new ∧ Forall2 kept c upd
             ∧ Forall (λ d : doc, is_Some (d !! "report_number")) new.

(** Operations as the asset builds them: each one is keyed by the
    report number of its record. *)
Definition keyed_ops (ops : list (string * doc)) : Prop :=
  ∀ k (r : doc), (k, r) ∈ ops → r !! "report_number" = Some k.

End SinkInvariants.

(** ** The requests of a run against a service that answers *)

Module Schedule.
Import Calendar Ingest Remote.

(** The days the day loop goes through: from [cur] on, day by day,
    as long as the day is not after [today]. *)
Fixpoint days_through (fuel : nat) (cur today : date) : list date :=
  match fuel with
  | 0 => []
  | S fuel' =>
      if date_leb cur today
      then cur :: days_through fuel' (next_day cur) today
      else []
  end.

(** The number of requests for a day of which [n] records are left to
    fetch: one for every thousand begun, and the one that comes back
    empty. *)
Definition page_count (n : nat) : nat := S ((n + 999) / 1000).

Definition schedule (ds : list doc) (fuel : nat) (start today : date)
  : list request :=
  d ← days_through fuel start today;
  page_requests d 0 (page_count (length (day_window ds d))).

(** The collection has the record [r] of the service: a document with
    its report number and with all its fields, at their values. *)
Definition stored (r : doc) (c : list doc) : Prop :=
  ∃ d : doc, d ∈ c ∧ d !! "report_number" = r !! "report_number" ∧ r ⊆ d.

End Schedule.

(** ** The timestamp column after the validation loop *)

Module Validation.
Import Platform Timestamp Frame Clean.

(** What an iteration of the loop of lines 239-249 appends to
    [corrected_dates] for the value [val]. *)
Definition corrected (p : platform) (val : string) : option string :=
  if iso_match val then Some val
  else match correct_datetime p val with
       | Some (String c fixed) => Some (String c fixed)
       | _ => None
       end.

(** What lines 250-251 make of a row whose cell [q] is its
    [offense_date]: the row with the timestamp the loop found for it,
    or nothing. *)
Definition fix_row (p : platform) (render : cell → string) (q : nat) (r : row)
  : option row :=
  (λ s, set_cell q (CStr s) r) <$> corrected p (as_str render (cell_at q r)).

(** A cell that holds a text or a timestamp. *)
Definition plain (c : cell) : Prop := (∃ s, c = CStr s) ∨ ∃ t, c = CTime t.

(** A row that passes every test of the cleaning: it has a cell, a
    text or a timestamp, for every column; its category, precinct and
    latitude are none of the texts the asset filters on; its
    coordinates read as the floats [lo] and [la], numbers that are not
    both zero; and its timestamp, if the table has the column, is
    valid or can be rewritten. *)
Definition usable (p : platform) (float_of_str : string → option Z)
    (render : cell → string) (cols : list string) (r : row) (lo la : Z) : Prop :=
  length r.2 = length cols
  ∧ Forall plain r.2
  ∧ (∀ k, index_of "crime_against_category" cols = Some k →
       cell_at k r ≠ CStr "-" ∧ cell_at k r ≠ CStr "NOT_A_CRIME")
  ∧ (∀ k, index_of "precinct" cols = Some k → cell_at k r ≠ CStr "-")
  ∧ (∀ k, index_of "latitude" cols = Some k →
       cell_at k r ≠ CStr "REDACTED" ∧ cell_at k r ≠ CStr "-1.0"
       ∧ to_float float_of_str (cell_at k r) = inr (CNum la)
       ∧ is_nan la = false)
  ∧ (∀ k, index_of "longitude" cols = Some k →
       to_float float_of_str (cell_at k r) = inr (CNum lo)
       ∧ is_nan lo = false)
  ∧ is_zero lo && is_zero la = false
  ∧ (∀ k, index_of "offense_date" cols = Some k →
       is_Some (corrected p (as_str render (cell_at k r)))).

End Validation.

(** ** The loading asset [load_and_process_crime_data_from_mongodb]
       (assets.py, lines 136-172) *)

Module Loader.
Import Sink Frame.

(** Lines 151-156. *)
Definition required_columns : list string :=
  ["report_number"; "report_date_time"; "offense_date";
   "nibrs_crime_against_category"; "offense_sub_category"; "offense_category";
   "nibrs_offense_code"; "nibrs_offense_code_description"; "precinct";
   "sector"; "beat"; "neighborhood"; "longitude"; "latitude"].

(** The field names of the documents: they are the column labels of
    [pd.DataFrame(data_list)].  (The [_id] of a document is its
    position in the collection; no required column is named so.) *)
Definition fields (docs : list doc) : gset string := ⋃ (dom <$> docs).

(** Two field names of the collection never differ by case only.  The
    labels of the table stay distinct when line 149 lowers them; the
    model of the asset covers these collections. *)
Definition case_free (docs : list doc) : Prop :=
  ∀ k1 k2, k1 ∈ fields docs → k2 ∈ fields docs → lower k1 = lower k2 → k1 = k2.

(** The field behind the lowered label [c]. *)
Definition source_field (docs : list doc) (c : string) : option string :=
  head (filter (λ k, lower k = c) (elements (fields docs))).

(** Line 157, each label with the field behind it. *)
Definition available_columns (docs : list doc) : list (string * string) :=
  omap (λ c, (λ k, (c, k)) <$> source_field docs c) required_columns.

(** A field a document does not have is a missing value. *)
Definition field_cell (d : doc) (k : string) : cell :=
  match d !! k with
  | Some v => CStr v
  | None => CNull
  end.

(** Lines 148-158: [df[available_columns]], rows labelled from 0. *)
Definition table_of (docs : list doc) : frame :=
  mkframe (available_columns docs).*1
          (imap (λ i d, (Z.of_nat i, field_cell d <$> (available_columns docs).*2))
                docs).

Definition column (i : nat) (df : frame) : list cell := cell_at i <$> rows df.

(** [df[label] = values], the values taken in the order of the rows. *)
Definition set_column (i : nat) (values : list cell) (df : frame) : frame :=
  mkframe (columns df) (zip_with (λ r c, set_cell i c r) (rows df) values).

Inductive load_metadata :=
| Warning (text : string)
| Summary (total_rows columns_count : nat) (selected : list string)
          (top_10 : list row).

Section Loading.
(** [pd.to_datetime(series, errors="coerce")]: a column of timestamps,
    missing where pandas could not read one. *)
Variable to_datetime : list cell → list cell.

(** Lines 160-162, for one label. *)
Definition convert_dates (label : string) (df : frame) : frame :=
  match index_of label (columns df) with
  | Some i => set_column i (to_datetime (column i df)) df
  | None => df
  end.

(** The asset, on the documents [collection.find()] returns. *)
Definition load_and_process_crime_data_from_mongodb (docs : list doc)
  : frame * load_metadata :=
  match docs with
  | [] => (mkframe [] [], Warning "MongoDB returned no records")
  | _ =>
      let crime_df :=
        convert_dates "offense_date"
          (convert_dates "report_date_time" (table_of docs)) in
      (crime_df, Summary (length (rows crime_df)) (length (columns crime_df))
                         (available_columns docs).*1 (take 10 (rows crime_df)))
  end.

End Loading.
End Loader.

(** ** The texts of a timestamp *)

Module Stamps.
Import Calendar Timestamp.

(** [str(t)] of a pandas timestamp on a whole second:
    ["YYYY-MM-DD HH:MM:SS"]. *)
Definition space_form (dt : datetime) : string :=
  date_str (dt_date dt) +:+ " " +:+ pad2 (hour dt) +:+ ":" +:+ pad2 (minute dt)
  +:+ ":" +:+ pad2 (second dt).

(** The same with the letter [T] between the date and the time. *)
Definition t_form (dt : datetime) : string :=
  date_str (dt_date dt) +:+ "T" +:+ pad2 (hour dt) +:+ ":" +:+ pad2 (minute dt)
  +:+ ":" +:+ pad2 (second dt).

End Stamps.

(** ** The warehouse asset [store_crime_data_postgres]
       (assets.py, lines 272-288) *)

Module Warehouse.
Import Frame Clean.

(** A table of the database: the names of its columns and its rows.
    The index of the frame is not written ([index=False]). *)
Record table := mktable { fields : list string; records : list (list cell) }.

Abbreviation database := (gmap string table).

(** [df.to_sql(name, engine, if_exists="replace", index=False)]: the
    table of that name is dropped, if there is one, and made anew from
    the frame. *)
Definition to_sql (name : string) (df : frame) (db : database) : database :=
  <[name := mktable (columns df) (snd <$> rows df)]> db.

Record store_metadata := mkstore_metadata {
  table_name : string;
  rows_stored : nat;
  stored_columns : list string;
  top_5_rows : list row
}.

Definition store_crime_data_postgres (df : frame) (db : database)
  : (frame * store_metadata) * database :=
  let table := "CleanSeattleCrimeData" in
  let db' := to_sql table df db in
  ((df, mkstore_metadata table (length (rows df)) (columns df) (take 5 (rows df))),
   db').

End Warehouse.

(** ** The daily job [daily_crime_ingestion_job] (jobs.py, lines 18-26)

    The job materialises its four assets in the order of their
    dependencies: an asset takes the value the one before it returned,
    and an asset that raises ends the run, the ones after it being
    skipped. *)

Module Jobs.
Import Platform Calendar Sink Ingest Frame Clean Loader Warehouse.

(** The two stores of the pipeline. *)
Record stores := mkstores { mongo : list doc; postgres : database }.

Inductive job_outcome :=
| FetchRaised (e : error)
| FetchRunning          (* the fetch loop had not ended when the fuel ran out *)
| CleanRaised (e : exn)
| Materialized (md : metadata) (sm : store_metadata).

Section Daily.
Variable http_get : request → response.
Variable exec_order : list (string * doc) → list (string * doc).
Variable to_date : string → option date.
Variable to_datetime : list cell → list cell.
Variable p : platform.
Variable float_of_str : string → option Z.
Variable render : cell → string.

Definition daily_crime_ingestion_job (dfuel pfuel : nat) (today : date)
    (s : stores) : job_outcome * stores :=
  match fetch_crime_data http_get exec_order to_date dfuel pfuel today (mongo s) with
  | (Failed e, w) => (FetchRaised e, mkstores (sink w) (postgres s))
  | (Unfinished, w) => (FetchRunning, mkstores (sink w) (postgres s))
  | (_, w) =>
      let loaded :=
        (load_and_process_crime_data_from_mongodb to_datetime (sink w)).1 in
      match clean_and_analyze_crime_data p float_of_str render 0 {[ 0 := loaded ]} with
      | (inl e, _) => (CleanRaised e, mkstores (sink w) (postgres s))
      | (inr (l, md), h) =>
          match h !! l with
          | Some out =>
              let '((_, sm), db) := store_crime_data_postgres out (postgres s) in
              (Materialized md sm, mkstores (sink w) db)
          | None => (CleanRaised NoObject, mkstores (sink w) (postgres s))
          end
      end
  end.

End Daily.
End Jobs.

(** ** The filters of the dashboard (dashboard/app.py, lines 79-108 and 120-194) *)

Module Dashboard.

(** What the user did with one filter of the sidebar: the box
    "Select All", and the options ticked in the list. *)
Record choice (A : Type) := mkchoice { select_all : bool; picked : list A }.
Arguments mkchoice {A} _ _.
Arguments select_all {A} _.
Arguments picked {A} _.

(** Lines 79-108. *)
Definition multiselect_with_select_all {A} (options : list A) (c : choice A)
  : list A :=
  if select_all c then options else picked c.

Record selections := mkselections {
  years : choice Z;
  months : choice Z;
  days : choice Z;
  neighborhoods : choice string;
  sub_categories : choice string;
  precincts : choice string
}.

Section Filters.
(** A row of the table, by what the filters read of it: the year, the
    month and the day of its [offense_date], which [load_crime_data]
    made sure it has, and its cell in a column of texts, [None] when
    the cell holds no text. *)
Variable R : Type.
Variable year_of month_of day_of : R → Z.
(** The three columns of texts, when the table has them. *)
Variable neighborhood_col sub_category_col precinct_col : option (R → option string).

(** [sorted(series.unique())]. *)
Definition sorted_numbers (values : list Z) : list Z :=
  merge_sort Z.le (remove_dups values).

(** [sorted([n for n in series.unique() if isinstance(n, str)])]. *)
Definition sorted_texts (cells : list (option string)) : list string :=
  merge_sort String.le (remove_dups (omap id cells)).

(** [df[series.isin(selected)]]. *)
Definition isin_number (f : R → Z) (selected : list Z) (df : list R) : list R :=
  List.filter (λ r, bool_decide (f r ∈ selected)) df.

Definition isin_text (f : R → option string) (selected : list string)
    (df : list R) : list R :=
  List.filter (λ r, match f r with
                    | Some s => bool_decide (s ∈ selected)
                    | None => false
                    end) df.

Inductive view :=
| MissingNeighborhood          (* lines 154-156: the error, and [st.stop()] *)
| KeyError (label : string)    (* a column the script reads is not there *)
| NoData                       (* lines 192-194: the warning, and [st.stop()] *)
| Shown (df : list R).

Definition filter_text (col : R → option string) (c : choice string)
    (df : list R) : list R :=
  isin_text col (multiselect_with_select_all (sorted_texts (col <$> df)) c) df.

(** Lines 120-194: the table the charts are drawn from. *)
Definition filtered (u : selections) (crime_df : list R) : view :=
  let df := crime_df in
  let df := isin_number year_of
              (multiselect_with_select_all (sorted_numbers (year_of <$> df))
                 (years u)) df in
  let df := isin_number month_of
              (multiselect_with_select_all (sorted_numbers (month_of <$> df))
                 (months u)) df in
  let df := isin_number day_of
              (multiselect_with_select_all (sorted_numbers (day_of <$> df))
                 (days u)) df in
  match neighborhood_col with
  | None => MissingNeighborhood
  | Some neighborhood_of =>
      let df := filter_text neighborhood_of (neighborhoods u) df in
      match sub_category_col with
      | None => KeyError "offense_sub_category"
      | Some sub_category_of =>
          let df := filter_text sub_category_of (sub_categories u) df in
          match precinct_col with
          | None => KeyError "precinct"
          | Some precinct_of =>
              let df := filter_text precinct_of (precincts u) df in
              match df with
              | [] => NoData
              | _ => Shown df
              end
          end
      end
  end.

(** The filter [c] lets the value [x] through. *)
Definition allows {A} (c : choice A) (x : A) : Prop :=
  select_all c = true ∨ x ∈ picked c.

(** The filter [c] is as the page first shows it: the box not ticked
    and no option ticked. *)
Definition untouched {A} (c : choice A) : Prop :=
  select_all c = false ∧ picked c = [].

(** The row [r] passes the six filters. *)
Definition passes (neighborhood_of sub_category_of precinct_of : R → option string)
    (u : selections) (r : R) : Prop :=
  allows (years u) (year_of r)
  ∧ allows (months u) (month_of r)
  ∧ allows (days u) (day_of r)
  ∧ (∃ s, neighborhood_of r = Some s ∧ allows (neighborhoods u) s)
  ∧ (∃ s, sub_category_of r = Some s ∧ allows (sub_categories u) s)
  ∧ (∃ s, precinct_of r = Some s ∧ allows (precincts u) s).

End Filters.
End Dashboard.

(** ** The shape of a column label *)

Module Labels.
Import Regex.

Abbreviation chars := String.list_ascii_of_string.

(** A capital letter of the Latin alphabet. *)
Definition capital (c : ascii) : Prop := (65 ≤ code c ≤ 90)%Z.

End Labels.
(** ** Sample data *)

Module Samples.
Import Calendar Ingest.

Definition stored_A : doc :=
  {[ "report_number" := "A"; "precinct" := "N"; "beat" := "B1" ]}.

Definition fresh_A : doc :=
  {[ "report_number" := "A"; "precinct" := "S" ]}.

Definition merged_A : doc :=
  {[ "report_number" := "A"; "precinct" := "S"; "beat" := "B1" ]}.

Definition digit_val (c : ascii) : option Z :=
  let n := Z.of_N (Ascii.N_of_ascii c) in
  if ((48 <=? n) && (n <=? 57))%Z then Some (n - 48)%Z else None.

Definition number (ds : list ascii) : option Z :=
  foldl (λ acc c, a ← acc; v ← digit_val c; Some (10 * a + v)%Z) (Some 0%Z) ds.

(** A reader of timestamps that begin with an ISO calendar date
    [YYYY-MM-DD], as pandas reads them; it stands for
    [pd.to_datetime(v).date()] on the sample data. *)
Definition leading_date (s : string) : option date :=
  match s with
  | String y1 (String y2 (String y3 (String y4 (String "-" (String m1
      (String m2 (String "-" (String d1 (String d2 _))))))))) =>
      y ← number [y1; y2; y3; y4];
      m ← number [m1; m2];
      d ← number [d1; d2];
      let r := mkdate y m d in
      if valid_date r then Some r else None
  | _ => None
  end.


(** A service that answers the first page of a day and fails on the
    second. *)
Definition fails_on_second_page (ds : list doc) (req : request) : response :=
  if decide (offset req = 0) then Remote.soda_get ds req
  else Http 503 None.

Definition in_order (ops : list (string * doc)) : list (string * doc) := ops.

Definition incident (k stamp : string) : doc :=
  {[ "report_number" := k; "offense_date" := stamp ]}.

Definition jan_1 : date := mkdate 2025 1 1.
Definition jan_2 : date := mkdate 2025 1 2.
Definition jan_3 : date := mkdate 2025 1 3.

Definition one_incident : list doc :=
  [incident "A" "2025-01-01T10:00:00.000"].

(** Two incidents of the first of January, the second one in the last
    second of the day. *)
Definition late_incidents : list doc :=
  [incident "A" "2025-01-01T10:00:00.000";
   incident "B" "2025-01-01T23:59:59.500"].

End Samples.

Module TableSamples.
Import Platform Frame Clean.

(** Python 3.11 on glibc with pandas 2, and Python 3.13 with pandas 2. *)
Definition python_311 : platform := mkplatform false true.
Definition python_313 : platform := mkplatform true true.

(** [float(text)] on the texts of the sample tables: 47.6, -122.3 and
    0.0 by their binary64 bit patterns. *)
Definition float_of_sample (s : string) : option Z :=
  if decide (s = "47.6") then Some 4631895921755213005%Z
  else if decide (s = "-122.3") then Some 13861678551204574003%Z
  else if decide (s = "0.0") then Some 0%Z
  else None.

Definition render_sample (c : cell) : string :=
  match c with
  | CTime _ => "2025-03-01 10:15:30"
  | _ => "nan"
  end.

Definition sample_columns : list string :=
  ["report_number"; "offense_date"; "nibrs_crime_against_category";
   "precinct"; "longitude"; "latitude"].

Definition sample_row (label : Z) (k stamp category lon lat : string) : row :=
  (label, [CStr k; CStr stamp; CStr category; CStr "N"; CStr lon; CStr lat]).

(** The same incident twice. *)
Definition twice_reported : frame :=
  mkframe sample_columns
    [sample_row 0 "A" "2025-03-01 10:15:30" "PROPERTY" "-122.3" "47.6";
     sample_row 1 "A" "2025-03-01 10:15:30" "PROPERTY" "-122.3" "47.6"].

(** The three raw records of the end-to-end example: a redacted
    latitude, an unknown category, and a usable record. *)
Definition three_records : frame :=
  mkframe sample_columns
    [sample_row 0 "A" "2025-03-01T10:15:30.000" "PERSON" "-122.3" "REDACTED";
     sample_row 1 "B" "2025-03-01T10:15:30.000" "-" "-122.3" "47.6";
     sample_row 2 "C" "2025-03-01 10:15:30" "PROPERTY" "-122.3" "47.6"].

Definition cleaned_three : frame :=
  mkframe ["report_number"; "offense_date"; "crime_against_category";
           "precinct"; "longitude"; "latitude"]
    [(2%Z, [CStr "C"; CStr "2025-03-01T10:15:30.000"; CStr "PROPERTY";
            CStr "N"; CNum 13861678551204574003; CNum 4631895921755213005])].

Definition metadata_three : metadata :=
  {| rows_after_cleaning := 1;
     duplicates_removed := false;
     valid_records := 1;
     invalid_records := 0;
     distribution_before := [(CStr "PERSON", 1); (CStr "PROPERTY", 1)];
     distribution_after := [(CStr "PROPERTY", 1)];
     top_10_rows := rows cleaned_three |}.

Definition cleaned_twice : frame :=
  mkframe ["report_number"; "offense_date"; "crime_against_category";
           "precinct"; "longitude"; "latitude"]
    [(0%Z, [CStr "A"; CStr "2025-03-01T10:15:30.000"; CStr "PROPERTY";
            CStr "N"; CNum 13861678551204574003; CNum 4631895921755213005])].

(** An incident dated in the year 999. *)
Definition short_year : frame :=
  mkframe sample_columns
    [sample_row 0 "A" "0999-12-31 23:59:59" "PROPERTY" "-122.3" "47.6"].

Definition cleaned_short_year : frame :=
  mkframe ["report_number"; "offense_date"; "crime_against_category";
           "precinct"; "longitude"; "latitude"]
    [(0%Z, [CStr "A"; CStr "999-12-31T23:59:59.000"; CStr "PROPERTY";
            CStr "N"; CNum 13861678551204574003; CNum 4631895921755213005])].

Definition metadata_short_year : metadata :=
  {| rows_after_cleaning := 1;
     duplicates_removed := false;
     valid_records := 1;
     invalid_records := 0;
     distribution_before := [(CStr "PROPERTY", 1)];
     distribution_after := [(CStr "PROPERTY", 1)];
     top_10_rows := rows cleaned_short_year |}.

Definition metadata_twice : metadata :=
  {| rows_after_cleaning := 1;
     duplicates_removed := false;
     valid_records := 1;
     invalid_records := 0;
     distribution_before := [(CStr "PROPERTY", 1)];
     distribution_after := [(CStr "PROPERTY", 1)];
     top_10_rows := rows cleaned_twice |}.

End TableSamples.


(** ** Sample data of the further properties *)

Module RunSamples.
Import Calendar Ingest Samples.

Definition dec_31 : date := mkdate 2024 12 31.

(** A sink that was filled up to the last day of 2024 and has, from
    another source, a document of the report [A] with no date. *)
Definition stored_before : list doc :=
  [incident "Z" "2024-12-31T08:00:00.000"; stored_A].

(** The dataset of the service: the incident the sink has, and one for
    each of the two days that follow. *)
Definition three_days : list doc :=
  [incident "B" "2025-01-02T09:30:00.000";
   incident "Z" "2024-12-31T08:00:00.000";
   incident "A" "2025-01-01T10:00:00.000"].

End RunSamples.

Module CleanSamples.
Import Platform Frame Clean TableSamples.

(** A table without the category of the offence. *)
Definition no_category : frame :=
  mkframe ["report_number"; "Precinct"; "latitude"; "longitude"]
    [(0%Z, [CStr "A"; CStr "N"; CStr "47.6"; CStr "-122.3"])].

End CleanSamples.

Module LoadSamples.
Import Platform Sink Frame Loader Samples.

(** Two stored documents; the second has no precinct. *)
Definition two_documents : list doc :=
  [ {[ "report_number" := "A"; "precinct" := "N";
       "offense_date" := "2025-03-01T10:15:30.000" ]};
    {[ "report_number" := "B";
       "offense_date" := "not-a-date" ]} ].

(** A reader of timestamps for the sample documents: the one
    timestamp they have, by its count of nanoseconds. *)
Definition to_datetime_sample (values : list cell) : list cell :=
  (λ c, if decide (c = CStr "2025-03-01T10:15:30.000")
        then CTime 1740824130000000000 else CNull) <$> values.

End LoadSamples.

Module ErrorSamples.
Import Platform Frame Clean TableSamples.

(** Two records, the second without a timestamp and with a latitude
    that is no number. *)
Definition bad_latitude : frame :=
  mkframe sample_columns
    [sample_row 0 "A" "2025-03-01T10:15:30.000" "PERSON" "-122.3" "47.6";
     (1%Z, [CStr "B"; CNull; CStr "PROPERTY"; CStr "N"; CStr "-122.3";
            CStr "north"])].

End ErrorSamples.

Module DashboardSamples.
Import Dashboard.

(** A row of the sample table: the day of the offence and the three
    texts the filters read. *)
Record incident_row := mkincident_row {
  row_year : Z; row_month : Z; row_day : Z;
  row_neighborhood : option string;
  row_sub_category : option string;
  row_precinct : option string
}.

(** Two incidents of the same day; the second fell in no
    neighbourhood. *)
Definition two_incidents : list incident_row :=
  [mkincident_row 2025 3 1 (Some "BALLARD") (Some "THEFT") (Some "N");
   mkincident_row 2025 3 1 None (Some "THEFT") (Some "N")].

Definition everything : selections :=
  mkselections (mkchoice true []) (mkchoice true []) (mkchoice true [])
               (mkchoice true []) (mkchoice true []) (mkchoice true []).

(** Every box ticked but the one of the months, which is left as the
    page first shows it. *)
Definition no_month : selections :=
  mkselections (mkchoice true []) (mkchoice false []) (mkchoice true [])
               (mkchoice true []) (mkchoice true []) (mkchoice true []).

End DashboardSamples.

Module JobSamples.
Import Sink Samples.

(** A dataset of records that carry no category. *)
Definition uncategorised : list doc :=
  [incident "A" "2025-01-01T10:00:00.000"].

End JobSamples.

Module PipelineSamples.
Import Platform Calendar Timestamp Frame Clean TableSamples Stamps.

(** A record as the loading asset hands it over: the time of the
    offence is a timestamp. *)
Definition loaded_record : frame :=
  mkframe sample_columns
    [(0%Z, [CStr "C"; CTime 1740824130000000000; CStr "PROPERTY"; CStr "N";
            CStr "-122.3"; CStr "47.6"])].

(** The moment the sample timestamp stands for. *)
Definition sample_moment : datetime := mkdatetime (mkdate 2025 3 1) 10 15 30.

Definition render_moment (c : cell) : string := space_form sample_moment.

Definition metadata_loaded : metadata :=
  {| rows_after_cleaning := 1;
     duplicates_removed := false;
     valid_records := 1;
     invalid_records := 0;
     distribution_before := [(CStr "PROPERTY", 1)];
     distribution_after := [(CStr "PROPERTY", 1)];
     top_10_rows :=
       [(0%Z, [CStr "C"; CStr "2025-03-01T10:15:30.000"; CStr "PROPERTY";
               CStr "N"; CNum 13861678551204574003;
               CNum 4631895921755213005])] |}.

(** A record of midnight, and how pandas writes a column of
    midnights: as dates. *)
Definition midnight_record : frame :=
  mkframe sample_columns
    [(0%Z, [CStr "C"; CTime 1740787200000000000; CStr "PROPERTY"; CStr "N";
            CStr "-122.3"; CStr "47.6"])].

Definition sample_midnight : datetime := mkdatetime (mkdate 2025 3 1) 0 0 0.

Definition render_day (c : cell) : string := date_str (dt_date sample_midnight).

Definition metadata_midnight : metadata :=
  {| rows_after_cleaning := 0;
     duplicates_removed := false;
     valid_records := 0;
     invalid_records := 1;
     distribution_before := [(CStr "PROPERTY", 1)];
     distribution_after := [];
     top_10_rows := [] |}.

End PipelineSamples.
(* ================================================================== *)
(** * Theorems *)
(* ================================================================== *)

Module SinkFacts.
Import Sink SinkSpec Samples.

Lemma update_one_absent k record (c : list doc) :
  record !! "report_number" = Some k →
  Forall (λ d, ¬ has_key k d) c →
  update_one k record c = (c ++ [record], 1).
Proof.
  intros Hk Hc. induction Hc as [|d c Hd _ IH]; simpl.
  - f_equal. f_equal. apply map_eq. intros f.
    rewrite lookup_union. destruct (decide (f = "report_number")) as [->|Hne].
    + rewrite Hk, lookup_singleton_eq. done.
    + rewrite lookup_singleton_ne by done. by destruct (record !! f).
  - rewrite decide_False by exact Hd. by rewrite IH.
Qed.

Lemma update_one_present k record (pre post : list doc) (d : doc) :
  Forall (λ x, ¬ has_key k x) pre →
  has_key k d →
  update_one k record (pre ++ d :: post) = (pre ++ (record ∪ d) :: post, 0).
Proof.
  intros Hpre Hd. induction Hpre as [|x pre Hx _ IH]; simpl.
  - by rewrite decide_True.
  - rewrite decide_False by exact Hx. by rewrite IH.
Qed.

Lemma set_fields (record d : doc) (f : string) :
  (record ∪ d) !! f = match record !! f with Some v => Some v | None => d !! f end.
Proof. rewrite lookup_union. by destruct (record !! f), (d !! f). Qed.

Lemma split_first_key k (c : list doc) :
  Forall (λ d, ¬ has_key k d) c ∨
  ∃ pre d post, c = pre ++ d :: post ∧ Forall (λ x, ¬ has_key k x) pre ∧ has_key k d.
Proof.
  induction c as [|x c IH]; [by left|].
  destruct (decide (has_key k x)) as [Hx|Hx].
  - right. exists [], x, c. by repeat split.
  - destruct IH as [IH|(pre & d & post & -> & Hpre & Hd)].
    + left. by constructor.
    + right. exists (x :: pre), d, post. repeat split; [|done]. by constructor.
Qed.

Lemma update_one_again k record (c : list doc) :
  record !! "report_number" = Some k →
  update_one k record (update_one k record c).1 = ((update_one k record c).1, 0).
Proof.
  intros Hk. destruct (split_first_key k c) as [Habs|(pre & d & post & -> & Hpre & Hd)].
  - rewrite (update_one_absent _ _ _ Hk Habs). simpl.
    rewrite (update_one_present k record c [] record Habs Hk).
    do 3 f_equal. apply map_eq. intros f. rewrite set_fields. by destruct (record !! f).
  - rewrite (update_one_present _ _ _ _ _ Hpre Hd). simpl.
    assert (has_key k (record ∪ d)) as Hd'.
    { unfold has_key. rewrite set_fields. by rewrite Hk. }
    rewrite (update_one_present _ _ _ _ _ Hpre Hd').
    do 3 f_equal. apply map_eq. intros f. rewrite !set_fields. by destruct (record !! f).
Qed.

(** C1, as the specification states it, fails: on a key that is
    present, the code sets the fields of the new record on the stored
    document and keeps the stored fields the new record lacks; a
    full-document replacement would drop them. *)
Lemma update_one_is_not_replacement :
  update_one "A" fresh_A [stored_A] = ([merged_A], 0)
  ∧ replace_one "A" fresh_A [stored_A] = ([fresh_A], 0)
  ∧ update_one "A" fresh_A [stored_A] ≠ replace_one "A" fresh_A [stored_A].
Proof.
  assert (update_one "A" fresh_A [stored_A] = ([merged_A], 0)) as H1.
  { compute_done. }
  assert (replace_one "A" fresh_A [stored_A] = ([fresh_A], 0)) as H2.
  { compute_done. }
  split; [done|]. split; [done|]. rewrite H1, H2. intros H.
  assert (merged_A !! "beat" = fresh_A !! "beat") as Hb by congruence.
  vm_compute in Hb. discriminate.
Qed.

End SinkFacts.

Module SinkClaims.
Import Sink SinkSpec Samples SinkFacts.

Lemma operations_spec (batch : list doc) (k : string) (record : doc) :
  (k, record) ∈ operations batch ↔
  record ∈ batch ∧ record !! "report_number" = Some k.
Proof.
  unfold operations. rewrite list_elem_of_omap. split.
  - intros (r & Hr & Heq). destruct (r !! "report_number") as [k'|] eqn:Hk;
      simplify_eq/=. done.
  - intros (Hr & Hk). exists record. split; [done|]. by rewrite Hk.
Qed.

(** C1 (amended).  Every record of a batch that has a [report_number]
    becomes one upsert keyed by it, and the others are skipped.  An
    upsert whose key is absent from the sink inserts the record.  An
    upsert whose key is present sets every field of the new record on
    the first stored document with that key and keeps the stored fields
    the new record does not have.  Upserting the same record again
    changes nothing and counts no insert. *)
Theorem upsert_sets_fields (k : string) (record : doc) (c : list doc) :
  record !! "report_number" = Some k →
  (∀ batch : list doc, record ∈ batch → (k, record) ∈ operations batch)
  ∧ (∀ (batch : list doc) (r : doc), r !! "report_number" = None →
       operations (r :: batch) = operations batch)
  ∧ (Forall (λ d, ¬ has_key k d) c →
       update_one k record c = (c ++ [record], 1))
  ∧ (∀ (pre post : list doc) (d : doc),
       c = pre ++ d :: post →
       Forall (λ x, ¬ has_key k x) pre →
       has_key k d →
       update_one k record c = (pre ++ (record ∪ d) :: post, 0)
       ∧ ∀ f, (record ∪ d) !! f
              = match record !! f with Some v => Some v | None => d !! f end)
  ∧ update_one k record (update_one k record c).1
    = ((update_one k record c).1, 0).
Proof.
  intros Hk. repeat split.
  - intros batch Hin. by apply operations_spec.
  - intros batch r Hr. unfold operations. simpl. by rewrite Hr.
  - by apply update_one_absent.
  - subst c. by apply update_one_present.
  - apply set_fields.
  - by apply update_one_again.
Qed.

Lemma upsert_sets_fields_witness :
  update_one "A" fresh_A [stored_A] = ([fresh_A ∪ stored_A], 0).
Proof.
  destruct (upsert_sets_fields "A" fresh_A [stored_A]) as (_ & _ & _ & H & _).
  - compute_done.
  - destruct (H [] [] stored_A) as [H' _].
    + reflexivity.
    + constructor.
    + compute_done.
    + exact H'.
Defined.

End SinkClaims.

Module IngestFacts.
Import Calendar Sink Ingest Samples.

Lemma max_str_ge_l a b : String.le a (max_str a b).
Proof.
  unfold max_str, String.le. destruct (String.leb a b) eqn:H.
  - by rewrite H.
  - change (String.le a a). reflexivity.
Qed.

Lemma max_str_ge_r a b : String.le b (max_str a b).
Proof.
  unfold max_str. destruct (String.leb a b) eqn:H.
  - reflexivity.
  - destruct (total String.le a b) as [Hab|Hba]; [|done].
    unfold String.le in Hab. by rewrite H in Hab.
Qed.

Lemma max_str_cases a b : max_str a b = a ∨ max_str a b = b.
Proof. unfold max_str. destruct (String.leb a b); auto. Qed.

Lemma latest_none (c : list doc) :
  latest_offense_date c = None ↔ Forall (λ d, d !! "offense_date" = None) c.
Proof.
  induction c as [|d c IH]; simpl.
  - split; [constructor|done].
  - destruct (d !! "offense_date") as [v|] eqn:Hd.
    + split.
      * destruct (latest_offense_date c); discriminate.
      * intros H. inversion H; simplify_eq.
    + rewrite IH. split.
      * intros H. by constructor.
      * intros H. by inversion H.
Qed.

Lemma latest_some (c : list doc) (v : string) :
  latest_offense_date c = Some v →
  (∃ d, d ∈ c ∧ d !! "offense_date" = Some v)
  ∧ ∀ d' v', d' ∈ c → d' !! "offense_date" = Some v' → String.le v' v.
Proof.
  revert v. induction c as [|d c IH]; intros v; simpl; [done|].
  destruct (d !! "offense_date") as [x|] eqn:Hd.
  - destruct (latest_offense_date c) as [m|] eqn:Hm.
    + intros [= <-]. destruct (IH m eq_refl) as [(d1 & Hd1 & Hv1) Hmax]. split.
      * destruct (max_str_cases x m) as [-> | ->].
        -- exists d. split; [left|done].
        -- exists d1. split; [by right|done].
      * intros d' v' [-> | Hin]%elem_of_cons Hv'.
        -- rewrite Hd in Hv'. injection Hv' as <-. apply max_str_ge_l.
        -- etrans; [by eapply Hmax|]. apply max_str_ge_r.
    + intros [= <-]. apply latest_none in Hm. split.
      * exists d. split; [left|done].
      * intros d' v' [-> | Hin]%elem_of_cons Hv'.
        -- rewrite Hd in Hv'. by injection Hv' as <-.
        -- rewrite Forall_forall in Hm. rewrite (Hm _ Hin) in Hv'. done.
  - intros Hv. destruct (IH v Hv) as [(d1 & Hd1 & Hv1) Hmax]. split.
    + exists d1. split; [by right|done].
    + intros d' v' [-> | Hin]%elem_of_cons Hv'.
      * rewrite Hd in Hv'. done.
      * by eapply Hmax.
Qed.

Lemma app_snoc_split {A} (prior rest prior' : list A) (req x req' : A) :
  prior ++ req :: x :: rest = prior' ++ [req'] → req ∈ prior'.
Proof.
  revert prior'. induction prior as [|a prior IH]; intros [|p prior'] H;
    simplify_eq/=.
  - left.
  - by destruct prior.
  - right. by eapply IH.
Qed.

Section Trace.
Variable http_get : request → response.
Variable exec_order : list (string * doc) → list (string * doc).

Lemma replay_app c l1 l2 :
  replay http_get exec_order c (l1 ++ l2)
  = replay http_get exec_order (replay http_get exec_order c l1) l2.
Proof. unfold replay. apply foldl_app. Qed.

Lemma retrieved_not_raises req e :
  retrieved http_get req → ¬ raises http_get req e.
Proof. intros [b Hb] He. unfold raises in He. congruence. Qed.

(** Which responses make a page request raise: [requests.get]
    failed, or the status is a 4xx or 5xx code, or the body of a
    response with another status is not JSON. *)
Lemma raises_spec req e :
  raises http_get req e
  ↔ (http_get req = TransportFailure ∧ e = ETransport)
    ∨ (∃ status body, http_get req = Http status body
         ∧ (400 ≤ status < 600)%Z ∧ e = EHttp status)
    ∨ (∃ status, http_get req = Http status None
         ∧ ¬ (400 ≤ status < 600)%Z ∧ e = EBody).
Proof.
  unfold raises, read_page. destruct (http_get req) as [|status body].
  - split.
    + intros [= <-]. by left.
    + intros [[_ ->] | [(? & ? & ? & _) | (? & ? & _)]]; done.
  - destruct (decide (400 ≤ status < 600)%Z) as [Hs|Hs].
    + replace ((400 <=? status) && (status <? 600))%Z with true by lia.
      split.
      * intros [= <-]. right; left. by exists status, body.
      * intros [[? _] | [(s' & b' & Heq & _ & ->) | (s' & Heq & Hn & _)]];
          [done| |].
        -- by injection Heq as <- <-.
        -- injection Heq as <- _. done.
    + replace ((400 <=? status) && (status <? 600))%Z with false by lia.
      destruct body as [batch|].
      * split; [done|].
        intros [[? _] | [(s' & b' & Heq & Hr & _) | (s' & Heq & _)]];
          [done| |done].
        injection Heq as <- _. done.
      * split.
        -- intros [= <-]. right; right. by exists status.
        -- intros [[? _] | [(s' & b' & Heq & Hr & _) | (s' & Heq & _ & ->)]];
             [done| |done].
           injection Heq as <- _. done.
Qed.

(** A page comes back in full when the status is no 4xx or 5xx code
    and the body is a JSON array. *)
Lemma page_ok_spec req batch :
  read_page (http_get req) = PageOk batch
  ↔ ∃ status, http_get req = Http status (Some batch)
              ∧ ¬ (400 ≤ status < 600)%Z.
Proof.
  unfold read_page. destruct (http_get req) as [|status body].
  - split; [done|]. by intros (? & ? & _).
  - destruct (decide (400 ≤ status < 600)%Z) as [Hs|Hs].
    + replace ((400 <=? status) && (status <? 600))%Z with true by lia.
      split; [done|]. intros (s' & Heq & Hn). injection Heq as <- _. done.
    + replace ((400 <=? status) && (status <? 600))%Z with false by lia.
      destruct body as [b|].
      * split.
        -- intros [= <-]. by exists status.
        -- intros (s' & Heq & _). by injection Heq as _ <-.
      * split; [done|]. by intros (? & ? & _).
Qed.

(** The collection after requests that all came back in full: their
    pages stored one after the other. *)
Lemma replay_pages c prior :
  Forall (retrieved http_get) prior →
  ∃ pages,
    Forall2 (λ req batch, ∃ status, http_get req = Http status (Some batch)
                                     ∧ ¬ (400 ≤ status < 600)%Z) prior pages
    ∧ replay http_get exec_order c prior
      = foldl (λ s batch, (store_page exec_order batch s).1) c pages.
Proof.
  intros H. revert c. induction H as [|req prior [batch Hb] _ IH]; intros c.
  - exists []. split; [constructor|done].
  - destruct (IH (store_page exec_order batch c).1) as (pages & Hp & Heq).
    exists (batch :: pages). split.
    + constructor; [by apply page_ok_spec|done].
    + simpl. rewrite Hb. exact Heq.
Qed.

Lemma fail_fast_trace_app r l1 l2 :
  Forall (retrieved http_get) l1 →
  fail_fast_trace http_get r l2 →
  fail_fast_trace http_get r (l1 ++ l2).
Proof.
  intros H1. destruct r as [n|e|]; simpl.
  - intros H2. by apply Forall_app.
  - intros (prior & req & -> & Hp & Hr). exists (l1 ++ prior), req.
    split; [by rewrite app_assoc|]. split; [by apply Forall_app|done].
  - intros H2. by apply Forall_app.
Qed.

Lemma fetch_day_trace fuel d off n w r w' :
  fetch_day http_get exec_order fuel d off n w = (r, w') →
  ∃ new, sent w' = sent w ++ new
       ∧ sink w' = replay http_get exec_order (sink w) new
       ∧ fail_fast_trace http_get r new.
Proof.
  revert off n w. induction fuel as [|fuel IH]; intros off n w; simpl.
  - intros [= <- <-]. exists []. rewrite app_nil_r. repeat split. constructor.
  - destruct (read_page (http_get (day_request d off))) as [e|batch] eqn:Hp.
    + intros [= <- <-]. exists [day_request d off]. simpl.
      rewrite Hp. repeat split. exists [], (day_request d off). by repeat split.
    + destruct batch as [|b batch].
      * intros [= <- <-]. exists [day_request d off]. simpl.
        rewrite Hp. repeat split. repeat constructor. by exists [].
      * destruct (store_page exec_order (b :: batch) (sink w)) as [c k] eqn:Hs.
        intros H. apply IH in H as (new & Hsent & Hsink & Htr). simpl in *.
        exists (day_request d off :: new). split; [|split].
        -- rewrite Hsent. by rewrite <- app_assoc.
        -- rewrite Hsink. simpl. by rewrite Hp, Hs.
        -- apply (fail_fast_trace_app r [day_request d off]); [|done].
           repeat constructor. by exists (b :: batch).
Qed.

Lemma fetch_days_trace dfuel pfuel cur today n w r w' :
  fetch_days http_get exec_order dfuel pfuel cur today n w = (r, w') →
  ∃ new, sent w' = sent w ++ new
       ∧ sink w' = replay http_get exec_order (sink w) new
       ∧ fail_fast_trace http_get r new.
Proof.
  revert cur n w. induction dfuel as [|dfuel IH]; intros cur n w; simpl.
  - destruct (date_leb cur today); simpl; intros [= <- <-];
      exists []; rewrite app_nil_r; repeat split; constructor.
  - destruct (date_leb cur today); simpl.
    2:{ intros [= <- <-]. exists []. rewrite app_nil_r. repeat split. constructor. }
    destruct (fetch_day http_get exec_order pfuel cur 0 0 w) as [r1 w1] eqn:Hd.
    apply fetch_day_trace in Hd as (new1 & Hs1 & Hk1 & Ht1).
    destruct r1 as [m|e|].
    + intros H. apply IH in H as (new2 & Hs2 & Hk2 & Ht2).
      exists (new1 ++ new2). split; [|split].
      * rewrite Hs2, Hs1. by rewrite app_assoc.
      * rewrite replay_app. by rewrite <- Hk1.
      * by apply fail_fast_trace_app.
    + intros [= <- <-]. by exists new1.
    + intros [= <- <-]. by exists new1.
Qed.
End Trace.

End IngestFacts.

Module IngestClaims.
Import Calendar Sink Ingest Samples IngestFacts.



(** C8.  A page request fails when [requests.get] raises (a
    transport error), when the response has a 4xx or 5xx status, or
    when its body cannot be read.  Such a request ends the run with
    the error of that failure: it is the last request the run sends,
    so nothing is retried and nothing is fetched after it; every
    request before it came back in full, with a status that is no 4xx
    or 5xx code and a body that was read; and the sink holds the pages
    of those requests, stored one after the other, the failed request
    contributing nothing.  A run that ends with an error other than
    that of the checkpoint ends on such a request. *)
Theorem page_failure_aborts_run
    (http_get : request → response)
    (exec_order : list (string * doc) → list (string * doc))
    (to_date : string → option date)
    (c : list doc) (today : date) (dfuel pfuel : nat)
    (out : outcome) (w : world) :
  fetch_crime_data http_get exec_order to_date dfuel pfuel today c = (out, w) →
  sink w = replay http_get exec_order c (sent w)
  ∧ (∀ prior req rest e,
       sent w = prior ++ req :: rest → raises http_get req e →
       rest = [] ∧ out = Failed e ∧ Forall (retrieved http_get) prior
       ∧ sink w = replay http_get exec_order c prior)
  ∧ (∀ e, out = Failed e →
       (e = EParse ∧ sent w = [])
       ∨ ∃ prior req, sent w = prior ++ [req] ∧ raises http_get req e)
  ∧ (∀ req e,
       raises http_get req e
       ↔ (http_get req = TransportFailure ∧ e = ETransport)
         ∨ (∃ status body, http_get req = Http status body
              ∧ (400 ≤ status < 600)%Z ∧ e = EHttp status)
         ∨ (∃ status, http_get req = Http status None
              ∧ ¬ (400 ≤ status < 600)%Z ∧ e = EBody))
  ∧ (∀ prior req rest e,
       sent w = prior ++ req :: rest →
       (http_get req = TransportFailure ∧ e = ETransport)
       ∨ (∃ status body, http_get req = Http status body
            ∧ (400 ≤ status < 600)%Z ∧ e = EHttp status)
       ∨ (∃ status, http_get req = Http status None
            ∧ ¬ (400 ≤ status < 600)%Z ∧ e = EBody) →
       rest = [] ∧ out = Failed e
       ∧ ∃ pages,
           Forall2 (λ r batch, ∃ status, http_get r = Http status (Some batch)
                                         ∧ ¬ (400 ≤ status < 600)%Z)
                   prior pages
           ∧ sink w = foldl (λ s batch, (store_page exec_order batch s).1)
                            c pages).
Proof.
  intros Hrun.
  assert (sink w = replay http_get exec_order c (sent w)
          ∧ (∀ prior req rest e,
               sent w = prior ++ req :: rest → raises http_get req e →
               rest = [] ∧ out = Failed e ∧ Forall (retrieved http_get) prior
               ∧ sink w = replay http_get exec_order c prior)
          ∧ (∀ e, out = Failed e →
               (e = EParse ∧ sent w = [])
               ∨ ∃ prior req, sent w = prior ++ [req] ∧ raises http_get req e))
    as (H1 & H2 & H3).
  { revert Hrun.
    unfold fetch_crime_data. destruct (resolve_start to_date c) as [start|].
    2:{ intros [= <- <-]. simpl. split; [done|]. split.
        - intros prior req rest e H. by destruct prior.
        - intros e [= <-]. by left. }
    destruct (date_ltb today start).
    { intros [= <- <-]. simpl. split; [done|]. split.
      - intros prior req rest e H. by destruct prior.
      - intros e [=]. }
    destruct (fetch_days _ _ _ _ _ _ _ _) as [r w1] eqn:Hf.
    apply fetch_days_trace in Hf as (new & Hsent & Hsink & Htr). simpl in *.
    intros Hout.
    assert (w1 = w) as -> by (destruct r; by injection Hout).
    split; [by rewrite Hsent|]. split.
    - intros prior req rest e Hsplit Hr. rewrite Hsent in Hsplit.
      rewrite Hsplit in Htr, Hsink. clear Hsent Hsplit new.
      destruct r as [n|e'|]; simpl in Htr.
      + apply Forall_app in Htr as [_ Htr]. inversion Htr as [|?? Hreq _]; subst.
        by apply retrieved_not_raises with (e := e) in Hreq.
      + destruct Htr as (prior' & req' & Heq & Hp & Hr').
        destruct rest as [|x rest].
        * apply app_inj_tail in Heq as [-> ->].
          unfold raises in *. rewrite Hr in Hr'. injection Hr' as ->.
          injection Hout as <-. repeat split; [done|].
          rewrite Hsink, replay_app. simpl. unfold raises in Hr. by rewrite Hr.
        * assert (req ∈ prior') as Hin by (by eapply app_snoc_split).
          rewrite Forall_forall in Hp.
          by destruct (retrieved_not_raises http_get req e (Hp _ Hin)).
      + apply Forall_app in Htr as [_ Htr]. inversion Htr as [|?? Hreq _]; subst.
        by apply retrieved_not_raises with (e := e) in Hreq.
    - intros e ->. destruct r as [n|e'|]; simplify_eq. right.
      simpl in Htr. destruct Htr as (prior & req & Heq & _ & Hr).
      by exists prior, req. }
  split; [done|]. split; [done|]. split; [done|].
  split; [apply raises_spec|].
  intros prior req rest e Hsplit Hfail.
  apply raises_spec in Hfail.
  destruct (H2 prior req rest e Hsplit Hfail) as (-> & -> & Hprior & Hsink).
  split; [done|]. split; [done|].
  destruct (replay_pages http_get exec_order c prior Hprior) as (pages & Hp & Heq).
  exists pages. split; [done|]. by rewrite Hsink.
Qed.

Lemma page_failure_aborts_run_witness :
  (fetch_crime_data (fails_on_second_page one_incident) in_order leading_date
     3 3 jan_1 []).1
  = Failed (EHttp 503).
Proof.
  destruct (fetch_crime_data (fails_on_second_page one_incident) in_order
              leading_date 3 3 jan_1 []) as [out w] eqn:Hrun.
  destruct (page_failure_aborts_run _ _ _ _ _ _ _ _ _ Hrun)
    as (_ & _ & _ & _ & H).
  assert (sent w = [day_request jan_1 0] ++ day_request jan_1 1000 :: []) as Hs.
  { assert (w = (out, w).2) as -> by done. rewrite <- Hrun. vm_compute. reflexivity. }
  destruct (H _ _ _ (EHttp 503) Hs) as (_ & -> & _).
  - right. left. exists 503%Z, None. split; [reflexivity|]. split; [lia|done].
  - reflexivity.
Defined.

End IngestClaims.

Module CalendarFacts.
Import Calendar.

Lemma days_in_month_bounds y m : (28 ≤ days_in_month y m ≤ 31)%Z.
Proof.
  unfold days_in_month. destruct (m =? 2)%Z; [destruct (is_leap y); lia|].
  destruct ((m =? 4) || (m =? 6) || (m =? 9) || (m =? 11))%Z; lia.
Qed.

Lemma valid_date_spec d :
  valid_date d = true ↔ shaped d ∧ (year d ≤ 9999)%Z.
Proof.
  unfold valid_date, shaped. rewrite !andb_true_iff, !Z.leb_le. tauto.
Qed.

Lemma date_compare_lt a b :
  date_compare a b = Lt ↔
  (year a < year b ∨ (year a = year b ∧ (month a < month b
    ∨ (month a = month b ∧ day a < day b))))%Z.
Proof.
  unfold date_compare.
  destruct (Z.compare_spec (year a) (year b)); [|split; [lia|done]|split; [done|lia]].
  destruct (Z.compare_spec (month a) (month b)); [|split; [lia|done]|split; [done|lia]].
  rewrite Z.compare_lt_iff. lia.
Qed.

Lemma date_compare_eq a b : date_compare a b = Eq ↔ a = b.
Proof.
  unfold date_compare. destruct a as [ya ma da], b as [yb mb db]; simpl.
  destruct (Z.compare_spec ya yb); [|split; [done|intros [=]; lia]..].
  destruct (Z.compare_spec ma mb); [|split; [done|intros [=]; lia]..].
  rewrite Z.compare_eq_iff. split; [intros ->; by subst|intros [=]; done].
Qed.

Lemma date_compare_gt a b : date_compare a b = Gt ↔ date_compare b a = Lt.
Proof.
  rewrite date_compare_lt. unfold date_compare.
  destruct (Z.compare_spec (year a) (year b)); [|split; [done|lia]|split; [lia|done]].
  destruct (Z.compare_spec (month a) (month b)); [|split; [done|lia]|split; [lia|done]].
  rewrite Z.compare_gt_iff. lia.
Qed.

Lemma date_ltb_lt a b : date_ltb a b = true ↔ date_compare a b = Lt.
Proof. unfold date_ltb. destruct (date_compare a b); split; done. Qed.

Lemma date_leb_nlt a b : date_leb a b = true ↔ date_compare b a ≠ Lt.
Proof.
  unfold date_leb. destruct (date_compare a b) eqn:H.
  - apply date_compare_eq in H as ->. split; [|done]. intros _.
    assert (date_compare b b = Eq) as -> by by apply date_compare_eq. done.
  - split; [|done]. intros _ H'. apply date_compare_lt in H, H'. lia.
  - apply date_compare_gt in H. split; [done|]. by intros [].
Qed.

Lemma date_leb_refl a : date_leb a a = true.
Proof. apply date_leb_nlt. intros H. apply date_compare_lt in H. lia. Qed.

Lemma date_leb_trans a b c :
  date_leb a b = true → date_leb b c = true → date_leb a c = true.
Proof.
  rewrite !date_leb_nlt, !date_compare_lt. lia.
Qed.

Lemma date_leb_ltb a b : date_leb a b = negb (date_ltb b a).
Proof.
  destruct (date_ltb b a) eqn:H; simpl.
  - apply date_ltb_lt in H. apply not_true_is_false. rewrite date_leb_nlt. tauto.
  - apply date_leb_nlt. rewrite <- date_ltb_lt. by rewrite H.
Qed.

Lemma date_lt_cases a b :
  date_compare a b = Lt ∨ a = b ∨ date_compare b a = Lt.
Proof.
  destruct (date_compare a b) eqn:H; [right; left|by left|right; right].
  - by apply date_compare_eq.
  - by apply date_compare_gt.
Qed.

Lemma next_day_shaped d : shaped d → shaped (next_day d).
Proof.
  unfold shaped, next_day. intros (Hy & Hm & Hd).
  destruct (Z.ltb_spec (day d) (days_in_month (year d) (month d))); simpl; [lia|].
  destruct (Z.ltb_spec (month d) 12); simpl.
  - pose proof (days_in_month_bounds (year d) (month d + 1)). lia.
  - pose proof (days_in_month_bounds (year d + 1) 1). lia.
Qed.

Lemma next_day_after d : shaped d → date_compare d (next_day d) = Lt.
Proof.
  unfold shaped, next_day. intros (Hy & Hm & Hd). apply date_compare_lt.
  destruct (Z.ltb_spec (day d) (days_in_month (year d) (month d))); simpl; [lia|].
  destruct (Z.ltb_spec (month d) 12); simpl; lia.
Qed.

(** No date lies strictly between a day and the next. *)
Lemma next_day_least d x :
  shaped d → shaped x →
  date_compare x (next_day d) = Lt → date_leb x d = true.
Proof.
  unfold shaped, next_day. intros (Hy & Hm & Hd) (Hy' & Hm' & Hd').
  rewrite date_leb_nlt, !date_compare_lt.
  destruct (Z.ltb_spec (day d) (days_in_month (year d) (month d))); simpl; [lia|].
  destruct (Z.ltb_spec (month d) 12); simpl.
  - intros H1 H2.
    destruct (decide (year x = year d ∧ month x = month d)) as [[E1 E2]|]; [|lia].
    rewrite E1, E2 in Hd'. lia.
  - intros H1 H2. pose proof (days_in_month_bounds (year x) (month x)).
    destruct (decide (year x = year d ∧ month x = month d)) as [[E1 E2]|]; [|lia].
    rewrite E1, E2 in Hd'. lia.
Qed.

Lemma rank_next_day d : shaped d → (rank d < rank (next_day d))%Z.
Proof.
  unfold shaped, next_day, rank. intros (Hy & Hm & Hd).
  pose proof (days_in_month_bounds (year d) (month d)).
  destruct (Z.ltb_spec (day d) (days_in_month (year d) (month d))); simpl; [lia|].
  destruct (Z.ltb_spec (month d) 12); simpl; lia.
Qed.

Lemma rank_mono a b :
  shaped a → shaped b → date_leb a b = true → (rank a ≤ rank b)%Z.
Proof.
  unfold shaped, rank. intros (Hy & Hm & Hd) (Hy' & Hm' & Hd').
  pose proof (days_in_month_bounds (year a) (month a)).
  pose proof (days_in_month_bounds (year b) (month b)).
  rewrite date_leb_nlt, date_compare_lt. nia.
Qed.

Lemma rank_nonneg d : shaped d → (0 ≤ rank d)%Z.
Proof. unfold shaped, rank. nia. Qed.

Lemma shaped_valid d today :
  shaped d → valid_date today = true → date_leb d today = true →
  valid_date d = true.
Proof.
  intros Hs Ht Hle. apply valid_date_spec. split; [done|].
  apply valid_date_spec in Ht as [_ Ht].
  apply date_leb_nlt in Hle. rewrite date_compare_lt in Hle. lia.
Qed.

End CalendarFacts.

Module StringFacts.
Import Calendar CalendarFacts.

Lemma compare_cons c s c' s' :
  String.compare (String c s) (String c' s')
  = match Ascii.compare c c' with Eq => String.compare s s' | r => r end.
Proof. reflexivity. Qed.

Lemma ascii_compare_refl c : Ascii.compare c c = Eq.
Proof. unfold Ascii.compare. apply N.compare_refl. Qed.

Lemma digit_compare a b :
  Ascii.compare (digit_char a) (digit_char b) = (a mod 10 ?= b mod 10)%Z.
Proof.
  unfold Ascii.compare, digit_char.
  pose proof (Z.mod_pos_bound a 10 ltac:(lia)).
  pose proof (Z.mod_pos_bound b 10 ltac:(lia)).
  rewrite !Ascii.N_ascii_embedding by lia.
  rewrite Z2N.inj_compare by lia.
  by rewrite Z.add_compare_mono_l.
Qed.

Lemma date_str_chars d x :
  date_str d +:+ x
  = String (digit_char (year d / 1000)) (String (digit_char (year d / 100))
     (String (digit_char (year d / 10)) (String (digit_char (year d))
     (String "-" (String (digit_char (month d / 10)) (String (digit_char (month d))
     (String "-" (String (digit_char (day d / 10)) (String (digit_char (day d))
      x))))))))).
Proof. reflexivity. Qed.

Lemma digits4 y :
  (0 ≤ y < 10000)%Z →
  (y = 1000 * ((y / 1000) mod 10) + 100 * ((y / 100) mod 10)
       + 10 * ((y / 10) mod 10) + y mod 10)%Z.
Proof. intros. Z.div_mod_to_equations. lia. Qed.

Lemma digits2 m :
  (0 ≤ m < 100)%Z → (m = 10 * ((m / 10) mod 10) + m mod 10)%Z.
Proof. intros. Z.div_mod_to_equations. lia. Qed.

(** On valid dates, the order of the ISO renderings is the order of the
    dates, whatever follows the ten characters of the date. *)
Lemma date_str_lt a b x y :
  valid_date a = true → valid_date b = true →
  date_compare a b = Lt →
  String.compare (date_str a +:+ x) (date_str b +:+ y) = Lt.
Proof.
  intros [(Hy & Hm & Hd) Hy9]%valid_date_spec [(Hy' & Hm' & Hd') Hy9']%valid_date_spec.
  rewrite date_compare_lt. intros Hlt.
  pose proof (days_in_month_bounds (year a) (month a)).
  pose proof (days_in_month_bounds (year b) (month b)).
  pose proof (digits4 (year a) ltac:(lia)) as Ea.
  pose proof (digits4 (year b) ltac:(lia)) as Eb.
  pose proof (digits2 (month a) ltac:(lia)) as Ema.
  pose proof (digits2 (month b) ltac:(lia)) as Emb.
  pose proof (digits2 (day a) ltac:(lia)) as Eda.
  pose proof (digits2 (day b) ltac:(lia)) as Edb.
  rewrite !date_str_chars, !compare_cons, !digit_compare, !ascii_compare_refl.
  assert (∀ z, 0 ≤ z mod 10 < 10)%Z as Hb by (intros; by apply Z.mod_pos_bound).
  pose proof (Hb (year a / 1000)%Z). pose proof (Hb (year a / 100)%Z).
  pose proof (Hb (year a / 10)%Z). pose proof (Hb (year a)).
  pose proof (Hb (year b / 1000)%Z). pose proof (Hb (year b / 100)%Z).
  pose proof (Hb (year b / 10)%Z). pose proof (Hb (year b)).
  pose proof (Hb (month a / 10)%Z). pose proof (Hb (month a)).
  pose proof (Hb (month b / 10)%Z). pose proof (Hb (month b)).
  pose proof (Hb (day a / 10)%Z). pose proof (Hb (day a)).
  pose proof (Hb (day b / 10)%Z). pose proof (Hb (day b)).
  clear Hb.
  generalize dependent ((year a / 1000) mod 10)%Z. intros a3.
  generalize dependent ((year a / 100) mod 10)%Z. intros a2.
  generalize dependent ((year a / 10) mod 10)%Z. intros a1.
  generalize dependent (year a mod 10)%Z. intros a0.
  generalize dependent ((year b / 1000) mod 10)%Z. intros b3.
  generalize dependent ((year b / 100) mod 10)%Z. intros b2.
  generalize dependent ((year b / 10) mod 10)%Z. intros b1.
  generalize dependent (year b mod 10)%Z. intros b0.
  generalize dependent ((month a / 10) mod 10)%Z. intros m1.
  generalize dependent (month a mod 10)%Z. intros m0.
  generalize dependent ((month b / 10) mod 10)%Z. intros n1.
  generalize dependent (month b mod 10)%Z. intros n0.
  generalize dependent ((day a / 10) mod 10)%Z. intros d1.
  generalize dependent (day a mod 10)%Z. intros d0.
  generalize dependent ((day b / 10) mod 10)%Z. intros e1.
  generalize dependent (day b mod 10)%Z. intros e0.
  intros.
  repeat match goal with
         | |- context [(?u ?= ?v)%Z] =>
             destruct (Z.compare_spec u v); simpl; [|done|exfalso; lia]
         end.
  exfalso. lia.
Qed.

Lemma date_str_length d x :
  String.length (date_str d +:+ x) = 10 + String.length x.
Proof. reflexivity. Qed.

End StringFacts.

Module StampFacts.
Import Calendar Sink Ingest Remote CalendarFacts StringFacts SinkFacts IngestFacts.

Section Stamps.
Variable to_date : string → option date.

Lemma stamp_day_fun s d d' :
  stamp_day to_date s d → stamp_day to_date s d' → d = d'.
Proof. intros (_ & _ & H) (_ & _ & H'). congruence. Qed.

Lemma stamp_day_le s d s' d' :
  stamp_day to_date s d → stamp_day to_date s' d' →
  String.le s s' → date_leb d d' = true.
Proof.
  intros (Hv & [t ->] & _) (Hv' & [t' ->] & _) Hle.
  apply date_leb_nlt. intros Hlt.
  pose proof (date_str_lt d' d ("T" +:+ t') ("T" +:+ t) Hv' Hv Hlt) as Hc.
  unfold String.le, String.leb in Hle.
  rewrite String.compare_antisym, Hc in Hle. done.
Qed.

Lemma window_day (r : doc) d off :
  valid_date d = true → dated to_date r →
  in_window (where_lo (day_request d off)) (where_hi (day_request d off)) r = true →
  ∃ s, r !! "offense_date" = Some s ∧ stamp_day to_date s d.
Proof.
  intros Hv Hr. unfold in_window. simpl.
  destruct (r !! "offense_date") as [s|] eqn:Hs; [|done].
  destruct (Hr s Hs) as [d' Hd']. intros [Hlo Hhi]%andb_true_iff.
  exists s. split; [done|].
  assert (d' = d) as ->; [|done].
  destruct Hd' as (Hv' & [t ->] & _).
  unfold stamp_of_literal in *.
  rewrite !decide_True in Hlo, Hhi by reflexivity.
  destruct (date_lt_cases d' d) as [Hlt|[->|Hlt]]; [|done|].
  - pose proof (date_str_lt d' d ("T" +:+ t) "T00:00:00.000" Hv' Hv Hlt) as Hc.
    unfold String.leb in Hlo.
    change ((date_str d +:+ "T00:00:00") +:+ ".000")
      with (date_str d +:+ "T00:00:00.000") in Hlo.
    rewrite String.compare_antisym, Hc in Hlo. done.
  - pose proof (date_str_lt d d' "T23:59:59.000" ("T" +:+ t) Hv Hv' Hlt) as Hc.
    unfold String.leb in Hhi.
    change ((date_str d +:+ "T23:59:59") +:+ ".000")
      with (date_str d +:+ "T23:59:59.000") in Hhi.
    rewrite String.compare_antisym, Hc in Hhi. done.
Qed.

Lemma covered_mono (c : list doc) d d' :
  covered to_date c d' → date_leb d d' = true → covered to_date c d.
Proof.
  intros (v & dv & Hl & Hs & Hle) Hd. exists v, dv.
  split; [done|]. split; [done|]. by eapply date_leb_trans.
Qed.

Lemma covered_member (c : list doc) (x : doc) s d :
  Forall (dated to_date) c → x ∈ c → x !! "offense_date" = Some s →
  stamp_day to_date s d → covered to_date c d.
Proof.
  intros Hc Hx Hs Hd.
  destruct (latest_offense_date c) as [v|] eqn:Hl.
  - destruct (latest_some c v Hl) as [(y & Hy & Hv) Hmax].
    rewrite Forall_forall in Hc. destruct (Hc y Hy v Hv) as [dv Hdv].
    exists v, dv. split; [done|]. split; [done|].
    apply (stamp_day_le s d v dv Hd Hdv). exact (Hmax x s Hx Hs).
  - apply latest_none in Hl. rewrite Forall_forall in Hl.
    rewrite (Hl x Hx) in Hs. done.
Qed.

Lemma covered_start (c : list doc) d start :
  covered to_date c d → resolve_start to_date c = Some start →
  date_compare d start = Lt.
Proof.
  intros (v & dv & Hl & Hs & Hle). unfold resolve_start. rewrite Hl.
  destruct Hs as (Hv & _ & ->). simpl. intros [= <-].
  apply valid_date_spec in Hv as [Hv _].
  pose proof (next_day_after dv Hv) as Hn.
  rewrite date_leb_nlt in Hle. rewrite date_compare_lt in *. lia.
Qed.

Lemma dated_union (r d : doc) :
  dated to_date r → dated to_date d → dated to_date (r ∪ d).
Proof.
  intros Hr Hd s. rewrite set_fields.
  destruct (r !! "offense_date") as [x|] eqn:Hx.
  - intros [= <-]. by apply Hr.
  - apply Hd.
Qed.

Lemma update_one_dated k (r : doc) (c : list doc) :
  r !! "report_number" = Some k →
  Forall (dated to_date) c → dated to_date r →
  Forall (dated to_date) (update_one k r c).1
  ∧ ∀ s, r !! "offense_date" = Some s →
         ∃ x, x ∈ (update_one k r c).1 ∧ x !! "offense_date" = Some s.
Proof.
  intros Hk Hc Hr.
  destruct (split_first_key k c) as [Habs|(pre & d & post & -> & Hpre & Hd)].
  - rewrite (update_one_absent _ _ _ Hk Habs). simpl. split.
    + apply Forall_app. split; [done|]. by repeat constructor.
    + intros s Hs. exists r. split; [|done]. apply elem_of_app. right. left.
  - rewrite (update_one_present _ _ _ _ _ Hpre Hd). simpl.
    apply Forall_app in Hc as [Hc1 Hc2]. inversion Hc2 as [|?? Hd0 Hpost]; subst.
    split.
    + apply Forall_app. split; [done|]. constructor; [|done]. by apply dated_union.
    + intros s Hs. exists (r ∪ d). split.
      * apply elem_of_app. right. left.
      * rewrite set_fields. by rewrite Hs.
Qed.

End Stamps.
End StampFacts.

Module RemoteFacts.
Import Calendar Sink Ingest Remote.
Import CalendarFacts StringFacts SinkFacts SinkClaims IngestFacts StampFacts.

Section Dataset.
Variable exec_order : list (string * doc) → list (string * doc).
Variable to_date : string → option date.
Variable ds : list doc.
Hypothesis exec_order_perm : ∀ l, exec_order l ≡ₚ l.
Hypothesis ds_dated : Forall (dated to_date) ds.

Lemma read_page_soda req :
  read_page (soda_get ds req) = PageOk (soda_query ds req).
Proof. reflexivity. Qed.

Lemma soda_query_day d off :
  soda_query ds (day_request d off) = take 1000 (drop off (day_window ds d)).
Proof. reflexivity. Qed.

Lemma day_window_member (r : doc) d :
  r ∈ day_window ds d →
  r ∈ ds ∧ in_window (where_lo (day_request d 0)) (where_hi (day_request d 0)) r = true.
Proof.
  unfold day_window, window. rewrite merge_sort_Permutation.
  rewrite list_elem_of_filter. intros [H1 H2]. split; [done|].
  by apply Is_true_true.
Qed.

Lemma day_window_stamp (r : doc) d :
  valid_date d = true → r ∈ day_window ds d →
  r ∈ ds ∧ dated to_date r
  ∧ ∃ s, r !! "offense_date" = Some s ∧ stamp_day to_date s d.
Proof.
  intros Hv [Hin Hw]%day_window_member.
  assert (dated to_date r) as Hr.
  { rewrite Forall_forall in ds_dated. by apply ds_dated. }
  repeat split; [done..|]. by eapply window_day.
Qed.

Lemma page_member (r : doc) d off :
  r ∈ take 1000 (drop off (day_window ds d)) → r ∈ day_window ds d.
Proof. intros H. eapply subseteq_drop. eapply subseteq_take. exact H. Qed.

Lemma apply_ops_dated d (l : list (string * doc)) (c : list doc) :
  (∀ k (r : doc), (k, r) ∈ l →
     r !! "report_number" = Some k ∧ dated to_date r
     ∧ ∃ s, r !! "offense_date" = Some s ∧ stamp_day to_date s d) →
  Forall (dated to_date) c →
  Forall (dated to_date) (apply_ops l c).1
  ∧ (l ≠ [] → covered to_date (apply_ops l c).1 d).
Proof.
  revert c. induction l as [|[k r] l IH]; intros c Hl Hc; simpl; [done|].
  destruct (Hl k r ltac:(left)) as (Hk & Hr & s & Hs & Hd).
  destruct (update_one_dated to_date k r c Hk Hc Hr) as [Hc1 Hx].
  destruct (update_one k r c) as [c1 n1]. simpl in *.
  destruct (Hx s Hs) as (x & Hxin & Hxs).
  assert (covered to_date c1 d) as Hcov by by eapply covered_member.
  destruct (IH c1) as [Hc2 Hcov2]; [|done|].
  { intros k' r' Hin. apply Hl. by right. }
  destruct (apply_ops l c1) as [c2 n2] eqn:Ha. simpl in *.
  split; [done|]. intros _. destruct l as [|o l]; [|by apply Hcov2].
  simpl in Ha. by injection Ha as <- _.
Qed.

Lemma store_page_dated d (batch c : list doc) :
  valid_date d = true →
  (∀ r : doc, r ∈ batch → r ∈ day_window ds d) →
  Forall (dated to_date) c →
  Forall (dated to_date) (store_page exec_order batch c).1
  ∧ ((∃ r : doc, r ∈ batch ∧ is_Some (r !! "report_number")) →
       covered to_date (store_page exec_order batch c).1 d)
  ∧ ((store_page exec_order batch c).1 = c
     ∨ covered to_date (store_page exec_order batch c).1 d).
Proof.
  intros Hv Hb Hc. unfold store_page.
  destruct (operations batch) as [|o ops] eqn:Hops.
  - simpl. split; [done|]. split; [|by left].
    intros (r & Hr & [k Hk]).
    assert ((k, r) ∈ operations batch) as Hin by by apply operations_spec.
    rewrite Hops in Hin. by apply elem_of_nil in Hin.
  - destruct (apply_ops_dated d (exec_order (o :: ops)) c) as [H1 H2]; [|done|].
    { intros k r Hin. rewrite exec_order_perm, <- Hops in Hin.
      apply operations_spec in Hin as [Hin Hk].
      destruct (day_window_stamp r d Hv (Hb r Hin)) as (_ & Hr & Hs). done. }
    assert (exec_order (o :: ops) ≠ []) as Hne.
    { intros Hnil. pose proof (exec_order_perm (o :: ops)) as Hp.
      rewrite Hnil in Hp. by apply Permutation_nil_cons in Hp. }
    split; [done|]. split; [intros _|right]; by apply H2.
Qed.

Lemma store_page_unkeyed (batch c : list doc) :
  (∀ r : doc, r ∈ batch → r !! "report_number" = None) →
  store_page exec_order batch c = (c, 0).
Proof.
  intros Hb. unfold store_page.
  destruct (operations batch) as [|[k r] ops] eqn:Hops; [done|].
  assert ((k, r) ∈ operations batch) as Hin by (rewrite Hops; left).
  apply operations_spec in Hin as [Hin Hk]. rewrite (Hb r Hin) in Hk. done.
Qed.

Lemma fetch_day_covers fuel d off n w m w' :
  fetch_day (soda_get ds) exec_order fuel d off n w = (Done m, w') →
  valid_date d = true →
  Forall (dated to_date) (sink w) →
  ((∃ r : doc, r ∈ take off (day_window ds d) ∧ is_Some (r !! "report_number")) →
     covered to_date (sink w) d) →
  Forall (dated to_date) (sink w')
  ∧ (keyed_on ds d → covered to_date (sink w') d)
  ∧ (sink w' = sink w ∨ covered to_date (sink w') d).
Proof.
  intros Hrun Hv. revert off n w Hrun.
  induction fuel as [|fuel IH]; intros off n w; simpl; [done|].
  rewrite soda_query_day.
  destruct (take 1000 (drop off (day_window ds d))) as [|b page] eqn:Hpage.
  - intros [= <- <-] Hc Hpre. simpl. split; [done|]. split; [|by left].
    intros (r & Hr & Hk). apply Hpre. exists r. split; [|done].
    apply take_nil_inv in Hpage as [?|Hdrop]; [done|].
    apply drop_nil_inv in Hdrop. by rewrite take_ge.
  - intros Hrun Hc Hpre. simpl in Hrun.
    destruct (store_page_dated d (b :: page) (sink w) Hv) as (Hc1 & Hcov1 & Hsame1);
      [|done|].
    { intros r Hr. rewrite <- Hpage in Hr. by eapply page_member. }
    destruct (store_page exec_order (b :: page) (sink w)) as [c k] eqn:Hs.
    simpl in *. apply IH in Hrun as (Hc2 & Hcov2 & Hsame2); simpl; [|done|].
    + split; [done|]. split; [done|]. simpl in Hsame2.
      destruct Hsame2 as [->|?]; [|by right]. destruct Hsame1 as [->|?]; auto.
    + intros (r & Hr & Hk). rewrite <- take_take_drop, Hpage in Hr.
      apply elem_of_app in Hr as [Hr|Hr].
      * destruct Hsame1 as [->|?]; [|done]. apply Hpre. by exists r.
      * apply Hcov1. by exists r.
Qed.

Lemma fetch_days_covers dfuel pfuel cur today n w m w' :
  fetch_days (soda_get ds) exec_order dfuel pfuel cur today n w = (Done m, w') →
  shaped cur → valid_date today = true →
  Forall (dated to_date) (sink w) →
  Forall (dated to_date) (sink w')
  ∧ (∀ d, shaped d → date_leb cur d = true → date_leb d today = true →
        keyed_on ds d → covered to_date (sink w') d)
  ∧ (sink w' = sink w
     ∨ ∃ d, date_leb cur d = true ∧ covered to_date (sink w') d).
Proof.
  intros Hrun Hcur Htoday. revert cur n w Hrun Hcur.
  induction dfuel as [|dfuel IH]; intros cur n w; simpl.
  - destruct (date_leb cur today) eqn:Hle; simpl; [done|].
    intros [= <- <-] Hcur Hc. split; [done|]. split; [|by left].
    intros d Hd H1 H2. rewrite (date_leb_trans _ _ _ H1 H2) in Hle. done.
  - destruct (date_leb cur today) eqn:Hle; simpl.
    2:{ intros [= <- <-] Hcur Hc. split; [done|]. split; [|by left].
        intros d Hd H1 H2. rewrite (date_leb_trans _ _ _ H1 H2) in Hle. done. }
    destruct (fetch_day (soda_get ds) exec_order pfuel cur 0 0 w) as [r1 w1] eqn:Hday.
    destruct r1 as [k| |]; [|done..].
    intros Hrun Hcur Hc.
    pose proof (shaped_valid cur today Hcur Htoday Hle) as Hv.
    apply fetch_day_covers in Hday as (Hc1 & Hcov1 & Hsame1); [|done..|].
    2:{ intros (r & Hr & _). rewrite take_0 in Hr. by apply elem_of_nil in Hr. }
    apply IH in Hrun as (Hc2 & Hcov2 & Hsame2); [|by apply next_day_shaped|done].
    pose proof (next_day_after cur Hcur) as Hnext.
    assert (date_leb cur (next_day cur) = true) as Hstep.
    { apply date_leb_nlt. rewrite date_compare_lt in *. lia. }
    assert (∀ d, (∃ d', date_leb (next_day cur) d' = true
                        ∧ covered to_date (sink w') d') →
                 date_leb d cur = true → covered to_date (sink w') d) as Hlater.
    { intros d (d' & Hd' & Hcov) Hd. apply covered_mono with d'; [done|].
      eapply date_leb_trans; [done|]. by eapply date_leb_trans. }
    split; [done|]. split.
    + intros d Hd H1 H2 Hkey.
      destruct (date_ltb d (next_day cur)) eqn:Hlt.
      * apply date_ltb_lt in Hlt.
        pose proof (next_day_least cur d Hcur Hd Hlt) as Hdc.
        assert (d = cur) as ->.
        { destruct (date_lt_cases d cur) as [H|[H|H]]; [|done|].
          - apply date_leb_nlt in H1. done.
          - apply date_leb_nlt in Hdc. done. }
        destruct Hsame2 as [->|Hex]; [by apply Hcov1|].
        apply Hlater; [done|]. apply date_leb_refl.
      * apply Hcov2; [done| |done|done]. by rewrite date_leb_ltb, Hlt.
    + destruct Hsame2 as [->|(d' & Hd' & Hcov)].
      * destruct Hsame1 as [->|Hcov]; [by left|]. right. exists cur.
        split; [apply date_leb_refl|done].
      * right. exists d'. split; [|done]. by eapply date_leb_trans.
Qed.

Lemma fetch_day_quiet fuel d off n w :
  (∀ r : doc, r ∈ day_window ds d → r !! "report_number" = None) →
  length (day_window ds d) - off < fuel →
  ∃ w', fetch_day (soda_get ds) exec_order fuel d off n w = (Done n, w')
        ∧ sink w' = sink w.
Proof.
  intros Hquiet. revert off w.
  induction fuel as [|fuel IH]; intros off w Hfuel; simpl; [lia|].
  rewrite soda_query_day.
  destruct (take 1000 (drop off (day_window ds d))) as [|b page] eqn:Hpage.
  - eexists. split; [done|done].
  - rewrite store_page_unkeyed.
    2:{ intros r Hr. apply Hquiet. rewrite <- Hpage in Hr. by eapply page_member. }
    rewrite Nat.add_0_r.
    destruct (IH (off + 1000) {| sink := sink w;
                sent := sent w ++ [day_request d off] |}) as (w' & Hrun & Hs).
    + assert (off < length (day_window ds d)).
      { destruct (decide (off < length (day_window ds d))) as [|Hge]; [done|].
        rewrite drop_ge in Hpage by lia. done. }
      lia.
    + exists w'. done.
Qed.

Lemma fetch_days_quiet dfuel pfuel cur today n w :
  shaped cur → valid_date today = true →
  (∀ d, shaped d → date_leb cur d = true → date_leb d today = true →
        ∀ r : doc, r ∈ day_window ds d → r !! "report_number" = None) →
  length ds < pfuel →
  (rank today - rank cur < Z.of_nat dfuel)%Z →
  ∃ w', fetch_days (soda_get ds) exec_order dfuel pfuel cur today n w
          = (Done n, w')
        ∧ sink w' = sink w.
Proof.
  intros Hcur Htoday Hquiet Hp. revert cur n w Hcur Hquiet.
  induction dfuel as [|dfuel IH]; intros cur n w Hcur Hquiet Hd; simpl.
  - destruct (date_leb cur today) eqn:Hle; simpl; [|by eexists].
    pose proof (shaped_valid cur today Hcur Htoday Hle) as Hv.
    apply valid_date_spec in Htoday as [Htoday _].
    pose proof (rank_mono cur today Hcur Htoday Hle). lia.
  - destruct (date_leb cur today) eqn:Hle; simpl; [|by eexists].
    destruct (fetch_day_quiet pfuel cur 0 0 w) as (w1 & -> & Hs1).
    { apply Hquiet; [done|apply date_leb_refl|done]. }
    { unfold day_window, window.
      rewrite merge_sort_Permutation. pose proof (length_filter
        (λ r, in_window (where_lo (day_request cur 0))
                        (where_hi (day_request cur 0)) r) ds). lia. }
    pose proof (next_day_after cur Hcur) as Hnext.
    destruct (IH (next_day cur) (n + 0) w1) as (w' & Hrun & Hs).
    + by apply next_day_shaped.
    + intros d Hd' H1 H2. apply Hquiet; [done| |done].
      apply date_leb_nlt. apply date_leb_nlt in H1.
      rewrite date_compare_lt in *. lia.
    + pose proof (rank_next_day cur Hcur). lia.
    + exists w'. simpl. rewrite Nat.add_0_r in Hrun |- *. split; [done|]. congruence.
Qed.

Lemma page_requests_S d off k :
  page_requests d off (S k) = day_request d off :: page_requests d (off + 1000) k.
Proof.
  unfold page_requests. change (seq 0 (S k)) with (0 :: seq 1 k).
  rewrite fmap_cons. f_equal; [f_equal; lia|].
  rewrite <- fmap_S_seq, <- list_fmap_compose. apply list_fmap_ext.
  intros i x _. unfold compose. f_equal. lia.
Qed.

(** The page loop of a day on a service that answers from [ds]: with
    enough fuel it ends; it has asked for the pages at the offsets
    [off], [off + 1000], ... and stopped at the first empty one; the
    pages, put end to end, are the records of the day's window from
    [off] on. *)
Lemma fetch_day_pages fuel d off n w :
  length (day_window ds d) - off < fuel →
  ∃ k m w',
    fetch_day (soda_get ds) exec_order fuel d off n w = (Done m, w')
    ∧ sent w' = sent w ++ page_requests d off (S k)
    ∧ concat (soda_query ds <$> page_requests d off (S k))
      = drop off (day_window ds d)
    ∧ soda_query ds (day_request d (off + 1000 * k)) = []
    ∧ ∀ i, i < k → soda_query ds (day_request d (off + 1000 * i)) ≠ [].
Proof.
  revert off n w. induction fuel as [|fuel IH]; intros off n w Hfuel; [lia|].
  cbn [fetch_day]. rewrite read_page_soda.
  destruct (soda_query ds (day_request d off)) as [|b page] eqn:Hpage.
  - exists 0. eexists _, _. split; [done|]. cbn [sent].
    rewrite page_requests_S. unfold page_requests. simpl.
    rewrite Nat.add_0_r, Hpage. repeat split; [|lia].
    rewrite soda_query_day in Hpage.
    apply take_nil_inv in Hpage as [?|Hdrop]; done.
  - cbn [sink sent].
    destruct (store_page exec_order (b :: page) (sink w)) as [c k0] eqn:Hs.
    destruct (IH (off + 1000) (n + k0)
                {| sink := c; sent := sent w ++ [day_request d off] |})
      as (k & m & w' & Hrun & Hsent & Hcat & Hlast & Hfull).
    { assert (off < length (day_window ds d)).
      { destruct (decide (off < length (day_window ds d))) as [|Hge]; [done|].
        rewrite soda_query_day, drop_ge in Hpage by lia. done. }
      lia. }
    exists (S k), m, w'. split; [done|]. cbn [sent] in Hsent.
    rewrite (page_requests_S d off (S k)). split; [|split; [|split]].
    + rewrite Hsent. by rewrite <- app_assoc.
    + rewrite fmap_cons. cbn [concat]. rewrite Hcat, soda_query_day.
      rewrite <- drop_drop. apply take_drop.
    + rewrite <- Hlast. do 2 f_equal. lia.
    + intros [|i] Hi.
      * by rewrite Nat.mul_0_r, Nat.add_0_r, Hpage.
      * replace (off + 1000 * S i) with (off + 1000 + 1000 * i) by lia.
        apply Hfull. lia.
Qed.

End Dataset.

Lemma day_window_spec (ds : list doc) d (r : doc) :
  r ∈ day_window ds d ↔
  r ∈ ds
  ∧ in_window (where_lo (day_request d 0)) (where_hi (day_request d 0)) r = true.
Proof.
  unfold day_window, window. rewrite merge_sort_Permutation.
  rewrite list_elem_of_filter, Is_true_true. tauto.
Qed.

(** The pages come in ascending order of the occurrence timestamp. *)
Lemma day_window_sorted (ds : list doc) d :
  Sorted by_offense_date (day_window ds d).
Proof.
  unfold day_window, window. apply Sorted_merge_sort.
  intros a b. unfold by_offense_date. apply total. apply _.
Qed.

Lemma incident_offense_date k s :
  Samples.incident k s !! "offense_date" = Some s.
Proof.
  unfold Samples.incident. rewrite lookup_insert_ne by done.
  apply lookup_singleton_eq.
Qed.

(** An incident of the last second of a day, after 23:59:59.000, is
    outside the window the asset asks for, on that day and on every
    other day. *)
Lemma last_second_in_no_window d d' k :
  valid_date d = true → valid_date d' = true →
  in_window (where_lo (day_request d' 0)) (where_hi (day_request d' 0))
            (Samples.incident k (date_str d +:+ "T23:59:59.500")) = false.
Proof.
  intros Hd Hd'.
  destruct (in_window _ _ _) eqn:Hw; [exfalso|done].
  destruct (window_day (λ _, Some d)
              (Samples.incident k (date_str d +:+ "T23:59:59.500")) d' 0 Hd')
    as (s & Hs & (_ & _ & Hday)); [|done|].
  { intros s. rewrite incident_offense_date. intros [= <-]. exists d.
    split; [done|]. split; [by exists "23:59:59.500"|done]. }
  injection Hday as ->. clear Hs s.
  unfold in_window in Hw. rewrite incident_offense_date in Hw.
  apply andb_true_iff in Hw as [_ Hw]. unfold stamp_of_literal in Hw.
  rewrite decide_True in Hw by reflexivity. unfold String.leb in Hw.
  change (where_hi (day_request d' 0) +:+ ".000")
    with (date_str d' +:+ "T23:59:59.000") in Hw.
  rewrite !date_str_chars, !compare_cons, !ascii_compare_refl in Hw.
  vm_compute in Hw. done.
Qed.

End RemoteFacts.

Module IdempotenceClaim.
Import Calendar Sink Ingest Remote Samples.
Import CalendarFacts StringFacts SinkFacts IngestFacts StampFacts RemoteFacts.

Lemma resolve_start_dated to_date (c : list doc) :
  Forall (dated to_date) c →
  ∃ start, resolve_start to_date c = Some start ∧ shaped start.
Proof.
  intros Hc. unfold resolve_start.
  destruct (latest_offense_date c) as [v|] eqn:Hl.
  - destruct (latest_some c v Hl) as [(x & Hx & Hv) _].
    rewrite Forall_forall in Hc. destruct (Hc x Hx v Hv) as (d & Hd & _ & ->).
    simpl. eexists. split; [done|]. apply next_day_shaped.
    by apply valid_date_spec in Hd as [? _].
  - exists epoch. split; [done|]. unfold shaped, epoch. simpl.
    unfold days_in_month. simpl. lia.
Qed.

(** A run on a sink whose checkpoint already covers every day that has
    a record with a report number changes nothing. *)
Lemma quiet_run exec_order to_date (ds s1 : list doc) today1 today2
    dfuel pfuel :
  Forall (dated to_date) ds → Forall (dated to_date) s1 →
  valid_date today2 = true →
  quiet_between to_date ds today1 today2 →
  (∀ d start, resolve_start to_date s1 = Some start → shaped d →
     date_leb start d = true → date_leb d today1 = true →
     keyed_on ds d → covered to_date s1 d) →
  (rank today2 < Z.of_nat dfuel)%Z → length ds < pfuel →
  ∃ out2 w2,
    fetch_crime_data (soda_get ds) exec_order to_date dfuel pfuel today2 s1
      = (out2, w2)
    ∧ sink w2 = s1
    ∧ ∃ start, out2 = NoNewData today2 start ∨ out2 = Completed today2 start 0.
Proof.
  intros Hds Hs1 Htoday Hquiet Hcov Hd Hp.
  destruct (resolve_start_dated to_date s1 Hs1) as (start & Hstart & Hshape).
  unfold fetch_crime_data. rewrite Hstart.
  destruct (date_ltb today2 start) eqn:Hlt.
  { eexists _, _. split; [done|]. split; [done|]. exists start. by left. }
  destruct (fetch_days_quiet exec_order ds dfuel pfuel start today2 0
              {| sink := s1; sent := [] |}) as (w' & -> & Hs); try done.
  - intros d Hshape_d H1 H2 r Hr.
    destruct (r !! "report_number") as [k|] eqn:Hk; [exfalso|done].
    pose proof (shaped_valid d today2 Hshape_d Htoday H2) as Hv.
    destruct (day_window_stamp to_date ds Hds r d Hv Hr) as (Hin & _ & s & Hs & Hstamp).
    destruct (date_leb d today1) eqn:Hle.
    + assert (covered to_date s1 d) as Hc.
      { eapply Hcov; [done..|]. exists r. split; [done|]. by rewrite Hk. }
      pose proof (covered_start to_date s1 d start Hc Hstart) as Hcontra.
      apply date_leb_nlt in H1. rewrite date_compare_lt in *. lia.
    + apply (Hquiet r s d); [done|by rewrite Hk|done..| |done].
      rewrite date_leb_ltb in Hle. by apply negb_false_iff in Hle.
  - pose proof (rank_nonneg start Hshape). lia.
  - eexists _, _. split; [done|]. split; [done|]. exists start. by right.
Qed.

(** C3.  After a run that ended normally, a second run against the same
    dataset, on the same day or on a later day the dataset has no
    incident for, ends normally when it has fuel, leaves the sink as
    the first run left it and counts no new record.  The stored and
    the remote [offense_date] values are ISO timestamps, and the
    server applies the operations of a batch in some order. *)
Theorem ingestion_idempotent
    (exec_order : list (string * doc) → list (string * doc))
    (to_date : string → option date)
    (ds c : list doc) (today1 today2 : date) (dfuel1 pfuel1 : nat)
    (out1 : outcome) (w1 : world) :
  (∀ l, exec_order l ≡ₚ l) →
  Forall (dated to_date) ds → Forall (dated to_date) c →
  valid_date today1 = true → valid_date today2 = true →
  date_leb today1 today2 = true →
  quiet_between to_date ds today1 today2 →
  fetch_crime_data (soda_get ds) exec_order to_date dfuel1 pfuel1 today1 c
    = (out1, w1) →
  (∃ start n, out1 = NoNewData today1 start ∨ out1 = Completed today1 start n) →
  ∃ dfuel0 pfuel0 : nat, ∀ dfuel2 pfuel2 : nat,
    dfuel0 ≤ dfuel2 → pfuel0 ≤ pfuel2 →
    ∃ out2 w2,
      fetch_crime_data (soda_get ds) exec_order to_date dfuel2 pfuel2 today2
        (sink w1) = (out2, w2)
      ∧ sink w2 = sink w1
      ∧ ∃ start, out2 = NoNewData today2 start ∨ out2 = Completed today2 start 0.
Proof.
  intros Hperm Hds Hc Ht1 Ht2 Hle Hquiet Hrun Hnormal.
  exists (S (Z.to_nat (rank today2))), (S (length ds)).
  intros dfuel2 pfuel2 Hd' Hp'.
  assert (rank today2 < Z.of_nat dfuel2)%Z as Hd by lia.
  assert (length ds < pfuel2) as Hp by lia.
  clear Hd' Hp'.
  destruct (resolve_start_dated to_date c Hc) as (start1 & Hstart1 & Hshape1).
  unfold fetch_crime_data in Hrun. rewrite Hstart1 in Hrun.
  destruct (date_ltb today1 start1) eqn:Hlt1.
  - injection Hrun as <- <-. simpl.
    apply quiet_run with today1; try done.
    intros d start Hstart Hshape H1 H2 _. exfalso.
    rewrite Hstart1 in Hstart. injection Hstart as <-.
    apply date_ltb_lt in Hlt1. apply date_leb_nlt in H1, H2.
    rewrite date_compare_lt in *. lia.
  - destruct (fetch_days _ _ _ _ _ _ _ _) as [r w] eqn:Hdays.
    destruct r as [n|e|].
    2:{ injection Hrun as <- _. by destruct Hnormal as (? & ? & [?|?]). }
    2:{ injection Hrun as <- _. by destruct Hnormal as (? & ? & [?|?]). }
    injection Hrun as _ <-.
    apply (fetch_days_covers exec_order to_date ds Hperm Hds) in Hdays
      as (Hc1 & Hcov & Hsame); [|done..].
    simpl in Hsame.
    apply quiet_run with today1; try done.
    intros d start2 Hstart2 Hshape H1 H2 Hkey. apply Hcov; [done| |done..].
    destruct Hsame as [Heq|(d0 & Hd0 & Hc0)].
    + rewrite Heq, Hstart1 in Hstart2. by injection Hstart2 as <-.
    + pose proof (covered_start to_date (sink w) d0 start2 Hc0 Hstart2) as Hlt.
      apply date_leb_nlt. apply date_leb_nlt in Hd0, H1.
      rewrite date_compare_lt in *. lia.
Qed.

Lemma one_incident_dated : Forall (dated leading_date) one_incident.
Proof.
  repeat constructor. intros s Hs. exists jan_1.
  assert (s = "2025-01-01T10:00:00.000") as ->.
  { vm_compute in Hs. by injection Hs as <-. }
  split; [reflexivity|]. split; [by exists "10:00:00.000"|reflexivity].
Qed.

Lemma ingestion_idempotent_witness :
  ∃ dfuel0 pfuel0 : nat, ∀ dfuel2 pfuel2 : nat,
    dfuel0 ≤ dfuel2 → pfuel0 ≤ pfuel2 →
    ∃ out2 w2,
      fetch_crime_data (soda_get one_incident) in_order leading_date
        dfuel2 pfuel2 jan_3
        (sink (fetch_crime_data (soda_get one_incident) in_order leading_date
                 3 3 jan_2 []).2) = (out2, w2)
      ∧ sink w2 = sink (fetch_crime_data (soda_get one_incident) in_order
                          leading_date 3 3 jan_2 []).2
      ∧ ∃ start, out2 = NoNewData jan_3 start ∨ out2 = Completed jan_3 start 0.
Proof.
  apply (ingestion_idempotent in_order leading_date one_incident [] jan_2 jan_3
           3 3
           (fetch_crime_data (soda_get one_incident) in_order leading_date
              3 3 jan_2 []).1
           (fetch_crime_data (soda_get one_incident) in_order leading_date
              3 3 jan_2 []).2).
  - reflexivity.
  - apply one_incident_dated.
  - constructor.
  - reflexivity.
  - reflexivity.
  - reflexivity.
  - intros r s d Hr _ Hs (_ & _ & Hd) Hlt _.
    apply list_elem_of_singleton in Hr as ->.
    assert (s = "2025-01-01T10:00:00.000") as ->.
    { vm_compute in Hs. by injection Hs as <-. }
    vm_compute in Hd. injection Hd as <-. vm_compute in Hlt. discriminate.
  - apply surjective_pairing.
  - exists jan_1, 1. right. vm_compute. reflexivity.
Defined.

End IdempotenceClaim.

Module FetcherClaim.
Import Calendar Sink Ingest Remote Samples.

(** C5, at an input where the code misses it.  The window the asset
    asks for ends at 23:59:59, so an incident that occurred in the last
    second of the day, after 23:59:59.000, is returned by no page: the
    run over the first of January completes, has asked for the pages at
    offsets 0 and 1000 and has stored incident A only, although
    incident B occurred on that day too. *)
Theorem last_second_is_not_fetched :
  fetch_crime_data (soda_get late_incidents) in_order leading_date 3 3 jan_1 []
  = (Completed jan_1 jan_1 1,
     {| sink := [incident "A" "2025-01-01T10:00:00.000"];
        sent := [day_request jan_1 0; day_request jan_1 1000] |})
  ∧ incident "B" "2025-01-01T23:59:59.500" ∈ late_incidents
  ∧ leading_date "2025-01-01T23:59:59.500" = Some jan_1
  ∧ (incident "B" "2025-01-01T23:59:59.500" ∉ day_window late_incidents jan_1)
  ∧ day_window late_incidents jan_1 = [incident "A" "2025-01-01T10:00:00.000"].
Proof. repeat split; compute_done. Qed.

End FetcherClaim.

Module RegexFacts.
Import Platform Calendar Regex Timestamp Stamps CalendarFacts.

Lemma matches_seq r1 r2 s s1 s2 :
  matches r1 s s1 → matches r2 s1 s2 → matches (Seq r1 r2) s s2.
Proof.
  intros [g1 H1] [g2 H2]. exists (g1 ++ g2). simpl.
  apply list_elem_of_bind. exists (g1, s1). split; [|done].
  apply list_elem_of_fmap. by exists (g2, s2).
Qed.

Lemma matches_lit c s : matches (Lit c) (String c s) s.
Proof. exists []. simpl. rewrite Ascii.eqb_refl. left. Qed.

Lemma matches_class p c s : p c = true → matches (Class p) (String c s) s.
Proof. intros H. exists []. simpl. rewrite H. left. Qed.

Lemma code_digit n : code (digit_char n) = (48 + n mod 10)%Z.
Proof.
  unfold code, digit_char. pose proof (Z.mod_pos_bound n 10 ltac:(lia)).
  rewrite Ascii.N_ascii_embedding by lia. lia.
Qed.

Lemma is_digit_digit n : is_digit (digit_char n) = true.
Proof.
  unfold is_digit, in_range. rewrite code_digit.
  pose proof (Z.mod_pos_bound n 10 ltac:(lia)).
  change (code "0") with 48%Z. change (code "9") with 57%Z. lia.
Qed.

Lemma matches_d n s : matches d (String (digit_char n) s) s.
Proof. apply matches_class, is_digit_digit. Qed.

(** Enumeration of a range of integers. *)
Lemma range_cases (P : Z → Prop) (lo n : Z) :
  Forall P (seqZ lo n) → ∀ z, (lo ≤ z < lo + n)%Z → P z.
Proof. intros H z Hz. rewrite Forall_seqZ in H. by apply H. Qed.

Ltac by_cases lo n :=
  let l := eval vm_compute in (seqZ lo n) in
  apply (range_cases _ lo n); [change (seqZ lo n) with l|lia];
  repeat (constructor; [intros ?; eexists; vm_compute; repeat constructor|]);
  constructor.

Lemma matches_month m s :
  (1 ≤ m ≤ 12)%Z →
  matches (alt [Seq (Lit "0") (rng "1" "9"); Seq (Lit "1") (rng "0" "2")])
          (String (digit_char (m / 10)) (String (digit_char m) s)) s.
Proof. intros Hm. revert s. pattern m. by_cases 1%Z 12%Z. Qed.

Lemma matches_day n s :
  (1 ≤ n ≤ 31)%Z →
  matches (alt [Seq (Lit "0") (rng "1" "9"); Seq (rng "1" "2") d;
                Seq (Lit "3") (rng "0" "1")])
          (String (digit_char (n / 10)) (String (digit_char n) s)) s.
Proof. intros Hm. revert s. pattern n. by_cases 1%Z 31%Z. Qed.

Lemma matches_hour n s :
  (0 ≤ n ≤ 23)%Z →
  matches (alt [Seq (rng "0" "1") d; Seq (Lit "2") (rng "0" "3")])
          (String (digit_char (n / 10)) (String (digit_char n) s)) s.
Proof. intros Hm. revert s. pattern n. by_cases 0%Z 24%Z. Qed.

Lemma matches_sixty n s :
  (0 ≤ n ≤ 59)%Z →
  matches (Seq (rng "0" "5") d)
          (String (digit_char (n / 10)) (String (digit_char n) s)) s.
Proof. intros Hm. revert s. pattern n. by_cases 0%Z 60%Z. Qed.

Lemma iso_text_chars dt :
  t_form dt +:+ ".000"
  = String (digit_char (year (dt_date dt) / 1000))
     (String (digit_char (year (dt_date dt) / 100))
     (String (digit_char (year (dt_date dt) / 10))
     (String (digit_char (year (dt_date dt)))
     (String "-"
     (String (digit_char (month (dt_date dt) / 10))
     (String (digit_char (month (dt_date dt)))
     (String "-"
     (String (digit_char (day (dt_date dt) / 10))
     (String (digit_char (day (dt_date dt)))
     (String "T"
     (String (digit_char (hour dt / 10)) (String (digit_char (hour dt))
     (String ":"
     (String (digit_char (minute dt / 10)) (String (digit_char (minute dt))
     (String ":"
     (String (digit_char (second dt / 10)) (String (digit_char (second dt))
     ".000")))))))))))))))))).
Proof. reflexivity. Qed.

(** Where the year is written with four digits, [strftime] writes the
    text with a T of the timestamp and three zero decimals. *)
Lemma strftime_full p dt :
  pads_year p = true ∨ (1000 ≤ year (dt_date dt))%Z →
  strftime p dt = t_form dt +:+ ".000".
Proof.
  intros H. unfold strftime, year_str, plain_year.
  destruct (pads_year p); [reflexivity|].
  destruct H as [|H]; [done|].
  repeat match goal with
         | |- context [(?a <? ?b)%Z] => destruct (Z.ltb_spec a b); [lia|]
         end.
  reflexivity.
Qed.

(** [strftime] never writes the empty text. *)
Lemma strftime_text p dt : ∃ c s, strftime p dt = String c s.
Proof.
  unfold strftime, year_str, plain_year.
  destruct (pads_year p); [by do 2 eexists|].
  repeat match goal with
         | |- context [(?a <? ?b)%Z] => destruct (Z.ltb_spec a b)
         end; by do 2 eexists.
Qed.

Lemma strptime_well_formed fmt s dt :
  strptime fmt s = Some dt → well_formed dt.
Proof.
  unfold strptime. destruct (re_match fmt s) as [[g [|??]]|]; [|done..].
  match goal with |- context [if ?b then _ else _] => destruct b eqn:Hb end;
    [|done].
  intros [= <-]. rewrite !andb_true_iff, !Z.leb_le in Hb. unfold well_formed.
  simpl in *. tauto.
Qed.

Lemma iso_text_iso dt : well_formed dt → iso_match (t_form dt +:+ ".000") = true.
Proof.
  intros (Hd & Hh & Hm & Hs).
  apply valid_date_spec in Hd as [(Hy & Hmo & Hda) _].
  pose proof (days_in_month_bounds (year (dt_date dt)) (month (dt_date dt))).
  assert (matches iso_8601_pattern (t_form dt +:+ ".000") EmptyString) as [g Hg].
  { rewrite iso_text_chars. unfold iso_8601_pattern. cbn [seq].
    repeat (eapply matches_seq; [apply matches_d|]).
    eapply matches_seq; [apply matches_lit|].
    eapply matches_seq; [by apply matches_month|].
    eapply matches_seq; [apply matches_lit|].
    eapply matches_seq; [apply matches_day; lia|].
    eapply matches_seq; [apply matches_lit|].
    eapply matches_seq; [by apply matches_hour|].
    eapply matches_seq; [apply matches_lit|].
    eapply matches_seq; [by apply matches_sixty|].
    eapply matches_seq; [apply matches_lit|].
    eapply matches_seq; [by apply matches_sixty|].
    eexists. vm_compute. repeat constructor. }
  unfold iso_match, re_match.
  destruct (run iso_8601_pattern (t_form dt +:+ ".000")).
  - by apply elem_of_nil in Hg.
  - done.
Qed.

Lemma strftime_iso p dt :
  well_formed dt → pads_year p = true ∨ (1000 ≤ year (dt_date dt))%Z →
  iso_match (strftime p dt) = true.
Proof. intros Hwf H. rewrite strftime_full by done. by apply iso_text_iso. Qed.

End RegexFacts.

Module HeapFacts.
Import Platform Frame Clean.

Lemma bind_ret {A B} (a : A) (k : A → M B) h : bind (ret a) k h = k a h.
Proof. reflexivity. Qed.

Lemma bind_read {A B} (f : frame → exn + A) (k : A → M B) h l df :
  h !! l = Some df →
  bind (read f l) k h
  = match f df with inr a => k a h | inl e => (inl e, h) end.
Proof.
  intros Hl. unfold read, bind, load, lift. rewrite Hl. by destruct (f df).
Qed.

Lemma bind_mutate {B} (f : frame → exn + frame) (k : unit → M B) h0 h l df :
  current h0 h l df →
  bind (mutate f l) k h
  = match f df with
    | inr df' => k tt (<[l := df']> h)
    | inl e => (inl e, h)
    end
  ∧ ∀ df', current h0 (<[l := df']> h) l df'.
Proof.
  intros (Hsub & Hnew & Hl). split.
  - unfold mutate, bind, load, lift, store. rewrite Hl. by destruct (f df).
  - intros df'. unfold current. split; [|split; [done|]].
    + apply map_subseteq_spec. intros i x Hi.
      destruct (decide (i = l)) as [->|Hne]; [congruence|].
      rewrite lookup_insert_ne by done. by eapply lookup_weaken.
    + apply lookup_insert_eq.
Qed.

Lemma bind_rebind {B} (f : frame → exn + frame) (k : loc → M B) h0 h l df :
  h0 ⊆ h → h !! l = Some df →
  ∃ l', bind (rebind f l) k h
        = match f df with
          | inr df' => k l' (<[l' := df']> h)
          | inl e => (inl e, h)
          end
      ∧ ∀ df', current h0 (<[l' := df']> h) l' df'.
Proof.
  intros Hsub Hl. exists (fresh (dom h)).
  assert (h !! fresh (dom h) = None) as Hfresh.
  { apply not_elem_of_dom. apply is_fresh. }
  split.
  - unfold rebind, bind, load, lift, alloc. rewrite Hl. by destruct (f df).
  - intros df'. unfold current. split; [|split].
    + etrans; [done|]. by apply insert_subseteq.
    + destruct (h0 !! fresh (dom h)) eqn:H0; [|done].
      eapply lookup_weaken in H0; [|done]. congruence.
    + apply lookup_insert_eq.
Qed.

End HeapFacts.

Module CleanFacts.
Import Platform Frame Clean Timestamp HeapFacts.

Section Refinement.
Variable pf : platform.
Variable float_of_str : string → option Z.
Variable render : cell → string.

Lemma bind_if_dedup {B} (b : bool) (k : loc → M B) h0 h l df :
  current h0 h l df →
  ∃ l' h', current h0 h' l' (if b then drop_duplicates df else df)
           ∧ bind (if b then rebind (λ x, inr (drop_duplicates x)) l
                   else ret l) k h
             = k l' h'.
Proof.
  intros Hc. destruct b.
  - destruct Hc as (Hs & Hn & Hl).
    destruct (bind_rebind (λ x, inr (drop_duplicates x)) k h0 h l df Hs Hl)
      as (l' & Heq & Hc').
    exists l', (<[l' := drop_duplicates df]> h). split; [apply Hc'|done].
  - by exists l, h.
Qed.

(** One statement that makes a new table. *)
Ltac step_rebind Hc Hs :=
  let Hn := fresh "Hn" in let Hl := fresh "Hl" in
  destruct Hc as (Hs & Hn & Hl);
  match goal with
  | |- context [bind (rebind ?f ?l) ?k ?h] =>
      let l' := fresh "l" in let Heq := fresh "Heq" in
      destruct (bind_rebind f k _ h l _ Hs Hl) as (l' & Heq & Hc);
      rewrite Heq; clear Heq Hn Hl
  end.

(** One statement that changes the current table. *)
Ltac step_mutate Hc Hs :=
  pose proof (proj1 Hc) as Hs;
  match goal with
  | |- context [bind (mutate ?f ?l) ?k ?h] =>
      let Heq := fresh "Heq" in let Hc' := fresh "Hc" in
      destruct (bind_mutate f k _ h l _ Hc) as (Heq & Hc');
      rewrite Heq; clear Heq; clear Hc; rename Hc' into Hc
  end.

(** One statement that reads the current table. *)
Ltac step_read Hc :=
  match goal with
  | |- context [bind (read ?f ?l) ?k ?h] =>
      rewrite (bind_read f k h l _ (proj2 (proj2 Hc)))
  end.

(** The outcome of a step that can raise. *)
Ltac branch Hs :=
  match goal with
  | |- context [and_then ?m _] =>
      destruct m eqn:?; cbn [and_then]; cbv beta iota;
      [split; [exact Hs|reflexivity]|]
  end.

Ltac settle Hc Hs :=
  match goal with
  | E : _ = inr ?df |- _ => specialize (Hc df); clear Hs
  end.

Ltac total Hc Hs :=
  cbv beta iota;
  match goal with
  | Hc : ∀ df' : frame, current _ _ _ df' |- context [<[ _ := ?df ]> _] =>
      specialize (Hc df); clear Hs
  end.

Lemma bind_assoc {A B C} (m : M A) (k1 : A → M B) (k2 : B → M C) h :
  bind (bind m k1) k2 h = bind m (λ x, bind (k1 x) k2) h.
Proof. unfold bind. by destruct (m h) as [[e|a] h']. Qed.

Lemma clean_runs (h : heap) (input : loc) (raw : frame) :
  h !! input = Some raw →
  h ⊆ (clean_and_analyze_crime_data pf float_of_str render input h).2
  ∧ match cleaned pf float_of_str render raw with
    | inr (out, md) =>
        ∃ l', (clean_and_analyze_crime_data pf float_of_str render input h).1
              = inr (l', md)
            ∧ (clean_and_analyze_crime_data pf float_of_str render input h).2 !! l'
              = Some out
            ∧ h !! l' = None
    | inl e =>
        (clean_and_analyze_crime_data pf float_of_str render input h).1 = inl e
    end.
Proof.
  intros Hin. unfold clean_and_analyze_crime_data, cleaned.
  cbv zeta. unfold compose.
  assert (h ⊆ h) as Hs by done.
  match goal with
  | |- context [bind (rebind ?f ?l) ?k ?h] =>
      destruct (bind_rebind f k h h l raw Hs Hin) as (l1 & Heq & Hc);
      rewrite Heq; clear Heq
  end.
  cbv beta iota. specialize (Hc raw). clear Hs.
  step_mutate Hc Hs.
  destruct (normalize_columns pf raw) as [e|named] eqn:Hnamed;
    cbn [and_then]; cbv beta iota; [split; [exact Hs|reflexivity]|].
  specialize (Hc named). clear Hs.
  step_read Hc. cbv beta iota.
  match goal with
  | |- context [bind (if ?b then _ else _) ?k ?h] =>
      destruct (bind_if_dedup b k _ h _ _ Hc) as (l2 & h2 & Hc2 & ->)
  end.
  clear Hc. fold (dedup named) in *.
  step_read Hc2. cbv beta iota.
  match goal with
  | |- context [bind (if ?b then _ else _) ?k ?h] =>
      destruct (bind_if_dedup b k _ h _ _ Hc2) as (l3 & h3 & Hc & ->)
  end.
  clear Hc2. fold (dedup (dedup named)) in *.
  step_rebind Hc Hs. branch Hs. settle Hc Hs.
  step_rebind Hc Hs. branch Hs. settle Hc Hs.
  pose proof (proj1 Hc) as Hs. step_read Hc. branch Hs. clear Hs.
  step_rebind Hc Hs. branch Hs. settle Hc Hs.
  step_mutate Hc Hs. branch Hs. settle Hc Hs.
  step_mutate Hc Hs. branch Hs. settle Hc Hs.
  step_rebind Hc Hs. total Hc Hs.
  step_rebind Hc Hs. branch Hs. settle Hc Hs.
  step_rebind Hc Hs. branch Hs. settle Hc Hs.
  step_read Hc. cbv beta iota. unfold validate_dates, compose.
  destruct (index_of "offense_date" (columns _)) as [i|].
  - rewrite !bind_assoc. step_read Hc. cbv beta iota.
    rewrite !bind_assoc. step_mutate Hc Hs. total Hc Hs.
    rewrite !bind_assoc. step_rebind Hc Hs. total Hc Hs.
    rewrite bind_ret. cbn [fst snd].
    pose proof (proj1 Hc) as Hs. step_read Hc. branch Hs.
    step_read Hc. step_read Hc. cbv beta iota. unfold ret. cbn [fst snd].
    split; [done|]. eexists. split; [reflexivity|]. split; apply Hc.
  - rewrite bind_ret. cbn [fst snd].
    pose proof (proj1 Hc) as Hs. step_read Hc. branch Hs.
    step_read Hc. step_read Hc. cbv beta iota. unfold ret. cbn [fst snd].
    split; [done|]. eexists. split; [reflexivity|]. split; apply Hc.
Qed.

End Refinement.
End CleanFacts.

Module FrameFacts.
Import Platform Frame Clean Timestamp.

Lemma elem_of_keep_rows p df (r : row) :
  r ∈ rows (keep_rows p df) ↔ r ∈ rows df ∧ p r = true.
Proof.
  unfold keep_rows. simpl. rewrite !list_elem_of_In. apply filter_In.
Qed.

Lemma drop_duplicated_subset seen (rs : list row) (r : row) :
  r ∈ drop_duplicated seen rs → r ∈ rs.
Proof.
  revert seen. induction rs as [|x rs IH]; intros seen; simpl; [done|].
  destruct (seen_in x.2 seen).
  - intros H. right. by eapply IH.
  - intros [->|H]%elem_of_cons; [left|right]. by eapply IH.
Qed.

Lemma any_duplicated_dropped seen (rs : list row) :
  any_duplicated seen (drop_duplicated seen rs) = false.
Proof.
  revert seen. induction rs as [|x rs IH]; intros seen; simpl; [done|].
  destruct (seen_in x.2 seen) eqn:Hx; simpl; [apply IH|].
  by rewrite Hx, IH.
Qed.

Lemma dedup_rows df (r : row) : r ∈ rows (dedup df) → r ∈ rows df.
Proof.
  unfold dedup. destruct (duplicated_any df); [|done].
  apply drop_duplicated_subset.
Qed.

Lemma dedup_columns df : columns (dedup df) = columns df.
Proof. unfold dedup. by destruct (duplicated_any df). Qed.

(** After the first removal of duplicates no row repeats another. *)
Lemma dedup_no_duplicates df : duplicated_any (dedup df) = false.
Proof.
  unfold dedup. destruct (duplicated_any df) eqn:H; [|done].
  apply any_duplicated_dropped.
Qed.

Lemma index_of_Some label cols i :
  index_of label cols = Some i → cols !! i = Some label.
Proof.
  revert i. induction cols as [|c cols IH]; intros i; simpl; [done|].
  destruct (decide (c = label)) as [->|Hne].
  - by intros [= <-].
  - destruct (index_of label cols) as [k|]; [|done]. simpl.
    intros [= <-]. by apply IH.
Qed.

Lemma index_of_distinct a b cols i j :
  a ≠ b → index_of a cols = Some i → index_of b cols = Some j → i ≠ j.
Proof.
  intros Hab Ha%index_of_Some Hb%index_of_Some ->. congruence.
Qed.

Lemma cell_at_set_ne i k c (r : row) :
  i ≠ k → cell_at i (set_cell k c r) = cell_at i r.
Proof.
  intros Hne. unfold cell_at, set_cell. simpl.
  by rewrite list_lookup_insert_ne.
Qed.

Lemma set_cell_label k c (r : row) : (set_cell k c r).1 = r.1.
Proof. reflexivity. Qed.

Lemma normalize_columns_inr pf df df' :
  normalize_columns pf df = inr df' → df' = relabel df.
Proof.
  unfold normalize_columns. destruct (range_columns pf && is_bare df); [done|].
  by intros [= <-].
Qed.

Lemma normalize_columns_inl pf df e :
  normalize_columns pf df = inl e →
  e = AttributeError ∧ range_columns pf = true
  ∧ columns df = [] ∧ rows df = [].
Proof.
  unfold normalize_columns, is_bare.
  destruct (range_columns pf); [|intros [=]].
  destruct (bool_decide_reflect (columns df = [])); [|intros [=]].
  destruct (bool_decide_reflect (rows df = [])); [|intros [=]].
  by intros [= <-].
Qed.

Lemma normalize_columns_rows pf df :
  rows df ≠ [] → normalize_columns pf df = inr (relabel df).
Proof.
  intros Hr. unfold normalize_columns, is_bare.
  rewrite (bool_decide_eq_false_2 (rows df = [])) by done.
  by rewrite !andb_false_r.
Qed.

Lemma normalize_columns_columns pf df :
  columns df ≠ [] → normalize_columns pf df = inr (relabel df).
Proof.
  intros Hr. unfold normalize_columns, is_bare.
  rewrite (bool_decide_eq_false_2 (columns df = [])) by done.
  simpl. by rewrite andb_false_r.
Qed.

Section Steps.
Variable pf : platform.
Variable float_of_str : string → option Z.
Variable render : cell → string.

Lemma to_float_cases c c' :
  to_float float_of_str c = inr c' → c' = CNull ∨ ∃ bits, c' = CNum bits.
Proof.
  destruct c as [|s|t|b]; simpl; [intros [= <-]; by left| |done|].
  - destruct (float_of_str s); [|done]. intros [= <-]. right. by eexists.
  - intros [= <-]. right. by eexists.
Qed.

Lemma cell_at_set_float k c (r : row) :
  to_float float_of_str (cell_at k r) = inr c →
  cell_at k (set_cell k c r) = c.
Proof.
  unfold cell_at, set_cell. simpl. intros H.
  destruct (decide (k < length r.2)) as [Hlt|Hge].
  - by rewrite list_lookup_insert_eq.
  - rewrite list_insert_ge by lia.
    rewrite lookup_ge_None_2 in H |- * by lia. simpl in *. congruence.
Qed.

Lemma where_ne_rows label text df df' :
  where_ne label text df = inr df' →
  columns df' = columns df ∧ ∀ r : row, r ∈ rows df' → r ∈ rows df.
Proof.
  unfold where_ne, position.
  destruct (index_of label (columns df)); [|done]. simpl. intros [= <-].
  split; [done|]. intros r Hr. by apply elem_of_keep_rows in Hr as [? _].
Qed.

Lemma drop_marked_latitude_rows df df' :
  drop_marked_latitude df = inr df' →
  columns df' = columns df
  ∧ ∃ j, index_of "latitude" (columns df) = Some j
       ∧ ∀ r : row, r ∈ rows df' →
           r ∈ rows df ∧ cell_at j r ≠ CStr "REDACTED"
           ∧ cell_at j r ≠ CStr "-1.0".
Proof.
  unfold drop_marked_latitude, position.
  destruct (index_of "latitude" (columns df)) as [j|]; [|done]. simpl.
  intros [= <-]. split; [done|]. exists j. split; [done|].
  intros r Hr. apply elem_of_keep_rows in Hr as [Hr Hp].
  apply andb_true_iff in Hp as [H1 H2]. split; [done|].
  split; intros Heq; rewrite Heq in *; done.
Qed.

Lemma to_float_rows_spec k (rs rs' : list row) :
  to_float_rows float_of_str k rs = inr rs' →
  ∀ r' : row, r' ∈ rs' →
    ∃ (r : row) c, r ∈ rs ∧ to_float float_of_str (cell_at k r) = inr c
                   ∧ r' = set_cell k c r.
Proof.
  revert rs'. induction rs as [|r rs IH]; intros rs'; simpl.
  - intros [= <-] r' Hr'. by apply elem_of_nil in Hr'.
  - destruct (to_float float_of_str (cell_at k r)) as [|c] eqn:Hc; [done|].
    simpl. destruct (to_float_rows float_of_str k rs) as [|rs''] eqn:Hrs; [done|].
    simpl. intros [= <-] r' [->|Hr']%elem_of_cons.
    + exists r, c. split; [left|done].
    + destruct (IH rs'' eq_refl r' Hr') as (r0 & c0 & Hin & H0 & ->).
      exists r0, c0. split; [by right|done].
Qed.

Lemma astype_float_rows label df df' :
  astype_float float_of_str label df = inr df' →
  columns df' = columns df
  ∧ ∃ k, index_of label (columns df) = Some k
       ∧ ∀ r' : row, r' ∈ rows df' →
           ∃ (r : row) c, r ∈ rows df
             ∧ to_float float_of_str (cell_at k r) = inr c
             ∧ r' = set_cell k c r.
Proof.
  unfold astype_float, position.
  destruct (index_of label (columns df)) as [k|]; [|done]. simpl.
  destruct (to_float_rows float_of_str k (rows df)) as [|rs] eqn:Hrs; [done|].
  simpl. intros [= <-]. split; [done|]. exists k. split; [done|].
  by apply to_float_rows_spec.
Qed.

Lemma dropna_rows df (r : row) :
  r ∈ rows (dropna df) →
  r ∈ rows df ∧ ∀ k, k < length (columns df) → isnull (cell_at k r) = false.
Proof.
  unfold dropna. intros [Hr Hc]%elem_of_keep_rows. split; [done|].
  intros k Hk. unfold complete in Hc. rewrite forallb_forall in Hc.
  apply negb_true_iff. apply Hc. apply in_seq. lia.
Qed.

Lemma drop_zero_coordinates_rows df df' :
  drop_zero_coordinates df = inr df' →
  columns df' = columns df
  ∧ ∃ i j, index_of "longitude" (columns df) = Some i
         ∧ index_of "latitude" (columns df) = Some j
         ∧ ∀ r : row, r ∈ rows df' →
             r ∈ rows df
             ∧ eq_zero (cell_at i r) && eq_zero (cell_at j r) = false.
Proof.
  unfold drop_zero_coordinates, position.
  destruct (index_of "longitude" (columns df)) as [i|]; [|done]. simpl.
  destruct (index_of "latitude" (columns df)) as [j|]; [|done]. simpl.
  intros [= <-]. split; [done|]. exists i, j. split; [done|]. split; [done|].
  intros r [Hr Hp]%elem_of_keep_rows. split; [done|]. by apply negb_true_iff.
Qed.

Lemma validate_dates_rows df :
  columns (validate_dates pf render df).2 = columns df
  ∧ ∀ r' : row, r' ∈ rows (validate_dates pf render df).2 →
      r' ∈ rows df
      ∨ ∃ p (r : row) o, index_of "offense_date" (columns df) = Some p
                         ∧ r ∈ rows df ∧ r' = set_cell p (date_cell o) r.
Proof.
  unfold validate_dates.
  destruct (index_of "offense_date" (columns df)) as [p|]; [|simpl; by auto].
  cbn [snd]. unfold drop_undated.
  split; [done|]. intros r' [Hr' _]%elem_of_keep_rows. right.
  unfold set_dates in Hr'. simpl in Hr'.
  apply elem_of_lookup_zip_with in Hr' as (n & r & o & -> & Hr & Ho).
  exists p, r, o. split; [done|]. split; [|done]. by eapply list_elem_of_lookup_2.
Qed.

End Steps.
End FrameFacts.

Module CoordinateFacts.
Import Platform Frame Clean Timestamp FrameFacts.

(** The first step of [cleaned], which did not raise. *)
Ltac first_step :=
  match goal with
  | H : and_then (normalize_columns ?pf ?raw) _ = inr _ |- _ =>
      let E := fresh "Hnamed" in let named := fresh "named" in
      destruct (normalize_columns pf raw) as [|named] eqn:E;
      cbn [and_then] in H; [discriminate H|];
      apply normalize_columns_inr in E; subst named
  end.

(** The next step of [cleaned], which did not raise. *)
Ltac next_step :=
  match goal with
  | H : and_then ?m _ = inr _ |- _ =>
      let E := fresh "E" in
      destruct m eqn:E; cbn [and_then] in H; [discriminate H|]
  end.

Section Coordinates.
Variable pf : platform.
Variable float_of_str : string → option Z.
Variable render : cell → string.

Lemma cleaned_coordinates raw out md :
  cleaned pf float_of_str render raw = inr (out, md) →
  columns out = normalize_label <$> columns raw
  ∧ ∃ i j, index_of "longitude" (columns out) = Some i
         ∧ index_of "latitude" (columns out) = Some j
         ∧ ∀ r' : row, r' ∈ rows out →
             ∃ lo la (r : row),
               cell_at i r' = CNum lo ∧ cell_at j r' = CNum la
               ∧ is_zero lo && is_zero la = false
               ∧ r ∈ rows raw ∧ r.1 = r'.1
               ∧ cell_at j r ≠ CStr "REDACTED" ∧ cell_at j r ≠ CStr "-1.0"
               ∧ to_float float_of_str (cell_at j r) = inr (CNum la).
Proof.
  unfold cleaned. cbv zeta. intros H.
  first_step. repeat next_step.
  destruct (validate_dates pf render f5) as [t df] eqn:Ev.
  next_step. injection H as <- <-.
  pose proof (validate_dates_rows pf render f5) as [Cv Rv].
  rewrite Ev in Cv, Rv. simpl in Cv, Rv.
  apply where_ne_rows in E as [C0 R0], E0 as [C1 R1], E5 as [C5 R5].
  apply drop_marked_latitude_rows in E2 as (C2 & j & Hj & R2).
  apply astype_float_rows in E3 as (C3 & j' & Hj' & R3).
  apply astype_float_rows in E4 as (C4 & i & Hi & R4).
  apply drop_zero_coordinates_rows in E6 as (C6 & i' & j'' & Hi' & Hj'' & R6).
  rewrite !dedup_columns in C0. simpl in C0, C5.
  set (cols := normalize_label <$> columns raw) in *.
  rewrite C0 in C1. rewrite C1 in C2, Hj. rewrite C2 in C3, Hj'.
  rewrite C3 in C4, Hi. rewrite C4 in C5. rewrite C5 in C6, Hi', Hj''.
  rewrite C6 in Cv. rewrite Hj in Hj', Hj''. injection Hj' as <-.
  injection Hj'' as <-.
  assert (i ≠ j) as Hij by (by eapply (index_of_distinct "longitude" "latitude")).
  rewrite Hi in Hi'. injection Hi' as <-.
  split; [done|]. exists i, j. rewrite Cv. split; [done|]. split; [done|].
  intros r' Hr'.
  assert (∃ r5 : row, r5 ∈ rows f5 ∧ cell_at i r' = cell_at i r5
                      ∧ cell_at j r' = cell_at j r5 ∧ r5.1 = r'.1)
    as (r5 & Hr5 & Hi5 & Hj5 & Hl5).
  { destruct (Rv r' Hr') as [Hin|(p & r & o & Hp & Hin & ->)].
    - by exists r'.
    - rewrite C6 in Hp. exists r. split; [done|].
      rewrite !cell_at_set_ne; [done| |].
      + by eapply (index_of_distinct "latitude" "offense_date").
      + by eapply (index_of_distinct "longitude" "offense_date"). }
  destruct (R6 r5 Hr5) as [Hr4 Hzero].
  apply R5, dropna_rows in Hr4 as [Hr3 Hfull].
  destruct (R4 r5 Hr3) as (r2 & c & Hr2 & Hc & ->).
  destruct (R3 r2 Hr2) as (r1 & c' & Hr1 & Hc' & ->).
  destruct (R2 r1 Hr1) as (Hr0 & Hred & Hneg).
  apply R1, R0, dedup_rows, dedup_rows in Hr0. simpl in Hr0.
  rewrite C4 in Hfull.
  pose proof (Hfull i (lookup_lt_Some _ _ _ (index_of_Some _ _ _ Hi))) as Hni.
  pose proof (Hfull j (lookup_lt_Some _ _ _ (index_of_Some _ _ _ Hj))) as Hnj.
  rewrite (cell_at_set_float float_of_str i c _ Hc) in Hi5, Hni, Hzero.
  rewrite (cell_at_set_ne j i) in Hj5, Hnj, Hzero by done.
  rewrite (cell_at_set_float float_of_str j c' _ Hc') in Hj5, Hnj, Hzero.
  destruct (to_float_cases float_of_str _ _ Hc) as [->|[lo ->]]; [done|].
  destruct (to_float_cases float_of_str _ _ Hc') as [->|[la ->]]; [done|].
  exists lo, la, r1. repeat split; done.
Qed.

End Coordinates.
End CoordinateFacts.

Module CleanClaims.
Import Platform Calendar Regex Timestamp Frame Clean TableSamples.
Import RegexFacts HeapFacts CleanFacts FrameFacts CoordinateFacts.

Lemma clean_result pf float_of_str render (h h' : heap) (input l' : loc)
    (raw : frame) (md : metadata) :
  h !! input = Some raw →
  clean_and_analyze_crime_data pf float_of_str render input h = (inr (l', md), h') →
  ∃ out, cleaned pf float_of_str render raw = inr (out, md)
         ∧ h' !! l' = Some out ∧ h ⊆ h' ∧ h !! l' = None.
Proof.
  intros Hin Hrun.
  destruct (clean_runs pf float_of_str render h input raw Hin) as [Hsub Hres].
  rewrite Hrun in Hsub, Hres. simpl in *.
  destruct (cleaned pf float_of_str render raw) as [e|[out md0]]; [done|].
  destruct Hres as (l'' & [= <- <-] & Hout & Hnew). by exists out.
Qed.

(** C6.  Every row of the table the cleaning returns has a longitude
    and a latitude that are floats and not both 0.0, and it comes from
    a row of the raw table, of the same index label, whose latitude was
    neither ["REDACTED"] nor ["-1.0"] and converts to the latitude of
    the row. *)
Theorem surviving_coordinates
    (pf : platform) (float_of_str : string → option Z) (render : cell → string)
    (h h' : heap) (input l' : loc) (raw : frame) (md : metadata) :
  h !! input = Some raw →
  clean_and_analyze_crime_data pf float_of_str render input h = (inr (l', md), h') →
  ∃ out i j,
    h' !! l' = Some out
    ∧ index_of "longitude" (columns out) = Some i
    ∧ index_of "latitude" (columns out) = Some j
    ∧ ∀ r' : row, r' ∈ rows out →
        ∃ lo la (r : row),
          cell_at i r' = CNum lo ∧ cell_at j r' = CNum la
          ∧ is_zero lo && is_zero la = false
          ∧ r ∈ rows raw ∧ r.1 = r'.1
          ∧ cell_at j r ≠ CStr "REDACTED" ∧ cell_at j r ≠ CStr "-1.0"
          ∧ to_float float_of_str (cell_at j r) = inr (CNum la).
Proof.
  intros Hin Hrun.
  destruct (clean_result _ _ _ _ _ _ _ _ _ Hin Hrun) as (out & Hc & Hout & _).
  destruct (cleaned_coordinates _ _ _ _ _ _ Hc) as (_ & i & j & Hi & Hj & Hrows).
  by exists out, i, j.
Qed.

Lemma surviving_coordinates_witness :
  ∃ out i j,
    (clean_and_analyze_crime_data python_311 float_of_sample render_sample 0
       {[ 0 := three_records ]}).2 !! 8 = Some out
    ∧ index_of "longitude" (columns out) = Some i
    ∧ index_of "latitude" (columns out) = Some j
    ∧ ∀ r' : row, r' ∈ rows out →
        ∃ lo la (r : row),
          cell_at i r' = CNum lo ∧ cell_at j r' = CNum la
          ∧ is_zero lo && is_zero la = false
          ∧ r ∈ rows three_records ∧ r.1 = r'.1
          ∧ cell_at j r ≠ CStr "REDACTED" ∧ cell_at j r ≠ CStr "-1.0"
          ∧ to_float float_of_sample (cell_at j r) = inr (CNum la).
Proof.
  apply (surviving_coordinates python_311 float_of_sample render_sample
           {[ 0 := three_records ]}
           (clean_and_analyze_crime_data python_311 float_of_sample render_sample 0
              {[ 0 := three_records ]}).2
           0 8 three_records metadata_three).
  - reflexivity.
  - vm_compute. reflexivity.
Defined.

Lemma cleaned_flag pf float_of_str render raw out md :
  cleaned pf float_of_str render raw = inr (out, md) →
  duplicates_removed md = false.
Proof.
  unfold cleaned. cbv zeta. intros H. first_step. repeat next_step.
  destruct (validate_dates pf render _) as [t df].
  next_step. injection H as _ <-. simpl.
  apply dedup_no_duplicates.
Qed.

(** Whatever the raw table, the indicator the asset reports is false. *)
Lemma duplicates_flag_always_false pf float_of_str render (h h' : heap)
    (input l' : loc) (raw : frame) (md : metadata) :
  h !! input = Some raw →
  clean_and_analyze_crime_data pf float_of_str render input h = (inr (l', md), h') →
  duplicates_removed md = false.
Proof.
  intros Hin Hrun.
  destruct (clean_result _ _ _ _ _ _ _ _ _ Hin Hrun) as (out & Hc & _).
  by eapply cleaned_flag.
Qed.

(** C7, at an input where the code misses it.  The raw table holds the
    same row twice; the cleaning removes one of the two, and reports
    that no duplicate was removed: the indicator is computed a second
    time, after the duplicates are gone. *)
Theorem duplicates_flag_is_lost (pf : platform) :
  normalize_columns pf twice_reported = inr (relabel twice_reported)
  ∧ duplicated_any (relabel twice_reported) = true
  ∧ length (rows twice_reported) = 2
  ∧ (clean_and_analyze_crime_data pf float_of_sample render_sample 0
       {[ 0 := twice_reported ]}).1 = inr (9, metadata_twice)
  ∧ (clean_and_analyze_crime_data pf float_of_sample render_sample 0
       {[ 0 := twice_reported ]}).2 !! 9 = Some cleaned_twice
  ∧ rows_after_cleaning metadata_twice = 1
  ∧ duplicates_removed metadata_twice = false.
Proof. destruct pf as [[] []]; repeat split; vm_compute; reflexivity. Qed.

(** C9.  The result of the cleaning is a function of the table it is
    given: two runs on equal tables, in whatever heaps and under
    whatever references, either raise the same exception or return
    equal tables and equal metadata, the counts of valid and invalid
    timestamps among them. *)
Theorem cleaning_deterministic
    (pf : platform) (float_of_str : string → option Z) (render : cell → string)
    (h1 h2 : heap) (l1 l2 : loc) (raw : frame) :
  h1 !! l1 = Some raw → h2 !! l2 = Some raw →
  match (clean_and_analyze_crime_data pf float_of_str render l1 h1).1,
        (clean_and_analyze_crime_data pf float_of_str render l2 h2).1 with
  | inr (o1, md1), inr (o2, md2) =>
      (clean_and_analyze_crime_data pf float_of_str render l1 h1).2 !! o1
      = (clean_and_analyze_crime_data pf float_of_str render l2 h2).2 !! o2
      ∧ is_Some ((clean_and_analyze_crime_data pf float_of_str render l1 h1).2 !! o1)
      ∧ md1 = md2
  | inl e1, inl e2 => e1 = e2
  | _, _ => False
  end.
Proof.
  intros H1 H2.
  destruct (clean_runs pf float_of_str render h1 l1 raw H1) as [_ R1].
  destruct (clean_runs pf float_of_str render h2 l2 raw H2) as [_ R2].
  destruct (cleaned pf float_of_str render raw) as [e|[out md]].
  - by rewrite R1, R2.
  - destruct R1 as (o1 & -> & Ho1 & _). destruct R2 as (o2 & -> & Ho2 & _).
    rewrite Ho1, Ho2. done.
Qed.

Lemma cleaning_deterministic_witness :
  match (clean_and_analyze_crime_data python_311 float_of_sample render_sample 0
           {[ 0 := three_records ]}).1,
        (clean_and_analyze_crime_data python_311 float_of_sample render_sample 5
           {[ 5 := three_records; 0 := twice_reported ]}).1 with
  | inr (o1, md1), inr (o2, md2) =>
      (clean_and_analyze_crime_data python_311 float_of_sample render_sample 0
         {[ 0 := three_records ]}).2 !! o1
      = (clean_and_analyze_crime_data python_311 float_of_sample render_sample 5
           {[ 5 := three_records; 0 := twice_reported ]}).2 !! o2
      ∧ is_Some ((clean_and_analyze_crime_data python_311 float_of_sample render_sample 0
                    {[ 0 := three_records ]}).2 !! o1)
      ∧ md1 = md2
  | inl e1, inl e2 => e1 = e2
  | _, _ => False
  end.
Proof.
  apply (cleaning_deterministic python_311 float_of_sample render_sample
           {[ 0 := three_records ]}
           {[ 5 := three_records; 0 := twice_reported ]} 0 5 three_records).
  - reflexivity.
  - reflexivity.
Defined.

(** C10.  The cleaning leaves the table it is given, and every other
    table that existed, as it was: whether it returns or raises, the
    heap after it holds them unchanged. *)
Theorem input_is_not_mutated
    (pf : platform) (float_of_str : string → option Z) (render : cell → string)
    (h : heap) (input : loc) (raw : frame) :
  h !! input = Some raw →
  (clean_and_analyze_crime_data pf float_of_str render input h).2 !! input
  = Some raw
  ∧ ∀ l df, h !! l = Some df →
      (clean_and_analyze_crime_data pf float_of_str render input h).2 !! l
      = Some df.
Proof.
  intros Hin.
  destruct (clean_runs pf float_of_str render h input raw Hin) as [Hsub _].
  split; [by eapply lookup_weaken|]. intros l df Hl. by eapply lookup_weaken.
Qed.

Lemma input_is_not_mutated_witness :
  (clean_and_analyze_crime_data python_311 float_of_sample render_sample 0
     {[ 0 := three_records ]}).2 !! 0 = Some three_records.
Proof.
  destruct (input_is_not_mutated python_311 float_of_sample render_sample
              {[ 0 := three_records ]} 0 three_records) as [H _].
  - reflexivity.
  - exact H.
Defined.

End CleanClaims.

Module TimestampClaim.
Import Platform Calendar Regex Timestamp Frame Clean TableSamples RegexFacts.


End TimestampClaim.

(* ================================================================== *)
(** * Further properties of the ingestion *)
(* ================================================================== *)

Module SinkGrowth.
Import Calendar Sink Ingest SinkInvariants.
Import SinkFacts SinkClaims IngestFacts.

Lemma kept_refl (d : doc) : kept d d.
Proof. by split. Qed.

Lemma kept_trans (d1 d2 d3 : doc) : kept d1 d2 → kept d2 d3 → kept d1 d3.
Proof. intros [H1 K1] [H2 K2]. split; [set_solver|congruence]. Qed.

Lemma grown_refl (c : list doc) : grown c c.
Proof.
  exists c, []. rewrite app_nil_r. repeat split; [|constructor].
  induction c; constructor; [apply kept_refl|done].
Qed.

Lemma grown_trans (c1 c2 c3 : list doc) : grown c1 c2 → grown c2 c3 → grown c1 c3.
Proof.
  intros (u1 & n1 & -> & H1 & N1) (u2 & n2 & -> & H2 & N2).
  apply Forall2_app_inv_l in H2 as (u2a & u2b & Ha & Hb & ->).
  exists u2a, (u2b ++ n2). split; [by rewrite <- app_assoc|]. split.
  - clear - H1 Ha. revert u2a Ha. induction H1 as [|d d' c u Hk _ IH];
      intros u2a Ha; inversion Ha; subst; constructor.
    + by eapply kept_trans.
    + by apply IH.
  - apply Forall_app. split; [|done].
    clear - N1 Hb. induction Hb as [|d d' n1' u [_ Hk] _ IH]; [constructor|].
    inversion N1; subst. constructor; [by rewrite Hk|by apply IH].
Qed.

Lemma kept_all_refl (c : list doc) : Forall2 kept c c.
Proof. induction c; constructor; [apply kept_refl|done]. Qed.

Lemma update_one_grown k (r : doc) (c : list doc) :
  r !! "report_number" = Some k → grown c (update_one k r c).1.
Proof.
  intros Hk. destruct (split_first_key k c) as [Habs|(pre & d & post & -> & Hpre & Hd)].
  - rewrite (update_one_absent _ _ _ Hk Habs). simpl.
    exists c, [r]. split; [done|]. split; [apply kept_all_refl|].
    repeat constructor. by rewrite Hk.
  - rewrite (update_one_present _ _ _ _ _ Hpre Hd). simpl.
    exists (pre ++ (r ∪ d) :: post), []. rewrite app_nil_r.
    split; [done|]. split; [|constructor].
    apply Forall2_app; [apply kept_all_refl|].
    constructor; [|apply kept_all_refl]. split.
    + rewrite dom_union. set_solver.
    + rewrite set_fields, Hk. by rewrite Hd.
Qed.

Lemma update_one_length k (r : doc) (c : list doc) :
  length (update_one k r c).1 = length c + (update_one k r c).2.
Proof.
  induction c as [|d c IH]; simpl; [done|].
  destruct (decide (d !! "report_number" = Some k)) as [Hd|Hd]; simpl; [lia|].
  destruct (update_one k r c) as [c' m]. simpl in *. lia.
Qed.

Lemma update_one_keys k (r : doc) (c : list doc) :
  r !! "report_number" = Some k →
  keys (update_one k r c).1 = if decide (k ∈ keys c) then keys c else keys c ++ [k].
Proof.
  intros Hk. unfold keys. induction c as [|d c IH].
  - simpl. rewrite lookup_union, Hk, lookup_singleton_eq. done.
  - cbn [update_one omap list_omap].
    destruct (decide (d !! "report_number" = Some k)) as [Hd|Hd].
    + cbn [fst omap list_omap]. rewrite set_fields, Hk, Hd.
      rewrite decide_True by left. done.
    + destruct (update_one k r c) as [c' n']. cbn [fst omap list_omap] in *.
      destruct (d !! "report_number") as [k'|] eqn:Hk'.
      * rewrite IH. destruct (decide (k ∈ omap _ c)) as [Hin|Hin].
        -- rewrite decide_True by (by right). done.
        -- rewrite decide_False; [done|].
           intros [->|?]%elem_of_cons; [congruence|done].
      * apply IH.
Qed.
Lemma update_one_unique k (r : doc) (c : list doc) :
  r !! "report_number" = Some k →
  unique_keys c → unique_keys (update_one k r c).1.
Proof.
  intros Hk Hc. unfold unique_keys. rewrite (update_one_keys _ _ _ Hk).
  destruct (decide (k ∈ keys c)); [done|].
  apply NoDup_app. split; [done|]. split; [|apply NoDup_singleton].
  intros x Hx ->%list_elem_of_singleton. done.
Qed.

Lemma apply_ops_invariant (P : list doc → Prop) (ops : list (string * doc))
    (c : list doc) :
  keyed_ops ops →
  (∀ k (r : doc) s, r !! "report_number" = Some k → P s → P (update_one k r s).1) →
  P c → P (apply_ops ops c).1.
Proof.
  intros Hops Hstep. revert c. induction ops as [|[k r] ops IH]; intros c Hc;
    simpl; [done|].
  pose proof (Hstep k r c (Hops k r ltac:(left)) Hc) as H1.
  destruct (update_one k r c) as [c1 n1]. simpl in *.
  assert (P (apply_ops ops c1).1) as H2.
  { apply IH; [|done]. intros k' r' Hin. apply Hops. by right. }
  by destruct (apply_ops ops c1).
Qed.

Lemma apply_ops_length (ops : list (string * doc)) (c : list doc) :
  length (apply_ops ops c).1 = length c + (apply_ops ops c).2.
Proof.
  revert c. induction ops as [|[k r] ops IH]; intros c; simpl; [lia|].
  pose proof (update_one_length k r c) as H1.
  destruct (update_one k r c) as [c1 n1]. simpl in *.
  pose proof (IH c1) as H2. destruct (apply_ops ops c1) as [c2 n2].
  simpl in *. lia.
Qed.

Section Runs.
Variable http_get : request → response.
Variable exec_order : list (string * doc) → list (string * doc).
Variable to_date : string → option date.
Hypothesis exec_order_perm : ∀ l, exec_order l ≡ₚ l.

Lemma operations_keyed (batch : list doc) : keyed_ops (exec_order (operations batch)).
Proof.
  intros k r Hin. rewrite exec_order_perm in Hin.
  by apply operations_spec in Hin as [_ ?].
Qed.

Lemma store_page_invariant (P : list doc → Prop) (batch c : list doc) :
  (∀ k (r : doc) s, r !! "report_number" = Some k → P s → P (update_one k r s).1) →
  P c → P (store_page exec_order batch c).1.
Proof.
  intros Hstep Hc. unfold store_page.
  pose proof (operations_keyed batch) as Hk.
  destruct (operations batch) as [|o ops]; [done|].
  by apply apply_ops_invariant.
Qed.

Lemma store_page_length (batch c : list doc) :
  length (store_page exec_order batch c).1
  = length c + (store_page exec_order batch c).2.
Proof.
  unfold store_page. destruct (operations batch) as [|o ops]; simpl; [lia|].
  apply apply_ops_length.
Qed.

Lemma replay_invariant (P : list doc → Prop) (reqs : list request) (c : list doc) :
  (∀ k (r : doc) s, r !! "report_number" = Some k → P s → P (update_one k r s).1) →
  P c → P (replay http_get exec_order c reqs).
Proof.
  intros Hstep. revert c. unfold replay.
  induction reqs as [|req reqs IH]; intros c Hc; simpl; [done|].
  apply IH. destruct (read_page (http_get req)); [done|].
  by apply store_page_invariant.
Qed.

(** Whatever a run does to the sink, it does by upserts of records
    keyed by their report number: a property that every such upsert
    keeps is kept by the run, however it ends. *)
Lemma run_invariant (P : list doc → Prop) dfuel pfuel today (c : list doc) :
  (∀ k (r : doc) s, r !! "report_number" = Some k → P s → P (update_one k r s).1) →
  P c →
  P (sink (fetch_crime_data http_get exec_order to_date dfuel pfuel today c).2).
Proof.
  intros Hstep Hc. unfold fetch_crime_data.
  destruct (resolve_start to_date c) as [start|]; [|done].
  destruct (date_ltb today start); [done|].
  destruct (fetch_days _ _ _ _ _ _ _ _) as [r w] eqn:Hrun.
  apply fetch_days_trace in Hrun as (new & _ & Hsink & _). simpl in Hsink.
  assert (P (sink w)) by (rewrite Hsink; by apply replay_invariant).
  by destruct r.
Qed.

Lemma fetch_day_length fuel d off n w m w' :
  fetch_day http_get exec_order fuel d off n w = (Done m, w') →
  length (sink w') + n = length (sink w) + m.
Proof.
  revert off n w. induction fuel as [|fuel IH]; intros off n w; simpl; [done|].
  destruct (read_page (http_get (day_request d off))) as [e|[|b batch]]; [done| |].
  - by intros [= <- <-].
  - pose proof (store_page_length (b :: batch) (sink w)) as Hlen.
    destruct (store_page exec_order (b :: batch) (sink w)) as [c k].
    intros H%IH. simpl in *. lia.
Qed.

Lemma fetch_days_length dfuel pfuel cur today n w m w' :
  fetch_days http_get exec_order dfuel pfuel cur today n w = (Done m, w') →
  length (sink w') + n = length (sink w) + m.
Proof.
  revert cur n w. induction dfuel as [|dfuel IH]; intros cur n w; simpl.
  - destruct (date_leb cur today); simpl; [done|]. by intros [= <- <-].
  - destruct (date_leb cur today); simpl; [|by intros [= <- <-]].
    destruct (fetch_day http_get exec_order pfuel cur 0 0 w) as [[k|e|] w1] eqn:Hd;
      [|done..].
    apply fetch_day_length in Hd. intros H%IH. lia.
Qed.

End Runs.
End SinkGrowth.

Module RunClaims.
Import Calendar Sink Ingest Remote SinkInvariants Samples RunSamples.
Import SinkFacts SinkClaims IngestFacts SinkGrowth.

(** X1.  A run never creates a second document for a report number: if
    the collection has at most one document per report number before
    the asset runs, it has at most one after, however the run ends
    (normally, by an error in the middle of a day, or out of fuel) and
    in whatever order the server applies the operations of a batch. *)
Theorem run_keeps_unique_keys
    (http_get : request → response)
    (exec_order : list (string * doc) → list (string * doc))
    (to_date : string → option date)
    (dfuel pfuel : nat) (today : date) (c : list doc) :
  (∀ l, exec_order l ≡ₚ l) →
  unique_keys c →
  unique_keys
    (sink (fetch_crime_data http_get exec_order to_date dfuel pfuel today c).2).
Proof.
  intros Hperm Hc.
  apply (run_invariant http_get exec_order to_date Hperm unique_keys); [|done].
  intros k r s Hk Hs. by apply update_one_unique.
Qed.

Lemma run_keeps_unique_keys_witness :
  unique_keys
    (sink (fetch_crime_data (soda_get three_days) in_order leading_date
             3 3 jan_2 stored_before).2).
Proof.
  apply (run_keeps_unique_keys (soda_get three_days) in_order leading_date
           3 3 jan_2 stored_before).
  - reflexivity.
  - unfold unique_keys. compute_done.
Defined.

(** X2.  A run deletes nothing and moves nothing: every document of the
    collection is, after the run, at the position it had, with the
    report number it had and with every field it had (a field may have
    a new value); the documents after them are new and each has a
    report number.  This holds however the run ends. *)
Theorem run_only_grows
    (http_get : request → response)
    (exec_order : list (string * doc) → list (string * doc))
    (to_date : string → option date)
    (dfuel pfuel : nat) (today : date) (c : list doc) :
  (∀ l, exec_order l ≡ₚ l) →
  grown c
    (sink (fetch_crime_data http_get exec_order to_date dfuel pfuel today c).2).
Proof.
  intros Hperm.
  apply (run_invariant http_get exec_order to_date Hperm (grown c));
    [|apply grown_refl].
  intros k r s Hk Hs. eapply grown_trans; [done|]. by apply update_one_grown.
Qed.

Lemma run_only_grows_witness :
  grown stored_before
    (sink (fetch_crime_data (soda_get three_days) in_order leading_date
             3 3 jan_2 stored_before).2).
Proof.
  apply (run_only_grows (soda_get three_days) in_order leading_date
           3 3 jan_2 stored_before).
  reflexivity.
Defined.

(** X3.  The count a normal run reports is the number of documents the
    collection gained: a record whose report number was stored already
    adds nothing to it, whatever the service is and in whatever order
    the server applies the operations. *)
Theorem inserted_total_is_growth
    (http_get : request → response)
    (exec_order : list (string * doc) → list (string * doc))
    (to_date : string → option date)
    (dfuel pfuel : nat) (today start : date) (c : list doc)
    (n : nat) (w : world) :
  fetch_crime_data http_get exec_order to_date dfuel pfuel today c
    = (Completed today start n, w) →
  length (sink w) = length c + n.
Proof.
  unfold fetch_crime_data.
  destruct (resolve_start to_date c) as [s|]; [|done].
  destruct (date_ltb today s); [done|].
  destruct (fetch_days _ _ _ _ _ _ _ _) as [[m|e|] w'] eqn:Hrun; [|done..].
  intros [= _ <- <-]. apply fetch_days_length in Hrun. simpl in Hrun. lia.
Qed.

Lemma inserted_total_is_growth_witness :
  length (sink (fetch_crime_data (soda_get three_days) in_order leading_date
                  3 3 jan_2 stored_before).2)
  = length stored_before + 1.
Proof.
  apply (inserted_total_is_growth (soda_get three_days) in_order leading_date
           3 3 jan_2 jan_1 stored_before 1).
  vm_compute. reflexivity.
Defined.

End RunClaims.

Module ScheduleFacts.
Import Calendar Sink Ingest Remote SinkInvariants Schedule.
Import SinkFacts SinkClaims IngestFacts CalendarFacts RemoteFacts SinkGrowth.

Lemma page_count_step (n : nat) :
  0 < n → page_count n = S (page_count (n - 1000)).
Proof.
  intros Hn. unfold page_count. f_equal.
  destruct (decide (n ≤ 1000)) as [Hle|Hgt].
  - replace (n - 1000) with 0 by lia. change ((0 + 999) / 1000) with 0.
    symmetry. apply Nat.div_unique with (r := n - 1); lia.
  - replace (n + 999) with ((n - 1000 + 999) + 1 * 1000) by lia.
    rewrite Nat.div_add by lia. lia.
Qed.

Lemma day_window_length (ds : list doc) d : length (day_window ds d) ≤ length ds.
Proof.
  unfold day_window, window. rewrite merge_sort_Permutation.
  apply length_filter.
Qed.

Lemma days_through_bounds fuel cur today d :
  shaped cur → d ∈ days_through fuel cur today →
  shaped d ∧ date_leb cur d = true ∧ date_leb d today = true.
Proof.
  revert cur. induction fuel as [|fuel IH]; intros cur Hcur; simpl.
  - by intros ?%elem_of_nil.
  - destruct (date_leb cur today) eqn:Hle; [|by intros ?%elem_of_nil].
    intros [->|Hin]%elem_of_cons.
    + split; [done|]. split; [apply date_leb_refl|done].
    + destruct (IH (next_day cur) (next_day_shaped _ Hcur) Hin) as (Hd & H1 & H2).
      split; [done|]. split; [|done].
      pose proof (next_day_after cur Hcur) as Hnext.
      apply date_leb_nlt. apply date_leb_nlt in H1.
      rewrite date_compare_lt in *. lia.
Qed.

Lemma schedule_0 (ds : list doc) cur today : schedule ds 0 cur today = [].
Proof. reflexivity. Qed.

Lemma schedule_S (ds : list doc) fuel cur today :
  schedule ds (S fuel) cur today
  = if date_leb cur today
    then page_requests cur 0 (page_count (length (day_window ds cur)))
         ++ schedule ds fuel (next_day cur) today
    else [].
Proof.
  unfold schedule. cbn [days_through]. by destruct (date_leb cur today).
Qed.

Section Answers.
Variable exec_order : list (string * doc) → list (string * doc).
Variable ds : list doc.

(** The page loop of a day that ended normally asked for the pages of
    the schedule. *)
Lemma fetch_day_requests fuel d off n w m w' :
  fetch_day (soda_get ds) exec_order fuel d off n w = (Done m, w') →
  sent w' = sent w
            ++ page_requests d off (page_count (length (day_window ds d) - off)).
Proof.
  revert off n w. induction fuel as [|fuel IH]; intros off n w; [done|].
  cbn [fetch_day]. rewrite read_page_soda.
  destruct (soda_query ds (day_request d off)) as [|b page] eqn:Hpage.
  - intros [= <- <-]. cbn [sent].
    rewrite soda_query_day in Hpage.
    assert (length (day_window ds d) - off = 0) as ->.
    { apply (f_equal length) in Hpage.
      rewrite length_take, length_drop in Hpage. cbn [length] in Hpage. lia. }
    change (page_count 0) with 1. by rewrite page_requests_S.
  - cbn [sink sent].
    destruct (store_page exec_order (b :: page) (sink w)) as [c k0] eqn:Hs.
    intros Hrun. apply IH in Hrun. cbn [sent] in Hrun.
    assert (off < length (day_window ds d)) as Hoff.
    { destruct (decide (off < length (day_window ds d))) as [|Hge]; [done|].
      rewrite soda_query_day, drop_ge in Hpage by lia. done. }
    rewrite (page_count_step (length (day_window ds d) - off)) by lia.
    rewrite page_requests_S, Hrun, <- app_assoc.
    do 4 f_equal. lia.
Qed.

Lemma pages_cover d :
  concat (soda_query ds <$>
            page_requests d 0 (page_count (length (day_window ds d))))
  = day_window ds d.
Proof.
  destruct (fetch_day_pages exec_order ds (S (length (day_window ds d))) d 0 0
              {| sink := []; sent := [] |})
    as (k & m & w' & Hrun & Hsent & Hcat & _); [lia|].
  apply fetch_day_requests in Hrun. rewrite Hsent in Hrun.
  apply app_inv_head in Hrun. rewrite Nat.sub_0_r in Hrun.
  by rewrite <- Hrun, Hcat.
Qed.

Lemma fetch_days_requests dfuel pfuel cur today n w m w' :
  fetch_days (soda_get ds) exec_order dfuel pfuel cur today n w = (Done m, w') →
  shaped cur →
  sent w' = sent w ++ schedule ds dfuel cur today
  ∧ ∀ d, shaped d → date_leb cur d = true → date_leb d today = true →
         d ∈ days_through dfuel cur today.
Proof.
  revert cur n w. induction dfuel as [|dfuel IH]; intros cur n w;
    cbn [fetch_days days_through]; [rewrite schedule_0|rewrite schedule_S].
  - destruct (date_leb cur today) eqn:Hle; simpl; [done|].
    intros [= <- <-] Hcur. split; [by rewrite app_nil_r|].
    intros d Hd H1 H2. rewrite (date_leb_trans _ _ _ H1 H2) in Hle. done.
  - destruct (date_leb cur today) eqn:Hle; simpl.
    2:{ intros [= <- <-] Hcur. split; [by rewrite app_nil_r|].
        intros d Hd H1 H2. rewrite (date_leb_trans _ _ _ H1 H2) in Hle. done. }
    destruct (fetch_day (soda_get ds) exec_order pfuel cur 0 0 w)
      as [[k|e|] w1] eqn:Hday; [|done..].
    intros Hrun Hcur.
    apply fetch_day_requests in Hday. rewrite Nat.sub_0_r in Hday.
    destruct (IH _ _ _ Hrun (next_day_shaped _ Hcur)) as [Hsent Hdays].
    split.
    + rewrite Hsent, Hday, <- app_assoc. done.
    + intros d Hd H1 H2.
      destruct (date_lt_cases d (next_day cur)) as [Hlt|[->|Hgt]].
      * pose proof (next_day_least cur d Hcur Hd Hlt) as Hle'.
        apply date_leb_nlt in H1, Hle'.
        destruct (date_lt_cases d cur) as [H|[->|H]]; [done|by left|done].
      * right. apply Hdays; [done|apply date_leb_refl|done].
      * right. apply Hdays; [done| |done].
        apply date_leb_nlt. intros H. apply date_compare_lt in H, Hgt. lia.
Qed.
End Answers.
End ScheduleFacts.

Module StoredFacts.
Import Calendar Sink Ingest Remote SinkInvariants Schedule.
Import SinkFacts SinkClaims IngestFacts CalendarFacts RemoteFacts SinkGrowth.
Import ScheduleFacts.

Lemma update_one_stores k (r : doc) (c : list doc) :
  r !! "report_number" = Some k → stored r (update_one k r c).1.
Proof.
  intros Hk. destruct (split_first_key k c) as [Habs|(pre & d & post & -> & Hpre & Hd)].
  - rewrite (update_one_absent _ _ _ Hk Habs). simpl.
    exists r. split; [set_solver|]. split; [done|done].
  - rewrite (update_one_present _ _ _ _ _ Hpre Hd). simpl.
    exists (r ∪ d). split; [set_solver|]. split.
    + by rewrite set_fields, Hk.
    + apply map_union_subseteq_l.
Qed.

Lemma update_one_keeps_stored k0 (r0 r : doc) (c : list doc) :
  r0 !! "report_number" = Some k0 → r !! "report_number" ≠ Some k0 →
  stored r c → stored r (update_one k0 r0 c).1.
Proof.
  intros Hk0 Hne (d & Hin & Hkey & Hsub).
  destruct (split_first_key k0 c) as [Habs|(pre & d0 & post & -> & Hpre & Hd0)].
  - rewrite (update_one_absent _ _ _ Hk0 Habs). simpl.
    exists d. split; [set_solver|done].
  - rewrite (update_one_present _ _ _ _ _ Hpre Hd0). simpl.
    exists d. split; [|done].
    rewrite elem_of_app, elem_of_cons in Hin. rewrite elem_of_app, elem_of_cons.
    destruct Hin as [?|[->|?]]; [by left| |by right; right].
    congruence.
Qed.

Lemma apply_ops_stores (ops : list (string * doc)) (c : list doc) (r : doc) k :
  r !! "report_number" = Some k →
  (∀ k0 (r0 : doc), (k0, r0) ∈ ops →
     r0 !! "report_number" = Some k0 ∧ (k0 = k → r0 = r)) →
  stored r c ∨ (k, r) ∈ ops → stored r (apply_ops ops c).1.
Proof.
  intros Hk. revert c. induction ops as [|[k0 r0] ops IH]; intros c Hops Hc; simpl.
  - destruct Hc as [?|?%elem_of_nil]; done.
  - destruct (Hops k0 r0 ltac:(left)) as [Hk0 Heq].
    assert (stored r (update_one k0 r0 c).1 ∨ (k, r) ∈ ops) as Hnext.
    { destruct (decide (k0 = k)) as [->|Hne].
      - left. rewrite (Heq eq_refl). by apply update_one_stores.
      - destruct Hc as [Hc|[[=]|Hin]%elem_of_cons]; [|done|by right].
        left. apply update_one_keeps_stored; [done|congruence|done]. }
    destruct (update_one k0 r0 c) as [c1 n1]. simpl in Hnext.
    assert (stored r (apply_ops ops c1).1) as Hend.
    { apply IH; [|done]. intros k' r' Hin. apply Hops. by right. }
    by destruct (apply_ops ops c1).
Qed.

Lemma unique_record (ds : list doc) (r r0 : doc) k :
  NoDup (keys ds) → r ∈ ds → r0 ∈ ds →
  r !! "report_number" = Some k → r0 !! "report_number" = Some k → r0 = r.
Proof.
  intros Hnd Hr Hr0 Hk Hk0. unfold keys in Hnd.
  induction ds as [|a ds IH]; [by apply elem_of_nil in Hr|].
  assert (∀ x : doc, x ∈ ds → x !! "report_number" = Some k →
            k ∈ omap (λ d : doc, d !! "report_number") ds) as Hin.
  { intros x Hx Hkx. apply list_elem_of_omap. by exists x. }
  cbn [omap list_omap] in Hnd.
  apply elem_of_cons in Hr as [->|Hr], Hr0 as [->|Hr0]; [done| | |].
  - rewrite Hk in Hnd. apply NoDup_cons in Hnd as [Hnot _].
    destruct Hnot. by eapply Hin.
  - rewrite Hk0 in Hnd. apply NoDup_cons in Hnd as [Hnot _].
    destruct Hnot. by eapply Hin.
  - apply IH; [|done..]. destruct (a !! "report_number"); [|done].
    by apply NoDup_cons in Hnd as [_ ?].
Qed.

Lemma soda_query_subset (ds : list doc) req (r : doc) :
  r ∈ soda_query ds req → r ∈ ds.
Proof.
  unfold soda_query, window. intros Hr.
  apply (subseteq_take (limit req)), (subseteq_drop (offset req)) in Hr.
  rewrite merge_sort_Permutation in Hr.
  by apply list_elem_of_filter in Hr as [_ ?].
Qed.

Section Stores.
Variable exec_order : list (string * doc) → list (string * doc).
Variable ds : list doc.
Hypothesis exec_order_perm : ∀ l, exec_order l ≡ₚ l.
Hypothesis ds_unique : NoDup (keys ds).

Lemma store_page_stores (batch c : list doc) (r : doc) k :
  r ∈ ds → r !! "report_number" = Some k →
  (∀ x, x ∈ batch → x ∈ ds) →
  stored r c ∨ r ∈ batch → stored r (store_page exec_order batch c).1.
Proof.
  intros Hr Hk Hsub Hc. unfold store_page.
  assert (∀ op, op ∈ exec_order (operations batch) ↔ op ∈ operations batch)
    as Hperm by (intros op; by rewrite exec_order_perm).
  assert (stored r (apply_ops (exec_order (operations batch)) c).1) as Hgoal.
  { apply (apply_ops_stores _ _ _ k Hk).
    - intros k0 r0 [Hin Hk0]%Hperm%operations_spec. split; [done|].
      intros ->. by apply (unique_record ds r r0 k); [|done|apply Hsub|..].
    - destruct Hc as [?|Hin]; [by left|right].
      apply Hperm, operations_spec. done. }
  destruct (operations batch) as [|o ops] eqn:Hops; [|done].
  destruct Hc as [?|Hin]; [done|].
  assert ((k, r) ∈ operations batch) as Habs by (by apply operations_spec).
  rewrite Hops in Habs. by apply elem_of_nil in Habs.
Qed.

Lemma replay_stores (reqs : list request) (c : list doc) (r : doc) k :
  r ∈ ds → r !! "report_number" = Some k →
  stored r c ∨ (∃ req, req ∈ reqs ∧ r ∈ soda_query ds req) →
  stored r (replay (soda_get ds) exec_order c reqs).
Proof.
  intros Hr Hk. revert c. unfold replay.
  induction reqs as [|req reqs IH]; intros c Hc; simpl.
  - destruct Hc as [?|(req & ?%elem_of_nil & _)]; done.
  - apply IH.
    destruct (decide (r ∈ soda_query ds req)) as [Hin|Hout].
    + left. apply (store_page_stores _ _ _ k); [done..| |by right].
      intros x. apply soda_query_subset.
    + destruct Hc as [Hc|(req' & [->|Hin]%elem_of_cons & Hpage)];
        [|done|right; by exists req'].
      left. apply (store_page_stores _ _ _ k); [done..| |by left].
      intros x. apply soda_query_subset.
Qed.

Lemma fetch_days_ends dfuel pfuel cur today n w :
  shaped cur → valid_date today = true →
  length ds < pfuel →
  (rank today - rank cur < Z.of_nat dfuel)%Z →
  ∃ m w', fetch_days (soda_get ds) exec_order dfuel pfuel cur today n w
          = (Done m, w').
Proof.
  intros Hcur Htoday Hp. revert cur n w Hcur.
  induction dfuel as [|dfuel IH]; intros cur n w Hcur Hd; simpl.
  - destruct (date_leb cur today) eqn:Hle; simpl; [|by eexists _, _].
    apply valid_date_spec in Htoday as [Htoday _].
    pose proof (rank_mono cur today Hcur Htoday Hle). lia.
  - destruct (date_leb cur today) eqn:Hle; simpl; [|by eexists _, _].
    destruct (fetch_day_pages exec_order ds pfuel cur 0 0 w)
      as (k & m & w1 & -> & _).
    { pose proof (day_window_length ds cur). lia. }
    apply IH; [by apply next_day_shaped|].
    pose proof (rank_next_day cur Hcur). lia.
Qed.

End Stores.
End StoredFacts.

Module ScheduleClaims.
Import Calendar Sink Ingest Remote SinkInvariants Schedule Samples RunSamples.
Import SinkFacts SinkClaims IngestFacts CalendarFacts RemoteFacts SinkGrowth.
Import ScheduleFacts StoredFacts.

(** X4.  Against a service that answers every request from a dataset
    that does not change, a run with fuel for its days and pages ends
    normally, and the requests it sends are known beforehand: for every
    day from the start day to today, in order, the pages at the offsets
    0, 1000, 2000, ... of that day's window, one for every thousand
    records begun and one more, which comes back empty. *)
Theorem run_follows_schedule
    (exec_order : list (string * doc) → list (string * doc))
    (to_date : string → option date)
    (ds c : list doc) (today start : date) (dfuel pfuel : nat) :
  resolve_start to_date c = Some start →
  shaped start → valid_date today = true →
  length ds < pfuel →
  (rank today - rank start < Z.of_nat dfuel)%Z →
  ∃ out w,
    fetch_crime_data (soda_get ds) exec_order to_date dfuel pfuel today c
      = (out, w)
    ∧ (out = NoNewData today start ∨ ∃ n, out = Completed today start n)
    ∧ sent w = schedule ds dfuel start today
    ∧ ∀ d, shaped d →
        (d ∈ days_through dfuel start today
         ↔ date_leb start d = true ∧ date_leb d today = true).
Proof.
  intros Hstart Hshape Htoday Hp Hd. unfold fetch_crime_data. rewrite Hstart.
  destruct (fetch_days_ends exec_order ds dfuel pfuel start today 0
              {| sink := c; sent := [] |} Hshape Htoday Hp Hd)
    as (m & w' & Hrun).
  destruct (fetch_days_requests exec_order ds _ _ _ _ _ _ _ _ Hrun Hshape)
    as [Hsent Hdays].
  assert (∀ d, shaped d →
            (d ∈ days_through dfuel start today
             ↔ date_leb start d = true ∧ date_leb d today = true)) as Hspec.
  { intros d Hsd. split.
    - intros Hin. by apply days_through_bounds in Hin as (_ & ? & ?).
    - intros [H1 H2]. by apply Hdays. }
  destruct (date_ltb today start) eqn:Hlt.
  - eexists _, _. split; [done|]. split; [by left|]. split; [|done].
    simpl. destruct dfuel; [done|]. by rewrite schedule_S, date_leb_ltb, Hlt.
  - rewrite Hrun. eexists _, _. split; [done|]. split; [right; by eexists|].
    split; [|done]. by rewrite Hsent.
Qed.

Lemma run_follows_schedule_witness :
  ∃ out w,
    fetch_crime_data (soda_get three_days) in_order leading_date 3 4 jan_2
      stored_before = (out, w)
    ∧ (out = NoNewData jan_2 jan_1 ∨ ∃ n, out = Completed jan_2 jan_1 n)
    ∧ sent w = schedule three_days 3 jan_1 jan_2
    ∧ ∀ d, shaped d →
        (d ∈ days_through 3 jan_1 jan_2
         ↔ date_leb jan_1 d = true ∧ date_leb d jan_2 = true).
Proof.
  apply (run_follows_schedule in_order leading_date three_days stored_before
           jan_2 jan_1 3 4).
  - vm_compute. reflexivity.
  - unfold shaped, jan_1. cbn. lia.
  - reflexivity.
  - cbn. lia.
  - unfold rank, jan_1, jan_2. cbn. lia.
Defined.

(** X5.  After a normal run against such a service, whose records have
    distinct report numbers, the collection has every record with a
    report number that the service has in the window of a day from the
    start day to today: a document with that report number and with
    every field of the record, at the record's value. *)
Theorem run_stores_every_window
    (exec_order : list (string * doc) → list (string * doc))
    (to_date : string → option date)
    (ds c : list doc) (today start : date) (dfuel pfuel n : nat) (w : world) :
  (∀ l, exec_order l ≡ₚ l) →
  NoDup (keys ds) →
  shaped start →
  fetch_crime_data (soda_get ds) exec_order to_date dfuel pfuel today c
    = (Completed today start n, w) →
  ∀ d (r : doc),
    shaped d → date_leb start d = true → date_leb d today = true →
    r ∈ day_window ds d → is_Some (r !! "report_number") →
    stored r (sink w).
Proof.
  intros Hperm Hnd Hshape. unfold fetch_crime_data.
  destruct (resolve_start to_date c) as [s|]; [|done].
  destruct (date_ltb today s); [done|].
  destruct (fetch_days _ _ _ _ _ _ _ _) as [[m|e|] w'] eqn:Hrun; [|done..].
  intros [= -> _ <-] d r Hd H1 H2 Hr [k Hk].
  destruct (fetch_days_requests exec_order ds _ _ _ _ _ _ _ _ Hrun Hshape)
    as [Hsent Hdays].
  apply fetch_days_trace in Hrun as (new & Hnew & Hsink & _).
  rewrite Hnew in Hsent. apply app_inv_head in Hsent. subst new.
  simpl in Hsink. rewrite Hsink.
  apply (replay_stores exec_order ds Hperm Hnd _ _ _ k); [|done|right].
  { by apply day_window_spec in Hr as [? _]. }
  rewrite <- (pages_cover exec_order ds d) in Hr.
  apply list_elem_of_In, in_concat in Hr as (page & Hpage & Hr).
  apply list_elem_of_In in Hpage, Hr.
  apply list_elem_of_fmap in Hpage as (req & -> & Hreq).
  exists req. split; [|done]. unfold schedule.
  apply list_elem_of_bind. exists d. split; [done|]. by apply Hdays.
Qed.

Lemma run_stores_every_window_witness :
  stored (incident "B" "2025-01-02T09:30:00.000")
    (sink (fetch_crime_data (soda_get three_days) in_order
             leading_date 3 4 jan_2 stored_before).2).
Proof.
  apply (run_stores_every_window in_order leading_date three_days
           stored_before jan_2 jan_1 3 4 1 _ ltac:(reflexivity)
           ltac:(unfold keys; compute_done)
           ltac:(unfold shaped, jan_1; cbn; lia)
           ltac:(vm_compute; reflexivity) jan_2).
  - unfold shaped, jan_2. cbn. lia.
  - reflexivity.
  - reflexivity.
  - apply day_window_spec. split; [|reflexivity].
    unfold three_days. set_solver.
  - by eexists.
Defined.

End ScheduleClaims.

Module CheckpointClaim.
Import Calendar Sink Ingest Remote SinkInvariants Schedule Samples RunSamples.
Import SinkFacts IngestFacts CalendarFacts StampFacts RemoteFacts IdempotenceClaim.

Lemma incident_dated k s d t :
  valid_date d = true → s = date_str d +:+ "T" +:+ t →
  leading_date s = Some d → dated leading_date (incident k s).
Proof.
  intros Hv Hs Hd s' Hs'. rewrite incident_offense_date in Hs'.
  injection Hs' as <-. exists d. split; [done|]. split; [by exists t|done].
Qed.

Lemma three_days_dated : Forall (dated leading_date) three_days.
Proof.
  repeat constructor.
  - by apply (incident_dated _ _ jan_2 "09:30:00.000").
  - by apply (incident_dated _ _ dec_31 "08:00:00.000").
  - by apply (incident_dated _ _ jan_1 "10:00:00.000").
Qed.

Lemma stored_before_dated : Forall (dated leading_date) stored_before.
Proof.
  repeat constructor.
  - by apply (incident_dated _ _ dec_31 "08:00:00.000").
  - intros s Hs. vm_compute in Hs. done.
Qed.

(** X6.  The checkpoint never moves back: after a normal run against a
    service that answers from a dataset of ISO-dated records, the start
    day the next run resolves from the collection is the start day of
    this run when the run left the collection as it was, and a later
    day otherwise. *)
Theorem checkpoint_never_moves_back
    (exec_order : list (string * doc) → list (string * doc))
    (to_date : string → option date)
    (ds c : list doc) (today start : date) (dfuel pfuel n : nat) (w : world) :
  (∀ l, exec_order l ≡ₚ l) →
  Forall (dated to_date) ds → Forall (dated to_date) c →
  valid_date today = true →
  fetch_crime_data (soda_get ds) exec_order to_date dfuel pfuel today c
    = (Completed today start n, w) →
  ∃ start2,
    resolve_start to_date (sink w) = Some start2
    ∧ ((sink w = c ∧ start2 = start) ∨ date_ltb start start2 = true).
Proof.
  intros Hperm Hds Hc Htoday.
  destruct (resolve_start_dated to_date c Hc) as (s & Hs & Hshape).
  unfold fetch_crime_data. rewrite Hs.
  destruct (date_ltb today s); [done|].
  destruct (fetch_days _ _ _ _ _ _ _ _) as [[m|e|] w'] eqn:Hrun; [|done..].
  intros [= -> _ <-].
  destruct (fetch_days_covers exec_order to_date ds Hperm Hds _ _ _ _ _ _ _ _
              Hrun Hshape Htoday Hc) as (Hdated & _ & Hsame).
  destruct (resolve_start_dated to_date (sink w') Hdated) as (s2 & Hs2 & _).
  exists s2. split; [done|]. simpl in Hsame.
  destruct Hsame as [Heq|(d0 & Hd0 & Hc0)].
  - left. split; [done|]. rewrite Heq, Hs in Hs2. by injection Hs2.
  - right. pose proof (covered_start to_date (sink w') d0 s2 Hc0 Hs2) as Hlt.
    apply date_ltb_lt. apply date_leb_nlt in Hd0.
    rewrite date_compare_lt in *. lia.
Qed.

Lemma checkpoint_never_moves_back_witness :
  ∃ start2,
    resolve_start leading_date
      (sink (fetch_crime_data (soda_get three_days) in_order leading_date
               3 4 jan_2 stored_before).2) = Some start2
    ∧ ((sink (fetch_crime_data (soda_get three_days) in_order leading_date
                3 4 jan_2 stored_before).2 = stored_before
        ∧ start2 = jan_1)
       ∨ date_ltb jan_1 start2 = true).
Proof.
  apply (checkpoint_never_moves_back in_order leading_date three_days
           stored_before jan_2 jan_1 3 4 1).
  - reflexivity.
  - apply three_days_dated.
  - apply stored_before_dated.
  - reflexivity.
  - vm_compute. reflexivity.
Defined.

End CheckpointClaim.

(* ================================================================== *)
(** * Further properties of the cleaning *)
(* ================================================================== *)

Module ValidationFacts.
Import Platform Calendar Regex Timestamp Frame Clean Validation.
Import RegexFacts FrameFacts.

Lemma validate_one_corrected (pf : platform) (t : tally) (val : string) :
  corrected_dates (validate_one pf t val) = corrected_dates t ++ [corrected pf val]
  ∧ valid_dt (validate_one pf t val)
    = valid_dt t + (if corrected pf val is Some _ then 1 else 0)
  ∧ invalid_dt (validate_one pf t val)
    = invalid_dt t + (if corrected pf val is Some _ then 0 else 1).
Proof.
  unfold validate_one, corrected. destruct (iso_match val); [done|].
  destruct (correct_datetime pf val) as [[|c fixed]|]; simpl; repeat split; lia.
Qed.

Lemma validate_fold (pf : platform) (vals : list string) (t : tally) :
  corrected_dates (fold_left (validate_one pf) vals t)
  = corrected_dates t ++ (corrected pf <$> vals)
  ∧ valid_dt (fold_left (validate_one pf) vals t)
    = valid_dt t + length (omap (corrected pf) vals)
  ∧ valid_dt (fold_left (validate_one pf) vals t)
    + invalid_dt (fold_left (validate_one pf) vals t)
    = valid_dt t + invalid_dt t + length vals.
Proof.
  revert t. induction vals as [|val vals IH]; intros t.
  - simpl. rewrite app_nil_r. repeat split; lia.
  - cbn [fold_left]. rewrite fmap_cons.
    destruct (IH (validate_one pf t val)) as (Hc & Hv & Hi).
    destruct (validate_one_corrected pf t val) as (Hc1 & Hv1 & Hi1).
    rewrite Hc, Hc1, <- app_assoc. split; [done|].
    change (omap (corrected pf) (val :: vals))
      with (match corrected pf val with
            | Some y => y :: omap (corrected pf) vals
            | None => omap (corrected pf) vals
            end).
    destruct (corrected pf val); cbn [length] in *; split; lia.
Qed.

(** Where the value the loop keeps comes from: it is the value it
    was given, which the ISO pattern matches, or what [strftime]
    writes for the timestamp [strptime] read. *)
Lemma corrected_spec (pf : platform) (val s : string) :
  corrected pf val = Some s →
  (iso_match val = true ∧ s = val)
  ∨ (iso_match val = false
     ∧ ∃ dt, well_formed dt ∧ s = strftime pf dt
         ∧ (strptime format_space val = Some dt
            ∨ (strptime format_space val = None
               ∧ strptime format_T val = Some dt))).
Proof.
  unfold corrected. destruct (iso_match val) eqn:Hiso.
  { intros [= <-]. by left. }
  unfold correct_datetime. intros H. right. split; [done|].
  destruct (strptime format_space val) as [dt|] eqn:H1.
  - destruct (strftime_text pf dt) as (c & rest & Hdt). rewrite Hdt in H.
    injection H as <-. exists dt. rewrite Hdt.
    split; [by eapply strptime_well_formed|]. split; [done|]. by left.
  - destruct (strptime format_T val) as [dt|] eqn:H2; [|done].
    destruct (strftime_text pf dt) as (c & rest & Hdt). rewrite Hdt in H.
    injection H as <-. exists dt. rewrite Hdt.
    split; [by eapply strptime_well_formed|]. split; [done|]. by right.
Qed.

(** The value the loop keeps is in ISO form, unless [strftime] wrote
    it for a year below 1000 without padding it. *)
Lemma corrected_cases (pf : platform) (val s : string) :
  corrected pf val = Some s →
  iso_match s = true
  ∨ (pads_year pf = false
     ∧ ∃ dt, well_formed dt ∧ (year (dt_date dt) < 1000)%Z
         ∧ s = strftime pf dt).
Proof.
  intros [[Hiso ->]|(_ & dt & Hwf & -> & _)]%corrected_spec; [by left|].
  destruct (pads_year pf) eqn:Hp.
  { left. apply strftime_iso; [done|by left]. }
  destruct (decide (1000 ≤ year (dt_date dt))%Z) as [Hy|Hy].
  { left. apply strftime_iso; [done|by right]. }
  right. split; [done|]. exists dt. split; [done|]. split; [lia|done].
Qed.

Lemma corrected_iso (pf : platform) (val s : string) :
  pads_year pf = true → corrected pf val = Some s → iso_match s = true.
Proof.
  intros Hp [H|[Hn _]]%corrected_cases; [done|congruence].
Qed.

Lemma cell_at_set_eq q c (r : row) :
  q < length r.2 → cell_at q (set_cell q c r) = c.
Proof.
  intros Hq. unfold cell_at, set_cell. simpl.
  by rewrite list_lookup_insert_eq.
Qed.

Section Dates.
Variable pf : platform.
Variable render : cell → string.

Lemma fix_rows_spec q (rs : list row) :
  Forall (λ r : row, q < length r.2) rs →
  List.filter (λ r, negb (isnull (cell_at q r)))
    (zip_with (λ r o, set_cell q (date_cell o) r) rs
       ((corrected pf) <$> (as_str render ∘ cell_at q <$> rs)))
  = omap (fix_row pf render q) rs.
Proof.
  induction 1 as [|r rs Hr _ IH]; [done|].
  cbn [fmap list_fmap zip_with List.filter omap list_omap]. rewrite IH.
  rewrite cell_at_set_eq by done.
  assert (fix_row pf render q r
          = (λ s, set_cell q (CStr s) r) <$> corrected pf (as_str render (cell_at q r)))
    as -> by done.
  unfold compose. by destruct (corrected pf (as_str render (cell_at q r))) as [s|].
Qed.

(** The validation of a table whose rows have an [offense_date] cell:
    the rows with a timestamp that is valid, or can be made so, stay,
    with that timestamp; the counter of the valid ones counts them and
    the two counters together count the rows that came in. *)
Lemma validate_dates_exact df q :
  index_of "offense_date" (columns df) = Some q →
  Forall (λ r : row, q < length r.2) (rows df) →
  rows (validate_dates pf render df).2 = omap (fix_row pf render q) (rows df)
  ∧ valid_dt (validate_dates pf render df).1 = length (rows (validate_dates pf render df).2)
  ∧ valid_dt (validate_dates pf render df).1 + invalid_dt (validate_dates pf render df).1
    = length (rows df).
Proof.
  intros Hq Hlen. unfold validate_dates. rewrite Hq. cbn [fst snd].
  unfold validate_all, drop_undated, set_dates, keep_rows. cbn [rows columns].
  destruct (validate_fold pf (as_str render ∘ cell_at q <$> rows df) (mktally 0 0 []))
    as (Hc & Hv & Hi).
  cbn [corrected_dates valid_dt invalid_dt app] in Hc, Hv, Hi.
  rewrite Hc, (fix_rows_spec q _ Hlen). split; [done|]. split.
  - rewrite Hv. simpl. clear. induction (rows df) as [|r rs IH]; [done|].
    cbn [fmap list_fmap omap list_omap].
    assert (fix_row pf render q r
            = (λ s, set_cell q (CStr s) r) <$> corrected pf (as_str render (cell_at q r)))
      as -> by done.
    unfold compose at 1.
    destruct (corrected pf (as_str render (cell_at q r))); simpl; by rewrite <- IH.
  - rewrite Hi. by rewrite length_fmap.
Qed.

Lemma validate_dates_absent df :
  index_of "offense_date" (columns df) = None →
  validate_dates pf render df = (mktally 0 0 [], df).
Proof. intros Hq. unfold validate_dates. by rewrite Hq. Qed.

End Dates.
End ValidationFacts.

Module CleaningFacts.
Import Platform Calendar Regex Timestamp Frame Clean Validation.
Import RegexFacts FrameFacts CoordinateFacts ValidationFacts.

Lemma ne_str_spec (c : cell) (text : string) :
  ne_str c text = true ↔ c ≠ CStr text.
Proof.
  destruct c as [|s| |]; simpl; try (split; [discriminate|done]).
  rewrite negb_true_iff. destruct (String.eqb_spec s text) as [->|Hne].
  - split; [done|]. by intros [].
  - split; [|done]. intros _ [= ->]. done.
Qed.

Lemma index_of_None label cols :
  index_of label cols = None ↔ label ∉ cols.
Proof.
  induction cols as [|c cols IH]; simpl.
  - split; [intros _; apply not_elem_of_nil|done].
  - rewrite not_elem_of_cons. destruct (decide (c = label)) as [->|Hne].
    + split; [done|]. by intros [[] _].
    + destruct (index_of label cols); simpl.
      * split; [done|]. intros [_ H]. by apply IH in H.
      * split; [|done]. intros _. split; [done|]. by apply IH.
Qed.

Lemma index_of_lt label cols i : index_of label cols = Some i → i < length cols.
Proof. intros H. by eapply lookup_lt_Some, index_of_Some. Qed.

Lemma cell_at_present k (r : row) : isnull (cell_at k r) = false → k < length r.2.
Proof.
  unfold cell_at. intros H. apply lookup_lt_is_Some.
  destruct (r.2 !! k); [done|]. done.
Qed.

Section Stages.
Variable pf : platform.
Variable float_of_str : string → option Z.
Variable render : cell → string.

Lemma where_ne_spec label text df df' :
  where_ne label text df = inr df' →
  columns df' = columns df
  ∧ ∃ i, index_of label (columns df) = Some i
       ∧ ∀ r : row, r ∈ rows df' → r ∈ rows df ∧ cell_at i r ≠ CStr text.
Proof.
  unfold where_ne, position.
  destruct (index_of label (columns df)) as [i|]; [|done]. simpl.
  intros [= <-]. split; [done|]. exists i. split; [done|].
  intros r [Hr Hne]%elem_of_keep_rows. split; [done|]. by apply ne_str_spec.
Qed.

(** The table that enters the validation of the timestamps, and what
    the metadata says of the table that leaves it. *)
Lemma cleaned_stages raw out md :
  cleaned pf float_of_str render raw = inr (out, md) →
  ∃ (df : frame) (c p : nat),
    columns df = normalize_label <$> columns raw
    ∧ index_of "crime_against_category" (columns df) = Some c
    ∧ index_of "precinct" (columns df) = Some p
    ∧ out = (validate_dates pf render df).2
    ∧ rows_after_cleaning md = length (rows out)
    ∧ valid_records md = valid_dt (validate_dates pf render df).1
    ∧ invalid_records md = invalid_dt (validate_dates pf render df).1
    ∧ ∀ r : row, r ∈ rows df →
        (∀ k, k < length (columns df) → isnull (cell_at k r) = false)
        ∧ cell_at c r ≠ CStr "-" ∧ cell_at c r ≠ CStr "NOT_A_CRIME"
        ∧ cell_at p r ≠ CStr "-".
Proof.
  unfold cleaned. cbv zeta. intros H.
  first_step. repeat next_step.
  destruct (validate_dates pf render f5) as [t df] eqn:Ev.
  next_step. injection H as <- <-.
  apply where_ne_spec in E as (C0 & c & Hc & R0), E0 as (C1 & p & Hp & R1),
    E5 as (C5 & c' & Hc' & R5).
  apply drop_marked_latitude_rows in E2 as (C2 & j & Hj & R2).
  apply astype_float_rows in E3 as (C3 & j' & Hj' & R3).
  apply astype_float_rows in E4 as (C4 & i & Hi & R4).
  apply drop_zero_coordinates_rows in E6 as (C6 & i' & j'' & Hi' & Hj'' & R6).
  rewrite !dedup_columns in C0, Hc. simpl in C0, C5, Hc, Hc'.
  set (cols := normalize_label <$> columns raw) in *.
  rewrite C0 in C1, Hp. rewrite C1 in C2, Hj. rewrite C2 in C3, Hj'.
  rewrite C3 in C4, Hi. rewrite C4 in C5, Hc'. rewrite C5 in C6.
  rewrite Hc in Hc'. injection Hc' as <-.
  rewrite Hj in Hj'. injection Hj' as <-.
  exists f5, c, p. rewrite Ev, C6. simpl. repeat split; try done.
  - apply R6 in H as [Hr _]. apply R5 in Hr as [Hr _].
    apply dropna_rows in Hr as [_ Hfull]. rewrite C4 in Hfull. by apply Hfull.
  - apply R6 in H as [Hr _]. apply R5 in Hr as [Hr _].
    apply dropna_rows in Hr as [Hr _].
    destruct (R4 r Hr) as (r2 & x & Hr2 & _ & ->).
    destruct (R3 r2 Hr2) as (r1 & y & Hr1 & _ & ->).
    apply R2 in Hr1 as [Hr1 _]. apply R1 in Hr1 as [Hr1 _].
    apply R0 in Hr1 as [_ Hne].
    rewrite !cell_at_set_ne; [done| |].
    + by eapply (index_of_distinct "crime_against_category" "latitude").
    + by eapply (index_of_distinct "crime_against_category" "longitude").
  - apply R6 in H as [Hr _]. by apply R5 in Hr as [_ Hne].
  - apply R6 in H as [Hr _]. apply R5 in Hr as [Hr _].
    apply dropna_rows in Hr as [Hr _].
    destruct (R4 r Hr) as (r2 & x & Hr2 & _ & ->).
    destruct (R3 r2 Hr2) as (r1 & y & Hr1 & _ & ->).
    apply R2 in Hr1 as [Hr1 _]. apply R1 in Hr1 as [_ Hne].
    rewrite !cell_at_set_ne; [done| |].
    + by eapply (index_of_distinct "precinct" "latitude").
    + by eapply (index_of_distinct "precinct" "longitude").
Qed.

(** A row of the table the validation returns, from the row that came
    in. *)
Lemma validated_row df (r' : row) :
  (∀ r : row, r ∈ rows df →
     ∀ k, k < length (columns df) → isnull (cell_at k r) = false) →
  r' ∈ rows (validate_dates pf render df).2 →
  ∃ r : row, r ∈ rows df
    ∧ ((index_of "offense_date" (columns df) = None ∧ r' = r)
       ∨ ∃ q s, index_of "offense_date" (columns df) = Some q
                ∧ q < length r.2
                ∧ corrected pf (as_str render (cell_at q r)) = Some s
                ∧ r' = set_cell q (CStr s) r).
Proof.
  intros Hfull.
  destruct (index_of "offense_date" (columns df)) as [q|] eqn:Hq.
  - assert (Forall (λ r : row, q < length r.2) (rows df)) as Hlen.
    { apply Forall_forall. intros r Hr. apply cell_at_present.
      apply (Hfull r Hr). by eapply index_of_lt. }
    destruct (validate_dates_exact pf render df q Hq Hlen) as (-> & _).
    intros (r & Hr & Hfix)%list_elem_of_omap. exists r. split; [done|]. right.
    unfold fix_row in Hfix.
    destruct (corrected pf (as_str render (cell_at q r))) as [s|] eqn:Hs; [|done].
    injection Hfix as <-. exists q, s. repeat split; [|done].
    rewrite Forall_forall in Hlen. by apply Hlen.
  - rewrite (validate_dates_absent pf render df Hq). simpl.
    intros Hr. exists r'. split; [done|]. by left.
Qed.

Lemma validate_dates_columns df :
  columns (validate_dates pf render df).2 = columns df.
Proof. apply validate_dates_rows. Qed.

End Stages.
End CleaningFacts.

Module TableClaims.
Import Platform Calendar Regex Timestamp Frame Clean Validation TableSamples CleanSamples.
Import RegexFacts HeapFacts CleanFacts FrameFacts CoordinateFacts CleanClaims.
Import ValidationFacts CleaningFacts.

(** X7.  In the table the cleaning returns no cell is missing, in
    whatever column; no row has the category ["-"] or ["NOT_A_CRIME"],
    and no row has the precinct ["-"]. *)
Theorem cleaned_table_is_complete
    (pf : platform) (float_of_str : string → option Z) (render : cell → string)
    (h h' : heap) (input l' : loc) (raw : frame) (md : metadata) :
  h !! input = Some raw →
  clean_and_analyze_crime_data pf float_of_str render input h = (inr (l', md), h') →
  ∃ out c p,
    h' !! l' = Some out
    ∧ index_of "crime_against_category" (columns out) = Some c
    ∧ index_of "precinct" (columns out) = Some p
    ∧ ∀ r : row, r ∈ rows out →
        (∀ k, k < length (columns out) → isnull (cell_at k r) = false)
        ∧ cell_at c r ≠ CStr "-" ∧ cell_at c r ≠ CStr "NOT_A_CRIME"
        ∧ cell_at p r ≠ CStr "-".
Proof.
  intros Hin Hrun.
  destruct (clean_result pf float_of_str render h h' input l' raw md Hin Hrun)
    as (out & Hclean & Hout & _).
  apply cleaned_stages in Hclean
    as (df & c & p & Hcols & Hc & Hp & -> & _ & _ & _ & Hrows).
  exists (validate_dates pf render df).2, c, p.
  rewrite validate_dates_columns. split; [done|]. split; [done|]. split; [done|].
  intros r' Hr'.
  apply validated_row in Hr' as (r & Hr & Hcase); [|intros r0 Hr0; by apply Hrows].
  destruct (Hrows r Hr) as (Hfull & Hc1 & Hc2 & Hp1).
  destruct Hcase as [[_ ->]|(q & s & Hq & Hlen & _ & ->)]; [done|].
  assert (c ≠ q) by (by eapply (index_of_distinct "crime_against_category" "offense_date")).
  assert (p ≠ q) by (by eapply (index_of_distinct "precinct" "offense_date")).
  rewrite !cell_at_set_ne by done. repeat split; try done.
  intros k Hk. destruct (decide (k = q)) as [->|Hne].
  - by rewrite cell_at_set_eq.
  - rewrite cell_at_set_ne by done. by apply Hfull.
Qed.

Lemma cleaned_table_is_complete_witness :
  ∃ out c p,
    (clean_and_analyze_crime_data python_311 float_of_sample render_sample 0
       {[ 0 := three_records ]}).2 !! 8 = Some out
    ∧ index_of "crime_against_category" (columns out) = Some c
    ∧ index_of "precinct" (columns out) = Some p
    ∧ ∀ r : row, r ∈ rows out →
        (∀ k, k < length (columns out) → isnull (cell_at k r) = false)
        ∧ cell_at c r ≠ CStr "-" ∧ cell_at c r ≠ CStr "NOT_A_CRIME"
        ∧ cell_at p r ≠ CStr "-".
Proof.
  apply (cleaned_table_is_complete python_311 float_of_sample render_sample
           {[ 0 := three_records ]}
           (clean_and_analyze_crime_data python_311 float_of_sample render_sample 0
              {[ 0 := three_records ]}).2
           0 8 three_records metadata_three).
  - reflexivity.
  - vm_compute. reflexivity.
Defined.

(** X8.  When the table the cleaning returns has an [offense_date]
    column, every value of it is a text, and the text matches the
    ISO 8601 pattern of the asset, with one exception: where
    [strftime] does not pad the year, a value rewritten from a
    timestamp of a year below 1000 is the text [strftime] wrote for
    that timestamp, with the year as it is.  The rows whose timestamp
    neither matched nor could be rewritten are gone. *)
Theorem offense_dates_are_iso
    (pf : platform) (float_of_str : string → option Z) (render : cell → string)
    (h h' : heap) (input l' : loc) (raw : frame) (md : metadata) :
  h !! input = Some raw →
  clean_and_analyze_crime_data pf float_of_str render input h = (inr (l', md), h') →
  ∃ out,
    h' !! l' = Some out
    ∧ ∀ q, index_of "offense_date" (columns out) = Some q →
        ∀ r : row, r ∈ rows out →
          ∃ s, cell_at q r = CStr s
               ∧ (iso_match s = true
                  ∨ (pads_year pf = false
                     ∧ ∃ dt, well_formed dt ∧ (year (dt_date dt) < 1000)%Z
                         ∧ s = strftime pf dt)).
Proof.
  intros Hin Hrun.
  destruct (clean_result pf float_of_str render h h' input l' raw md Hin Hrun)
    as (out & Hclean & Hout & _).
  apply cleaned_stages in Hclean
    as (df & c & p & Hcols & Hc & Hp & -> & _ & _ & _ & Hrows).
  exists (validate_dates pf render df).2. split; [done|].
  rewrite validate_dates_columns. intros q Hq r' Hr'.
  apply validated_row in Hr' as (r & Hr & Hcase); [|intros r0 Hr0; by apply Hrows].
  destruct Hcase as [[Hnone _]|(q' & s & Hq' & Hlen & Hs & ->)]; [congruence|].
  rewrite Hq in Hq'. injection Hq' as <-.
  exists s. rewrite cell_at_set_eq by done. split; [done|].
  by eapply corrected_cases.
Qed.

Lemma offense_dates_are_iso_witness :
  ∃ out,
    (clean_and_analyze_crime_data python_311 float_of_sample render_sample 0
       {[ 0 := short_year ]}).2 !! 8 = Some out
    ∧ ∀ q, index_of "offense_date" (columns out) = Some q →
        ∀ r : row, r ∈ rows out →
          ∃ s, cell_at q r = CStr s
               ∧ (iso_match s = true
                  ∨ (pads_year python_311 = false
                     ∧ ∃ dt, well_formed dt ∧ (year (dt_date dt) < 1000)%Z
                         ∧ s = strftime python_311 dt)).
Proof.
  apply (offense_dates_are_iso python_311 float_of_sample render_sample
           {[ 0 := short_year ]}
           (clean_and_analyze_crime_data python_311 float_of_sample render_sample 0
              {[ 0 := short_year ]}).2
           0 8 short_year metadata_short_year).
  - reflexivity.
  - vm_compute. reflexivity.
Defined.

(** X9.  The counters of the metadata and the table agree: the number
    of rows reported is the number of rows of the table returned; when
    the table has an [offense_date] column the number of valid
    timestamps reported is that same number, since the rows that were
    counted invalid are dropped; when it has none, both counters of
    timestamps are 0. *)
Theorem valid_count_is_row_count
    (pf : platform) (float_of_str : string → option Z) (render : cell → string)
    (h h' : heap) (input l' : loc) (raw : frame) (md : metadata) :
  h !! input = Some raw →
  clean_and_analyze_crime_data pf float_of_str render input h = (inr (l', md), h') →
  ∃ out,
    h' !! l' = Some out
    ∧ rows_after_cleaning md = length (rows out)
    ∧ match index_of "offense_date" (columns out) with
      | Some _ => valid_records md = length (rows out)
      | None => valid_records md = 0 ∧ invalid_records md = 0
      end.
Proof.
  intros Hin Hrun.
  destruct (clean_result pf float_of_str render h h' input l' raw md Hin Hrun)
    as (out & Hclean & Hout & _).
  apply cleaned_stages in Hclean
    as (df & c & p & Hcols & Hc & Hp & -> & Hn & Hv & Hi & Hrows).
  exists (validate_dates pf render df).2. split; [done|]. split; [done|].
  rewrite validate_dates_columns, Hv, Hi.
  destruct (index_of "offense_date" (columns df)) as [q|] eqn:Hq.
  - apply (validate_dates_exact pf render df q Hq).
    apply Forall_forall. intros r Hr. apply cell_at_present.
    apply (Hrows r Hr). by eapply index_of_lt.
  - by rewrite (validate_dates_absent pf render df Hq).
Qed.

Lemma valid_count_is_row_count_witness :
  ∃ out,
    (clean_and_analyze_crime_data python_311 float_of_sample render_sample 0
       {[ 0 := three_records ]}).2 !! 8 = Some out
    ∧ rows_after_cleaning metadata_three = length (rows out)
    ∧ match index_of "offense_date" (columns out) with
      | Some _ => valid_records metadata_three = length (rows out)
      | None => valid_records metadata_three = 0
                ∧ invalid_records metadata_three = 0
      end.
Proof.
  apply (valid_count_is_row_count python_311 float_of_sample render_sample
           {[ 0 := three_records ]}
           (clean_and_analyze_crime_data python_311 float_of_sample render_sample 0
              {[ 0 := three_records ]}).2
           0 8 three_records metadata_three).
  - reflexivity.
  - vm_compute. reflexivity.
Defined.

Lemma cleaned_missing_column pf float_of_str render raw :
  range_columns pf = false ∨ columns raw ≠ [] ∨ rows raw ≠ [] →
  let cols := normalize_label <$> columns raw in
  ("crime_against_category" ∉ cols →
     cleaned pf float_of_str render raw = inl (KeyError "crime_against_category"))
  ∧ ("crime_against_category" ∈ cols → "precinct" ∉ cols →
     cleaned pf float_of_str render raw = inl (KeyError "precinct"))
  ∧ ("crime_against_category" ∈ cols → "precinct" ∈ cols → "latitude" ∉ cols →
     cleaned pf float_of_str render raw = inl (KeyError "latitude")).
Proof.
  intros Hnamed cols. unfold cleaned. cbv zeta.
  assert (normalize_columns pf raw = inr (relabel raw)) as ->.
  { destruct Hnamed as [Hp|[Hc|Hr]].
    - unfold normalize_columns. by rewrite Hp.
    - by apply normalize_columns_columns.
    - by apply normalize_columns_rows. }
  cbn [and_then].
  set (df := dedup (dedup (relabel raw))).
  assert (columns df = cols) as Hcols by (unfold df; by rewrite !dedup_columns).
  assert (∀ label text (f : frame), columns f = cols → label ∉ cols →
            where_ne label text f = inl (KeyError label)) as Hmiss.
  { intros label text f Hf Habs. unfold where_ne, position.
    apply index_of_None in Habs. by rewrite Hf, Habs. }
  assert (∀ label text (f : frame), columns f = cols → label ∈ cols →
            ∃ f', where_ne label text f = inr f' ∧ columns f' = cols) as Hhas.
  { intros label text f Hf Hin. unfold where_ne, position. rewrite Hf.
    destruct (index_of label cols) as [i|] eqn:Hi.
    - simpl. by eexists.
    - apply index_of_None in Hi. done. }
  split; [|split].
  - intros Habs. by rewrite (Hmiss _ _ df Hcols Habs).
  - intros Hc Hp. destruct (Hhas _ "-" df Hcols Hc) as (f0 & -> & C0). simpl.
    by rewrite (Hmiss _ _ f0 C0 Hp).
  - intros Hc Hp Hl. destruct (Hhas _ "-" df Hcols Hc) as (f0 & -> & C0). simpl.
    destruct (Hhas _ "-" f0 C0 Hp) as (f1 & -> & C1). simpl.
    unfold counts, position. rewrite C1.
    destruct (index_of "crime_against_category" cols) as [i|] eqn:Hi.
    2:{ by apply index_of_None in Hi. }
    simpl. unfold drop_marked_latitude, position. rewrite C1.
    apply index_of_None in Hl. by rewrite Hl.
Qed.

(** X10.  A table that lacks a column the cleaning reads is refused,
    and no table is returned.  The table without columns and without
    rows, which is [pd.DataFrame()], is refused with [AttributeError]
    where its columns are a [RangeIndex] (pandas 2 and later): line
    186 cannot read them as texts.  Every other table is refused with
    the [KeyError] of the first column it misses: the category, then
    the precinct, then the latitude, under the names the columns have
    after normalisation. *)
Theorem missing_column_raises
    (pf : platform) (float_of_str : string → option Z) (render : cell → string)
    (h : heap) (input : loc) (raw : frame) :
  h !! input = Some raw →
  let cols := normalize_label <$> columns raw in
  let result := (clean_and_analyze_crime_data pf float_of_str render input h).1 in
  (range_columns pf = true → columns raw = [] → rows raw = [] →
     result = inl AttributeError)
  ∧ (range_columns pf = false ∨ columns raw ≠ [] ∨ rows raw ≠ [] →
     ("crime_against_category" ∉ cols →
        result = inl (KeyError "crime_against_category"))
     ∧ ("crime_against_category" ∈ cols → "precinct" ∉ cols →
        result = inl (KeyError "precinct"))
     ∧ ("crime_against_category" ∈ cols → "precinct" ∈ cols →
        "latitude" ∉ cols →
        result = inl (KeyError "latitude"))).
Proof.
  intros Hin cols result.
  destruct (clean_runs pf float_of_str render h input raw Hin) as [_ Hres].
  fold result in Hres. split.
  - intros Hp Hc Hr. unfold cleaned, normalize_columns, is_bare in Hres.
    by rewrite Hp, Hc, Hr in Hres.
  - intros Hnamed.
    destruct (cleaned_missing_column pf float_of_str render raw Hnamed)
      as (H1 & H2 & H3).
    fold cols in H1, H2, H3.
    split; [|split].
    + intros Ha. by rewrite (H1 Ha) in Hres.
    + intros Ha Hb. by rewrite (H2 Ha Hb) in Hres.
    + intros Ha Hb Hc. by rewrite (H3 Ha Hb Hc) in Hres.
Qed.

Lemma missing_column_raises_witness :
  (clean_and_analyze_crime_data python_311 float_of_sample render_sample 0
     {[ 0 := mkframe [] [] ]}).1
  = inl AttributeError
  ∧ (clean_and_analyze_crime_data python_311 float_of_sample render_sample 0
       {[ 0 := no_category ]}).1
    = inl (KeyError "crime_against_category").
Proof.
  split.
  - destruct (missing_column_raises python_311 float_of_sample render_sample
                {[ 0 := mkframe [] [] ]} 0 (mkframe [] [])) as [H _].
    + reflexivity.
    + by apply H.
  - destruct (missing_column_raises python_311 float_of_sample render_sample
                {[ 0 := no_category ]} 0 no_category) as [_ H].
    + reflexivity.
    + destruct H as [H _].
      * right. left. discriminate.
      * apply H, index_of_None. reflexivity.
Defined.

End TableClaims.

(* ================================================================== *)
(** * The loading asset *)
(* ================================================================== *)

Module LoaderFacts.
Import Platform Sink Frame Loader.
Import FrameFacts CleaningFacts.

Lemma source_field_Some docs c k :
  source_field docs c = Some k → k ∈ fields docs ∧ lower k = c.
Proof.
  unfold source_field. intros H%head_Some_elem_of.
  apply list_elem_of_filter in H as [H1 H2]. split; [|done].
  by apply elem_of_elements in H2.
Qed.

Lemma source_field_None docs c k :
  source_field docs c = None → k ∈ fields docs → lower k ≠ c.
Proof.
  unfold source_field. intros H Hk Hc.
  apply head_None in H.
  assert (k ∈ filter (λ k, lower k = c) (elements (fields docs))) as Hin.
  { apply list_elem_of_filter. split; [done|]. by apply elem_of_elements. }
  rewrite H in Hin. by apply elem_of_nil in Hin.
Qed.

Lemma source_field_unique docs c k :
  case_free docs → k ∈ fields docs → lower k = c → source_field docs c = Some k.
Proof.
  intros Hfree Hk Hc. destruct (source_field docs c) as [k'|] eqn:Hs.
  - apply source_field_Some in Hs as [Hk' Hc']. f_equal.
    apply Hfree; [done..|congruence].
  - by destruct (source_field_None docs c k Hs Hk).
Qed.

Lemma labels_sublist docs l :
  (omap (λ c, (λ k, (c, k)) <$> source_field docs c) l).*1 `sublist_of` l.
Proof.
  induction l as [|c l IH]; simpl; [done|].
  destruct (source_field docs c); simpl.
  - by apply sublist_skip.
  - by apply sublist_cons.
Qed.

Lemma available_columns_spec docs c k :
  (c, k) ∈ available_columns docs
  ↔ c ∈ required_columns ∧ source_field docs c = Some k.
Proof.
  unfold available_columns. rewrite list_elem_of_omap. split.
  - intros (c' & Hc' & Hk). destruct (source_field docs c') as [k'|] eqn:Hs; [|done].
    injection Hk as <- <-. done.
  - intros [Hc Hk]. exists c. split; [done|]. by rewrite Hk.
Qed.

Lemma fields_spec docs k :
  k ∈ fields docs ↔ ∃ d : doc, d ∈ docs ∧ is_Some (d !! k).
Proof.
  unfold fields. rewrite elem_of_union_list. split.
  - intros (X & HX & Hk). apply list_elem_of_fmap in HX as (d & -> & Hd).
    exists d. split; [done|]. by apply elem_of_dom.
  - intros (d & Hd & Hk). exists (dom d). split.
    + apply list_elem_of_fmap. by exists d.
    + by apply elem_of_dom.
Qed.

Lemma required_normalised_distinct :
  NoDup (normalize_label <$> required_columns).
Proof. vm_compute. apply (bool_decide_unpack _). vm_compute. reflexivity. Qed.

Section Loading.
Variable to_datetime : list cell → list cell.
Hypothesis to_datetime_length : ∀ l, length (to_datetime l) = length l.

Lemma set_column_rows i values df k :
  length values = length (rows df) →
  rows (set_column i values df) !! k
  = (λ r, set_cell i (default CNull (values !! k)) r) <$> rows df !! k.
Proof.
  intros Hlen. unfold set_column. cbn [rows].
  rewrite lookup_zip_with. destruct (rows df !! k) as [r|] eqn:Hr; simpl; [|done].
  destruct (values !! k) as [c|] eqn:Hc; simpl; [done|].
  apply lookup_ge_None in Hc. apply lookup_lt_Some in Hr. lia.
Qed.

Lemma convert_dates_columns label df :
  columns (convert_dates to_datetime label df) = columns df.
Proof.
  unfold convert_dates. by destruct (index_of label (columns df)).
Qed.

(** A conversion leaves the rows where they are, with their labels and
    with their cells in the other columns. *)
Lemma convert_dates_rows label df k :
  rows (convert_dates to_datetime label df) !! k = None
  ∧ rows df !! k = None
  ∨ ∃ r r' : row,
      rows df !! k = Some r
      ∧ rows (convert_dates to_datetime label df) !! k = Some r'
      ∧ r'.1 = r.1 ∧ length r'.2 = length r.2
      ∧ ∀ j, index_of label (columns df) ≠ Some j → cell_at j r' = cell_at j r.
Proof.
  unfold convert_dates.
  destruct (index_of label (columns df)) as [i|] eqn:Hi.
  - rewrite set_column_rows
      by (unfold column; by rewrite to_datetime_length, length_fmap).
    destruct (rows df !! k) as [r|]; [right|by left].
    eexists _, _. split; [done|]. split; [done|]. simpl.
    split; [done|]. split; [by rewrite length_insert|].
    intros j Hj. apply cell_at_set_ne. congruence.
  - destruct (rows df !! k) as [r|]; [right|by left].
    exists r, r. by repeat split.
Qed.

Lemma table_of_rows docs k :
  rows (table_of docs) !! k
  = (λ d, (Z.of_nat k, field_cell d <$> (available_columns docs).*2)) <$> docs !! k.
Proof. unfold table_of. cbn [rows]. by rewrite list_lookup_imap. Qed.

End Loading.
End LoaderFacts.

Module LoaderClaims.
Import Platform Sink Frame Loader LoadSamples.
Import FrameFacts ValidationFacts CleaningFacts LoaderFacts.

Lemma two_documents_case_free : case_free two_documents.
Proof.
  assert (∀ k, k ∈ fields two_documents →
            k = "report_number" ∨ k = "precinct" ∨ k = "offense_date") as Hk.
  { intros k [d [Hd [v Hv]]]%fields_spec. unfold two_documents in Hd.
    apply elem_of_cons in Hd as [->|Hd].
    - destruct (decide (k = "report_number")) as [|H1]; [by left|].
      destruct (decide (k = "precinct")) as [|H2]; [by right; left|].
      destruct (decide (k = "offense_date")) as [|H3]; [by right; right|].
      by rewrite !lookup_insert_ne, lookup_singleton_ne in Hv.
    - apply list_elem_of_singleton in Hd as ->.
      destruct (decide (k = "report_number")) as [|H1]; [by left|].
      destruct (decide (k = "offense_date")) as [|H3]; [by right; right|].
      by rewrite !lookup_insert_ne, lookup_singleton_ne in Hv. }
  intros k1 k2 H1 H2. apply Hk in H1, H2.
  destruct H1 as [-> | [-> | ->]]; destruct H2 as [-> | [-> | ->]]; done.
Qed.

(** X11.  On a collection that is not empty the loading asset returns
    a table with one row per document, in the order of the documents
    and labelled from 0, every row with a cell for every column; the
    columns are those of the fourteen required names that some
    document has as a field, in the order of that list, and after the
    renaming of the cleaning asset their labels are still distinct. *)
Theorem loaded_table_shape
    (to_datetime : list cell → list cell) (docs : list doc) :
  (∀ l, length (to_datetime l) = length l) →
  case_free docs → docs ≠ [] →
  let df := (load_and_process_crime_data_from_mongodb to_datetime docs).1 in
  columns df `sublist_of` required_columns
  ∧ (∀ c, c ∈ columns df
          ↔ c ∈ required_columns ∧ ∃ k, k ∈ fields docs ∧ lower k = c)
  ∧ NoDup (normalize_label <$> columns df)
  ∧ length (rows df) = length docs
  ∧ ∀ i (r : row), rows df !! i = Some r →
      r.1 = Z.of_nat i ∧ length r.2 = length (columns df).
Proof.
  intros Hlen Hfree Hdocs df.
  assert (df = convert_dates to_datetime "offense_date"
                 (convert_dates to_datetime "report_date_time" (table_of docs)))
    as -> by (unfold df; by destruct docs).
  rewrite !convert_dates_columns. cbn [table_of columns].
  assert ((available_columns docs).*1 `sublist_of` required_columns) as Hsub
    by apply labels_sublist.
  split; [done|]. split; [|split; [|split]].
  - intros c. rewrite list_elem_of_fmap. split.
    + intros ([c' k] & -> & [Hc Hk]%available_columns_spec). simpl.
      split; [done|]. exists k. by apply source_field_Some.
    + intros (Hc & k & Hk & Hl). exists (c, k). split; [done|].
      apply available_columns_spec. split; [done|].
      by apply source_field_unique.
  - eapply sublist_NoDup; [apply required_normalised_distinct|].
    by apply fmap_sublist.
  - assert (∀ label (f : frame),
              length (rows (convert_dates to_datetime label f)) = length (rows f))
      as Hrows.
    { intros label f. unfold convert_dates.
      destruct (index_of label (columns f)); [|done].
      unfold set_column, column. cbn [rows].
      rewrite length_zip_with, Hlen, length_fmap. lia. }
    rewrite !Hrows. unfold table_of. cbn [rows]. by rewrite length_imap.
  - intros i r Hr.
    destruct (convert_dates_rows to_datetime Hlen "offense_date"
                (convert_dates to_datetime "report_date_time" (table_of docs)) i)
      as [[Hnone _]|(r1 & r' & Hr1 & Hr' & Hl & Hn & _)]; [congruence|].
    rewrite Hr in Hr'. injection Hr' as <-.
    destruct (convert_dates_rows to_datetime Hlen "report_date_time"
                (table_of docs) i)
      as [[Hnone _]|(r0 & r1' & Hr0 & Hr1' & Hl0 & Hn0 & _)]; [congruence|].
    rewrite Hr1 in Hr1'. injection Hr1' as <-.
    rewrite table_of_rows in Hr0.
    destruct (docs !! i) as [d|]; [|done]. injection Hr0 as <-.
    rewrite Hl, Hl0, Hn, Hn0. simpl. by rewrite !length_fmap.
Qed.

Lemma loaded_table_shape_witness :
  let df := (load_and_process_crime_data_from_mongodb to_datetime_sample
               two_documents).1 in
  columns df `sublist_of` required_columns
  ∧ (∀ c, c ∈ columns df
          ↔ c ∈ required_columns
            ∧ ∃ k, k ∈ fields two_documents ∧ lower k = c)
  ∧ NoDup (normalize_label <$> columns df)
  ∧ length (rows df) = length two_documents
  ∧ ∀ i (r : row), rows df !! i = Some r →
      r.1 = Z.of_nat i ∧ length r.2 = length (columns df).
Proof.
  apply (loaded_table_shape to_datetime_sample two_documents).
  - intros l. unfold to_datetime_sample. by rewrite length_fmap.
  - apply two_documents_case_free.
  - discriminate.
Defined.

Lemma convert_dates_cell (to_datetime : list cell → list cell) label df i j
    (r : row) :
  (∀ l, length (to_datetime l) = length l) →
  (∀ l x, x ∈ to_datetime l → x = CNull ∨ ∃ t, x = CTime t) →
  index_of label (columns df) = Some j →
  rows df !! i = Some r → j < length r.2 →
  ∃ r' : row, rows (convert_dates to_datetime label df) !! i = Some r'
    ∧ (cell_at j r' = CNull ∨ ∃ t, cell_at j r' = CTime t).
Proof.
  intros Hlen Hcells Hj Hr Hlt. unfold convert_dates. rewrite Hj.
  rewrite set_column_rows
    by (unfold column; by rewrite Hlen, length_fmap).
  rewrite Hr. eexists. split; [done|]. rewrite cell_at_set_eq by done.
  destruct (to_datetime (column j df) !! i) as [x|] eqn:Hx; [|by left].
  simpl. eapply Hcells. by eapply list_elem_of_lookup_2.
Qed.

(** X12.  A cell of the table the loading asset returns, in the row of
    a document and in the column of a required name: in the two
    timestamp columns it is a timestamp or missing; in every other
    column it is the text the document has in the field of that name,
    and missing when the document has no such field. *)
Theorem loaded_cells
    (to_datetime : list cell → list cell) (docs : list doc)
    (i j : nat) (d : doc) (c : string) :
  (∀ l, length (to_datetime l) = length l) →
  (∀ l x, x ∈ to_datetime l → x = CNull ∨ ∃ t, x = CTime t) →
  case_free docs →
  docs !! i = Some d →
  index_of c
    (columns (load_and_process_crime_data_from_mongodb to_datetime docs).1)
    = Some j →
  ∃ (r : row) k,
    rows (load_and_process_crime_data_from_mongodb to_datetime docs).1 !! i
      = Some r
    ∧ k ∈ fields docs ∧ lower k = c
    ∧ if decide (c = "report_date_time" ∨ c = "offense_date")
      then cell_at j r = CNull ∨ ∃ t, cell_at j r = CTime t
      else cell_at j r = field_cell d k.
Proof.
  intros Hlen Hcells Hfree Hd.
  assert ((load_and_process_crime_data_from_mongodb to_datetime docs).1
          = convert_dates to_datetime "offense_date"
              (convert_dates to_datetime "report_date_time" (table_of docs)))
    as -> by (destruct docs; [done|reflexivity]).
  rewrite !convert_dates_columns. cbn [table_of columns]. intros Hj.
  pose proof (index_of_Some _ _ _ Hj) as Hcol.
  rewrite list_lookup_fmap in Hcol.
  destruct (available_columns docs !! j) as [[c' k]|] eqn:Hpair; [|done].
  injection Hcol as ->.
  pose proof (list_elem_of_lookup_2 _ _ _ Hpair) as Hin.
  apply available_columns_spec in Hin as [_ [Hk Hlow]%source_field_Some].
  set (t0 := table_of docs).
  set (t1 := convert_dates to_datetime "report_date_time" t0).
  set (r0 := (Z.of_nat i, field_cell d <$> (available_columns docs).*2) : row).
  assert (rows t0 !! i = Some r0)
    as Hr0 by (unfold t0; by rewrite table_of_rows, Hd).
  assert (cell_at j r0 = field_cell d k) as Hcell.
  { unfold cell_at. simpl. by rewrite !list_lookup_fmap, Hpair. }
  assert (j < length (available_columns docs)) as Hlt
    by (by eapply lookup_lt_Some).
  assert (columns t0 = (available_columns docs).*1) as Hc0 by done.
  assert (columns t1 = (available_columns docs).*1) as Hc1
    by (unfold t1; by rewrite convert_dates_columns).
  assert (∀ label, label ≠ c →
            index_of label (available_columns docs).*1 ≠ Some j) as Hother.
  { intros label Hne Hl. apply index_of_Some in Hl.
    apply index_of_Some in Hj. congruence. }
  destruct (convert_dates_rows to_datetime Hlen "report_date_time" t0 i)
    as [[_ Hnone]|(r0' & r1 & Hr0' & Hr1 & Hl1 & Hn1 & Hkeep1)];
    [by rewrite Hr0 in Hnone|].
  rewrite Hr0 in Hr0'. injection Hr0' as <-. fold t1 in Hr1.
  destruct (convert_dates_rows to_datetime Hlen "offense_date" t1 i)
    as [[_ Hnone]|(r1' & r2 & Hr1' & Hr2 & Hl2 & Hn2 & Hkeep2)];
    [by rewrite Hr1 in Hnone|].
  rewrite Hr1 in Hr1'. injection Hr1' as <-.
  simpl in Hn1. rewrite !length_fmap in Hn1.
  destruct (decide (c = "report_date_time" ∨ c = "offense_date")) as [Hdate|Hnot].
  - destruct Hdate as [-> | ->].
    + destruct (convert_dates_cell to_datetime "report_date_time" t0 i j _
                  Hlen Hcells Hj Hr0) as (r1' & Hr1' & Htyped).
      { simpl. by rewrite !length_fmap. }
      fold t1 in Hr1'. rewrite Hr1 in Hr1'. injection Hr1' as <-.
      exists r2, k. split; [done|]. split; [done|]. split; [done|].
      rewrite Hkeep2; [done|]. rewrite Hc1. by apply Hother.
    + rewrite <- Hc1 in Hj.
      destruct (convert_dates_cell to_datetime "offense_date" t1 i j r1
                  Hlen Hcells Hj Hr1) as (r2' & Hr2' & Htyped); [lia|].
      rewrite Hr2 in Hr2'. injection Hr2' as <-.
      by exists r2, k.
  - exists r2, k. split; [done|]. split; [done|]. split; [done|].
    rewrite Hkeep2, Hkeep1; [done| |].
    + rewrite Hc0. apply Hother. intros Heq. apply Hnot. by left.
    + rewrite Hc1. apply Hother. intros Heq. apply Hnot. by right.
Qed.

Lemma loaded_cells_witness :
  ∃ (r : row) k,
    rows (load_and_process_crime_data_from_mongodb to_datetime_sample
            two_documents).1 !! 1 = Some r
    ∧ k ∈ fields two_documents ∧ lower k = "precinct"
    ∧ if decide ("precinct" = "report_date_time" ∨ "precinct" = "offense_date")
      then cell_at 2 r = CNull ∨ ∃ t, cell_at 2 r = CTime t
      else cell_at 2 r
           = field_cell {[ "report_number" := "B";
                           "offense_date" := "not-a-date" ]} k.
Proof.
  apply (loaded_cells to_datetime_sample two_documents 1 2).
  - intros l. unfold to_datetime_sample. by rewrite length_fmap.
  - intros l x (c & -> & _)%list_elem_of_fmap.
    case_decide; [right; by eexists|by left].
  - apply two_documents_case_free.
  - reflexivity.
  - vm_compute. reflexivity.
Defined.

End LoaderClaims.

(* ================================================================== *)
(** * What the cleaning keeps *)
(* ================================================================== *)

Module KeepFacts.
Import Platform Calendar Regex Timestamp Frame Clean Validation.
Import RegexFacts FrameFacts CoordinateFacts ValidationFacts CleaningFacts.

Lemma plain_not_null c : plain c → isnull c = false.
Proof. by intros [[s ->]|[t ->]]. Qed.

Lemma same_cell_plain a b : plain a → same_cell a b = true → b = a.
Proof.
  intros Ha. unfold same_cell. rewrite (plain_not_null a Ha).
  destruct Ha as [[s ->]|[t ->]]; intros H; by apply bool_decide_eq_true in H.
Qed.

Lemma same_cells_plain (a b : list cell) :
  Forall plain a → same_cells a b = true → b = a.
Proof.
  intros Ha. revert b. induction Ha as [|x a Hx _ IH]; intros [|y b]; simpl;
    try done.
  intros [H1 H2]%andb_true_iff. f_equal; [by apply same_cell_plain|by apply IH].
Qed.

Lemma same_cell_refl a : same_cell a a = true.
Proof.
  unfold same_cell. destruct (isnull a) eqn:Hn; [done|].
  destruct a; try (by apply bool_decide_eq_true).
  by rewrite Z.eqb_refl.
Qed.

Lemma same_cells_refl (a : list cell) : same_cells a a = true.
Proof. induction a as [|x a IH]; simpl; [done|]. by rewrite same_cell_refl. Qed.

(** Every row has, among the rows that stay, one with equal cells
    that is not after it. *)
Lemma drop_duplicated_represented seen (rs : list row) (r : row) :
  r ∈ rs →
  seen_in r.2 seen = true
  ∨ ∃ r0 : row, r0 ∈ drop_duplicated seen rs ∧ same_cells r.2 r0.2 = true.
Proof.
  revert seen. induction rs as [|a rs IH]; intros seen Hr;
    [by apply elem_of_nil in Hr|].
  cbn [drop_duplicated]. apply elem_of_cons in Hr as [->|Hr].
  - destruct (seen_in a.2 seen) eqn:Hs; [by left|right].
    exists a. split; [left|apply same_cells_refl].
  - destruct (seen_in a.2 seen) eqn:Hs.
    + destruct (IH seen Hr) as [?|(r0 & H0 & H1)]; [by left|right]. by exists r0.
    + destruct (IH (a.2 :: seen) Hr) as [Hin|(r0 & H0 & H1)].
      * simpl in Hin. apply orb_true_iff in Hin as [Ha|?]; [right|by left].
        exists a. split; [left|done].
      * right. exists r0. split; [by right|done].
Qed.

Lemma same_cell_text a s : same_cell a (CStr s) = true → a = CStr s.
Proof.
  unfold same_cell. destruct (isnull a); [done|].
  destruct a; intros H; by apply bool_decide_eq_true in H.
Qed.

Lemma same_cells_at (a b : list cell) k :
  same_cells a b = true →
  same_cell (default CNull (a !! k)) (default CNull (b !! k)) = true.
Proof.
  revert b k. induction a as [|x a IH]; intros [|y b] k; simpl; try done.
  intros [H1 H2]%andb_true_iff. destruct k as [|k]; simpl; [done|].
  by apply IH.
Qed.

(** Every row has, among the rows the removal of duplicates leaves,
    one with cells equal to its own. *)
Lemma dedup_same df (r : row) :
  r ∈ rows df →
  ∃ r0 : row, r0 ∈ rows (dedup df) ∧ same_cells r.2 r0.2 = true.
Proof.
  intros Hr. unfold dedup. destruct (duplicated_any df).
  - by destruct (drop_duplicated_represented [] (rows df) r Hr)
      as [?|(r0 & H0 & H1)]; [|exists r0].
  - exists r. split; [done|apply same_cells_refl].
Qed.

(** The first of the rows that have the cells of [r]. *)
Lemma first_with_cells (rs : list row) (r : row) :
  r ∈ rs →
  ∃ n (r0 : row), rs !! n = Some r0 ∧ r0.2 = r.2
    ∧ ∀ m (x : row), m < n → rs !! m = Some x → x.2 ≠ r.2.
Proof.
  induction rs as [|a rs IH]; intros Hr; [by apply elem_of_nil in Hr|].
  destruct (decide (a.2 = r.2)) as [Ha|Ha].
  { exists 0, a. split; [done|]. split; [done|]. intros m x Hm. lia. }
  apply elem_of_cons in Hr as [->|Hr]; [done|].
  destruct (IH Hr) as (n & r0 & Hn & Heq & Hfirst).
  exists (S n), r0. split; [done|]. split; [done|].
  intros [|m] x Hm Hx; simpl in Hx.
  - by injection Hx as <-.
  - apply (Hfirst m); [lia|done].
Qed.

(** [drop_duplicates] keeps the first of the rows with given cells. *)
Lemma drop_duplicated_first seen (rs : list row) n (r0 : row) :
  Forall plain r0.2 →
  rs !! n = Some r0 → seen_in r0.2 seen = false →
  (∀ m (x : row), m < n → rs !! m = Some x → x.2 ≠ r0.2) →
  r0 ∈ drop_duplicated seen rs.
Proof.
  intros Hplain. revert seen n.
  induction rs as [|a rs IH]; intros seen n Hn Hseen Hfirst; [done|].
  cbn [drop_duplicated]. destruct n as [|n]; simpl in Hn.
  - injection Hn as ->. rewrite Hseen. left.
  - assert (same_cells r0.2 a.2 = false) as Hne.
    { destruct (same_cells r0.2 a.2) eqn:Hs; [|done].
      apply same_cells_plain in Hs; [|done].
      by destruct (Hfirst 0 a ltac:(lia) eq_refl). }
    assert (∀ m (x : row), m < n → rs !! m = Some x → x.2 ≠ r0.2) as Hrest.
    { intros m x Hm Hx. apply (Hfirst (S m)); [lia|done]. }
    destruct (seen_in a.2 seen).
    + by apply (IH seen n).
    + right. apply (IH (a.2 :: seen) n); [done| |done].
      simpl. by rewrite Hne, Hseen.
Qed.

Lemma dedup_first df n (r0 : row) :
  Forall plain r0.2 → rows df !! n = Some r0 →
  (∀ m (x : row), m < n → rows df !! m = Some x → x.2 ≠ r0.2) →
  r0 ∈ rows (dedup df).
Proof.
  intros Hplain Hn Hfirst. unfold dedup. destruct (duplicated_any df).
  - simpl. by apply (drop_duplicated_first [] (rows df) n).
  - by eapply list_elem_of_lookup_2.
Qed.

(** The second removal of duplicates finds none. *)
Lemma dedup_dedup df : dedup (dedup df) = dedup df.
Proof. unfold dedup at 1. by rewrite dedup_no_duplicates. Qed.

Section Forward.
Variable pf : platform.
Variable float_of_str : string → option Z.
Variable render : cell → string.

Lemma where_ne_keeps label text df df' i (r : row) :
  where_ne label text df = inr df' →
  index_of label (columns df) = Some i →
  r ∈ rows df → cell_at i r ≠ CStr text → r ∈ rows df'.
Proof.
  unfold where_ne, position. intros H Hi Hr Hne. rewrite Hi in H. simpl in H.
  injection H as <-. apply elem_of_keep_rows. split; [done|].
  by apply ne_str_spec.
Qed.

Lemma drop_marked_latitude_keeps df df' j (r : row) :
  drop_marked_latitude df = inr df' →
  index_of "latitude" (columns df) = Some j →
  r ∈ rows df → cell_at j r ≠ CStr "REDACTED" → cell_at j r ≠ CStr "-1.0" →
  r ∈ rows df'.
Proof.
  unfold drop_marked_latitude, position. intros H Hj Hr H1 H2.
  rewrite Hj in H. simpl in H. injection H as <-.
  apply elem_of_keep_rows. split; [done|].
  apply andb_true_iff. split; by apply ne_str_spec.
Qed.

Lemma to_float_rows_keeps k (rs rs' : list row) (r : row) c :
  to_float_rows float_of_str k rs = inr rs' →
  r ∈ rs → to_float float_of_str (cell_at k r) = inr c →
  set_cell k c r ∈ rs'.
Proof.
  revert rs'. induction rs as [|a rs IH]; intros rs' H Hr Hc;
    [by apply elem_of_nil in Hr|].
  simpl in H. destruct (to_float float_of_str (cell_at k a)) as [|ca] eqn:Ha;
    [done|].
  simpl in H. destruct (to_float_rows float_of_str k rs) as [|rs''] eqn:Hrs;
    [done|].
  simpl in H. injection H as <-. apply elem_of_cons in Hr as [->|Hr].
  - rewrite Ha in Hc. injection Hc as <-. left.
  - right. by apply IH.
Qed.

Lemma astype_float_keeps label df df' k (r : row) c :
  astype_float float_of_str label df = inr df' →
  index_of label (columns df) = Some k →
  r ∈ rows df → to_float float_of_str (cell_at k r) = inr c →
  set_cell k c r ∈ rows df'.
Proof.
  unfold astype_float, position. intros H Hk Hr Hc. rewrite Hk in H. simpl in H.
  destruct (to_float_rows float_of_str k (rows df)) as [|rs'] eqn:Hrs; [done|].
  simpl in H. injection H as <-. simpl. by eapply to_float_rows_keeps.
Qed.

Lemma dropna_keeps df (r : row) :
  r ∈ rows df →
  (∀ k, k < length (columns df) → isnull (cell_at k r) = false) →
  r ∈ rows (dropna df).
Proof.
  intros Hr Hfull. apply elem_of_keep_rows. split; [done|].
  unfold complete. apply forallb_forall. intros k Hk%in_seq.
  apply negb_true_iff, Hfull. lia.
Qed.

Lemma drop_zero_coordinates_keeps df df' i j (r : row) :
  drop_zero_coordinates df = inr df' →
  index_of "longitude" (columns df) = Some i →
  index_of "latitude" (columns df) = Some j →
  r ∈ rows df → eq_zero (cell_at i r) && eq_zero (cell_at j r) = false →
  r ∈ rows df'.
Proof.
  unfold drop_zero_coordinates, position. intros H Hi Hj Hr Hz.
  rewrite Hi, Hj in H. simpl in H. injection H as <-.
  apply elem_of_keep_rows. split; [done|]. by rewrite Hz.
Qed.

Lemma cleaned_keeps raw out md (r : row) lo la :
  cleaned pf float_of_str render raw = inr (out, md) →
  r ∈ rows raw →
  usable pf float_of_str render (normalize_label <$> columns raw) r lo la →
  ∃ (r' r0 : row) n i j,
    index_of "longitude" (normalize_label <$> columns raw) = Some i
    ∧ index_of "latitude" (normalize_label <$> columns raw) = Some j
    ∧ r' ∈ rows out
    ∧ rows raw !! n = Some r0 ∧ r0.2 = r.2
    ∧ (∀ m (x : row), m < n → rows raw !! m = Some x → x.2 ≠ r.2)
    ∧ r'.1 = r0.1
    ∧ cell_at i r' = CNum lo ∧ cell_at j r' = CNum la
    ∧ ∀ k, k ≠ i → k ≠ j →
        (index_of "offense_date" (normalize_label <$> columns raw) ≠ Some k →
           cell_at k r' = cell_at k r)
        ∧ (index_of "offense_date" (normalize_label <$> columns raw) = Some k →
           ∃ s, corrected pf (as_str render (cell_at k r)) = Some s
                ∧ cell_at k r' = CStr s).
Proof.
  unfold cleaned. cbv zeta. intros H Hr (Hlen & Hplain & Ucat & Upre & Ulat & Ulon & Uzero & Udate).
  first_step. repeat next_step.
  destruct (validate_dates pf render f5) as [t df] eqn:Ev.
  next_step. injection H as <- <-.
  destruct (where_ne_spec _ _ _ _ E) as (C0 & c & Hc & R0).
  destruct (where_ne_spec _ _ _ _ E0) as (C1 & p & Hp & R1).
  destruct (where_ne_spec _ _ _ _ E5) as (C5 & c' & Hc' & R5).
  destruct (drop_marked_latitude_rows _ _ E2) as (C2 & j & Hj & R2).
  destruct (astype_float_rows _ _ _ _ E3) as (C3 & j' & Hj' & R3).
  destruct (astype_float_rows _ _ _ _ E4) as (C4 & i & Hi & R4).
  destruct (drop_zero_coordinates_rows _ _ E6) as (C6 & i' & j'' & Hi' & Hj'' & R6).
  rewrite !dedup_columns in C0, Hc. simpl in C0, C5, Hc, Hc'.
  set (cols := normalize_label <$> columns raw) in *.
  rewrite C0 in C1, Hp. rewrite C1 in C2, Hj. rewrite C2 in C3, Hj'.
  rewrite C3 in C4, Hi. rewrite C4 in C5, Hc'. rewrite C5 in C6, Hi', Hj''.
  rewrite Hc in Hc'. injection Hc' as <-.
  rewrite Hj in Hj', Hj''. injection Hj' as <-. injection Hj'' as <-.
  rewrite Hi in Hi'. injection Hi' as <-.
  assert (i ≠ j) as Hij by (by eapply (index_of_distinct "longitude" "latitude")).
  assert (c ≠ i) as Hci
    by (by eapply (index_of_distinct "crime_against_category" "longitude")).
  assert (c ≠ j) as Hcj
    by (by eapply (index_of_distinct "crime_against_category" "latitude")).
  destruct (Ucat c Hc) as [Uc1 Uc2]. pose proof (Upre p Hp) as Up.
  destruct (Ulat j Hj) as (Ul1 & Ul2 & Ul3 & Ul4).
  destruct (Ulon i Hi) as (Uo1 & Uo2).
  (* the first of the rows equal to [r] *)
  destruct (first_with_cells (rows raw) r Hr) as (n & r0 & Hn & Heq & Hfirst).
  assert (r0 ∈ rows (dedup (dedup (relabel raw)))) as Hr0.
  { rewrite dedup_dedup. apply (dedup_first (relabel raw) n); [by rewrite Heq|done|].
    intros m x Hm Hx. rewrite Heq. by eapply Hfirst. }
  assert (∀ k, cell_at k r0 = cell_at k r) as Hcell
    by (intros k; unfold cell_at; by rewrite Heq).
  (* through the filters and the conversions *)
  assert (r0 ∈ rows f) as H0
    by (eapply where_ne_keeps; [done|by rewrite !dedup_columns|done|by rewrite Hcell]).
  assert (r0 ∈ rows f0) as H1
    by (eapply where_ne_keeps; [done|by rewrite C0|done|by rewrite Hcell]).
  assert (r0 ∈ rows f1) as H2
    by (eapply drop_marked_latitude_keeps;
        [done|by rewrite C1|done|by rewrite Hcell..]).
  set (r1 := set_cell j (CNum la) r0).
  assert (r1 ∈ rows f2) as H3
    by (eapply astype_float_keeps; [done|by rewrite C2|done|by rewrite Hcell]).
  set (r2 := set_cell i (CNum lo) r1).
  assert (r2 ∈ rows f3) as H4.
  { eapply astype_float_keeps; [done|by rewrite C3|done|].
    unfold r1. by rewrite cell_at_set_ne, Hcell. }
  assert (j < length r0.2) as Hjlt.
  { rewrite Heq, Hlen. unfold cols. by eapply index_of_lt. }
  assert (i < length r1.2) as Hilt.
  { unfold r1. simpl. rewrite length_insert, Heq, Hlen. by eapply index_of_lt. }
  assert (cell_at i r2 = CNum lo) as Hlo by (unfold r2; by rewrite cell_at_set_eq).
  assert (cell_at j r2 = CNum la) as Hla.
  { unfold r2. rewrite cell_at_set_ne by done. unfold r1. by rewrite cell_at_set_eq. }
  assert (∀ k, k ≠ i → k ≠ j → cell_at k r2 = cell_at k r) as Hrest.
  { intros k Hki Hkj. unfold r2, r1. by rewrite !cell_at_set_ne, Hcell. }
  assert (r2 ∈ rows (dropna f3)) as H5.
  { apply dropna_keeps; [done|]. rewrite C4. intros k Hk.
    destruct (decide (k = i)) as [->|Hki]; [by rewrite Hlo|].
    destruct (decide (k = j)) as [->|Hkj]; [by rewrite Hla|].
    rewrite Hrest by done. apply plain_not_null.
    unfold cell_at. rewrite <- Hlen in Hk.
    destruct (lookup_lt_is_Some_2 _ _ Hk) as [x Hx]. rewrite Hx. simpl.
    rewrite Forall_forall in Hplain. apply Hplain.
    by eapply list_elem_of_lookup_2. }
  assert (r2 ∈ rows f4) as H6.
  { eapply where_ne_keeps; [done|simpl; by rewrite C4|done|]. by rewrite Hrest. }
  assert (r2 ∈ rows f5) as H7.
  { eapply drop_zero_coordinates_keeps; [done|by rewrite C5..|done|].
    by rewrite Hlo, Hla. }
  (* through the validation *)
  assert (∀ x : row, x ∈ rows f5 →
            ∀ k, k < length (columns f5) → isnull (cell_at k x) = false) as Hfull.
  { intros x Hx. apply R6 in Hx as [Hx _]. apply R5 in Hx as [Hx _].
    apply dropna_rows in Hx as [_ Hx]. by rewrite C6, <- C4. }
  destruct (index_of "offense_date" cols) as [q|] eqn:Hq.
  - assert (Forall (λ x : row, q < length x.2) (rows f5)) as Hlong.
    { apply Forall_forall. intros x Hx. apply cell_at_present.
      apply (Hfull x Hx). rewrite C6. by eapply index_of_lt. }
    rewrite <- C6 in Hq.
    destruct (validate_dates_exact pf render f5 q Hq Hlong) as (Hrows & _).
    rewrite Ev in Hrows. simpl in Hrows. rewrite C6 in Hq.
    assert (q ≠ i) as Hqi
      by (by eapply (index_of_distinct "offense_date" "longitude")).
    assert (q ≠ j) as Hqj
      by (by eapply (index_of_distinct "offense_date" "latitude")).
    destruct (Udate q eq_refl) as [s Hs].
    exists (set_cell q (CStr s) r2), r0, n, i, j.
    split; [done|]. split; [done|]. split.
    { rewrite Hrows. apply list_elem_of_omap. exists r2. split; [done|].
      unfold fix_row. by rewrite Hrest, Hs. }
    split; [done|]. split; [done|]. split; [done|]. split; [done|].
    rewrite !cell_at_set_ne by done. split; [done|]. split; [done|].
    intros k Hki Hkj. split.
    + intros Hk. rewrite cell_at_set_ne by congruence. by apply Hrest.
    + intros [= <-]. exists s. split; [done|].
      rewrite cell_at_set_eq; [done|]. rewrite Forall_forall in Hlong.
      by apply Hlong.
  - rewrite <- C6 in Hq. rewrite (validate_dates_absent pf render f5 Hq) in Ev.
    injection Ev as <- <-.
    exists r2, r0, n, i, j. repeat split; try done.
    intros _. by apply Hrest.
Qed.

End Forward.
End KeepFacts.

Module KeepClaims.
Import Platform Calendar Regex Timestamp Frame Clean Validation TableSamples.
Import RegexFacts HeapFacts CleanFacts FrameFacts CoordinateFacts CleanClaims.
Import ValidationFacts CleaningFacts KeepFacts.

(** X13.  The cleaning loses no usable record.  When the asset
    returns, a row of the raw table that passes every test of the
    cleaning has a row in the table returned: under the index label of
    the first raw row with the same cells, with the coordinates as
    floats and every other cell as it was, but the timestamp, which is
    the value of the raw row when the ISO pattern matches it, and
    otherwise what [strftime] writes for the timestamp [strptime] read
    from it. *)
Theorem usable_row_is_kept
    (pf : platform) (float_of_str : string → option Z) (render : cell → string)
    (h h' : heap) (input l' : loc) (raw : frame) (md : metadata)
    (r : row) (lo la : Z) :
  h !! input = Some raw →
  clean_and_analyze_crime_data pf float_of_str render input h = (inr (l', md), h') →
  r ∈ rows raw →
  usable pf float_of_str render (normalize_label <$> columns raw) r lo la →
  ∃ out (r' r0 : row) n i j,
    h' !! l' = Some out
    ∧ index_of "longitude" (normalize_label <$> columns raw) = Some i
    ∧ index_of "latitude" (normalize_label <$> columns raw) = Some j
    ∧ r' ∈ rows out
    ∧ rows raw !! n = Some r0 ∧ r0.2 = r.2
    ∧ (∀ m (x : row), m < n → rows raw !! m = Some x → x.2 ≠ r.2)
    ∧ r'.1 = r0.1
    ∧ cell_at i r' = CNum lo ∧ cell_at j r' = CNum la
    ∧ ∀ k, k ≠ i → k ≠ j →
        (index_of "offense_date" (normalize_label <$> columns raw) ≠ Some k →
           cell_at k r' = cell_at k r)
        ∧ (index_of "offense_date" (normalize_label <$> columns raw) = Some k →
           ∃ s, cell_at k r' = CStr s
                ∧ ((iso_match (as_str render (cell_at k r)) = true
                    ∧ s = as_str render (cell_at k r))
                   ∨ (iso_match (as_str render (cell_at k r)) = false
                      ∧ ∃ dt, well_formed dt ∧ s = strftime pf dt
                          ∧ (strptime format_space (as_str render (cell_at k r))
                             = Some dt
                             ∨ (strptime format_space
                                  (as_str render (cell_at k r)) = None
                                ∧ strptime format_T
                                    (as_str render (cell_at k r)) = Some dt))))).
Proof.
  intros Hin Hrun Hr Husable.
  destruct (clean_result pf float_of_str render h h' input l' raw md Hin Hrun)
    as (out & Hclean & Hout & _).
  destruct (cleaned_keeps pf float_of_str render raw out md r lo la
              Hclean Hr Husable)
    as (r' & r0 & n & i & j & Hi & Hj & Hr' & Hn & Heq & Hfirst & Hl & Hlo & Hla & H).
  exists out, r', r0, n, i, j. repeat (split; [done|]).
  intros k Hki Hkj. destruct (H k Hki Hkj) as [H1 H2]. split; [done|].
  intros Hk. destruct (H2 Hk) as (s & Hs & Hcell). exists s. split; [done|].
  by apply corrected_spec.
Qed.

Lemma usable_row_is_kept_witness :
  ∃ out (r' r0 : row) n i j,
    (clean_and_analyze_crime_data python_311 float_of_sample render_sample 0
       {[ 0 := twice_reported ]}).2 !! 9 = Some out
    ∧ index_of "longitude" (normalize_label <$> columns twice_reported) = Some i
    ∧ index_of "latitude" (normalize_label <$> columns twice_reported) = Some j
    ∧ r' ∈ rows out
    ∧ rows twice_reported !! n = Some r0
    ∧ r0.2 = (sample_row 1 "A" "2025-03-01 10:15:30" "PROPERTY" "-122.3" "47.6").2
    ∧ (∀ m (x : row), m < n → rows twice_reported !! m = Some x →
         x.2 ≠ (sample_row 1 "A" "2025-03-01 10:15:30" "PROPERTY" "-122.3"
                  "47.6").2)
    ∧ r'.1 = r0.1
    ∧ cell_at i r' = CNum 13861678551204574003
    ∧ cell_at j r' = CNum 4631895921755213005
    ∧ ∀ k, k ≠ i → k ≠ j →
        (index_of "offense_date" (normalize_label <$> columns twice_reported)
         ≠ Some k →
           cell_at k r'
           = cell_at k (sample_row 1 "A" "2025-03-01 10:15:30" "PROPERTY"
                          "-122.3" "47.6"))
        ∧ (index_of "offense_date" (normalize_label <$> columns twice_reported)
           = Some k →
           ∃ s, cell_at k r' = CStr s
                ∧ ((iso_match
                      (as_str render_sample
                         (cell_at k (sample_row 1 "A" "2025-03-01 10:15:30"
                                       "PROPERTY" "-122.3" "47.6"))) = true
                    ∧ s = as_str render_sample
                            (cell_at k (sample_row 1 "A" "2025-03-01 10:15:30"
                                          "PROPERTY" "-122.3" "47.6")))
                   ∨ (iso_match
                        (as_str render_sample
                           (cell_at k (sample_row 1 "A" "2025-03-01 10:15:30"
                                         "PROPERTY" "-122.3" "47.6"))) = false
                      ∧ ∃ dt, well_formed dt ∧ s = strftime python_311 dt
                          ∧ (strptime format_space
                               (as_str render_sample
                                  (cell_at k (sample_row 1 "A"
                                     "2025-03-01 10:15:30" "PROPERTY" "-122.3"
                                     "47.6"))) = Some dt
                             ∨ (strptime format_space
                                  (as_str render_sample
                                     (cell_at k (sample_row 1 "A"
                                        "2025-03-01 10:15:30" "PROPERTY"
                                        "-122.3" "47.6"))) = None
                                ∧ strptime format_T
                                    (as_str render_sample
                                       (cell_at k (sample_row 1 "A"
                                          "2025-03-01 10:15:30" "PROPERTY"
                                          "-122.3" "47.6"))) = Some dt))))).
Proof.
  apply (usable_row_is_kept python_311 float_of_sample render_sample
           {[ 0 := twice_reported ]}
           (clean_and_analyze_crime_data python_311 float_of_sample render_sample 0
              {[ 0 := twice_reported ]}).2
           0 9 twice_reported metadata_twice).
  - reflexivity.
  - vm_compute. reflexivity.
  - unfold twice_reported. simpl. set_solver.
  - split; [reflexivity|]. split.
    { unfold sample_row. cbn [snd].
      repeat (apply Forall_cons; split; [left; by eexists|]).
      constructor. }
    split; [intros k [= <-]; by split|].
    split; [intros k [= <-]; done|].
    split; [intros k [= <-]; by repeat split|].
    split; [intros k [= <-]; by split|].
    split; [reflexivity|].
    intros k [= <-]. vm_compute. by eexists.
Defined.

End KeepClaims.

Module ErrorClaims.
Import Platform Calendar Regex Timestamp Frame Clean Validation TableSamples ErrorSamples.
Import RegexFacts HeapFacts CleanFacts FrameFacts CoordinateFacts CleanClaims.
Import ValidationFacts CleaningFacts KeepFacts.

Lemma to_float_rows_all float_of_str k (rs rs' : list row) (r : row) :
  to_float_rows float_of_str k rs = inr rs' → r ∈ rs →
  ∃ c, to_float float_of_str (cell_at k r) = inr c.
Proof.
  revert rs'. induction rs as [|a rs IH]; intros rs' H Hr;
    [by apply elem_of_nil in Hr|].
  simpl in H. destruct (to_float float_of_str (cell_at k a)) as [|ca] eqn:Ha;
    [done|].
  simpl in H. destruct (to_float_rows float_of_str k rs) as [|rs''] eqn:Hrs;
    [done|].
  apply elem_of_cons in Hr as [->|Hr]; [by exists ca|]. by eapply IH.
Qed.

Lemma cleaned_reads_latitudes pf float_of_str render raw out md (r : row) s :
  cleaned pf float_of_str render raw = inr (out, md) →
  r ∈ rows raw →
  (∀ k, index_of "crime_against_category" (normalize_label <$> columns raw)
        = Some k → cell_at k r ≠ CStr "-") →
  (∀ k, index_of "precinct" (normalize_label <$> columns raw) = Some k →
        cell_at k r ≠ CStr "-") →
  (∀ k, index_of "latitude" (normalize_label <$> columns raw) = Some k →
        cell_at k r = CStr s) →
  s ≠ "REDACTED" → s ≠ "-1.0" →
  is_Some (float_of_str s).
Proof.
  unfold cleaned. cbv zeta. intros H Hr Ucat Upre Ulat Hs1 Hs2.
  first_step. repeat next_step.
  destruct (where_ne_spec _ _ _ _ E) as (C0 & c & Hc & R0).
  destruct (where_ne_spec _ _ _ _ E0) as (C1 & p & Hp & R1).
  destruct (drop_marked_latitude_rows _ _ E2) as (C2 & j & Hj & R2).
  rewrite !dedup_columns in C0, Hc. simpl in C0, Hc.
  set (cols := normalize_label <$> columns raw) in *.
  rewrite C0 in C1, Hp. rewrite C1 in C2, Hj.
  (* the row that stands for [r] once the duplicates are gone *)
  destruct (dedup_same (relabel raw) r Hr) as (r0 & Hr0 & Hsame).
  rewrite <- dedup_dedup in Hr0.
  assert (∀ k, same_cell (cell_at k r) (cell_at k r0) = true) as Hcell
    by (intros k; by apply same_cells_at).
  assert (∀ k text, cell_at k r ≠ CStr text → cell_at k r0 ≠ CStr text) as Hne.
  { intros k text Hk Heq. specialize (Hcell k). rewrite Heq in Hcell.
    by apply same_cell_text in Hcell. }
  assert (cell_at j r0 = CStr s) as Hlat.
  { specialize (Hcell j). rewrite (Ulat j Hj) in Hcell.
    apply same_cell_plain in Hcell; [done|]. left. by eexists. }
  assert (r0 ∈ rows f) as H0.
  { eapply where_ne_keeps; [done|by rewrite !dedup_columns|done|].
    by apply Hne, Ucat. }
  assert (r0 ∈ rows f0) as H1.
  { eapply where_ne_keeps; [done|by rewrite C0|done|].
    by apply Hne, Upre. }
  assert (r0 ∈ rows f1) as H2.
  { eapply drop_marked_latitude_keeps; [done|by rewrite C1|done|..];
      rewrite Hlat; congruence. }
  unfold astype_float, position in E3. rewrite C2, Hj in E3. simpl in E3.
  destruct (to_float_rows float_of_str j (rows f1)) as [|rs'] eqn:Hrs; [done|].
  destruct (to_float_rows_all float_of_str j _ _ r0 Hrs H2) as [x Hx].
  rewrite Hlat in Hx. simpl in Hx.
  by destruct (float_of_str s).
Qed.

(** X14.  One latitude that is no number stops the cleaning: when a
    row of the raw table that passes the filters on the category and
    the precinct has a latitude text that is neither ["REDACTED"] nor
    ["-1.0"] and that [float] does not read, the asset raises and
    returns no table, whatever the other cells of the row and the
    other rows are. *)
Theorem unreadable_latitude_aborts
    (pf : platform) (float_of_str : string → option Z) (render : cell → string)
    (h : heap) (input : loc) (raw : frame) (r : row) (s : string) :
  h !! input = Some raw →
  r ∈ rows raw →
  (∀ k, index_of "crime_against_category" (normalize_label <$> columns raw)
        = Some k → cell_at k r ≠ CStr "-") →
  (∀ k, index_of "precinct" (normalize_label <$> columns raw) = Some k →
        cell_at k r ≠ CStr "-") →
  (∀ k, index_of "latitude" (normalize_label <$> columns raw) = Some k →
        cell_at k r = CStr s) →
  s ≠ "REDACTED" → s ≠ "-1.0" → float_of_str s = None →
  ∃ e, (clean_and_analyze_crime_data pf float_of_str render input h).1 = inl e.
Proof.
  intros Hin Hr Ucat Upre Ulat Hs1 Hs2 Hnone.
  destruct (clean_runs pf float_of_str render h input raw Hin) as [_ Hres].
  destruct (cleaned pf float_of_str render raw) as [e|[out md]] eqn:Hclean;
    [by exists e|].
  destruct (cleaned_reads_latitudes pf float_of_str render raw out md r s
              Hclean Hr Ucat Upre Ulat Hs1 Hs2) as [x Hx].
  congruence.
Qed.

Lemma unreadable_latitude_aborts_witness :
  ∃ e, (clean_and_analyze_crime_data python_311 float_of_sample render_sample 0
          {[ 0 := bad_latitude ]}).1 = inl e.
Proof.
  apply (unreadable_latitude_aborts python_311 float_of_sample render_sample
           {[ 0 := bad_latitude ]} 0 bad_latitude
           (1%Z, [CStr "B"; CNull; CStr "PROPERTY"; CStr "N"; CStr "-122.3";
                  CStr "north"])
           "north").
  - reflexivity.
  - unfold bad_latitude. simpl. set_solver.
  - by intros k [= <-].
  - by intros k [= <-].
  - by intros k [= <-].
  - done.
  - done.
  - reflexivity.
Defined.

End ErrorClaims.

Module DistributionClaims.
Import Platform Calendar Regex Timestamp Frame Clean Validation TableSamples.
Import RegexFacts HeapFacts CleanFacts FrameFacts CoordinateFacts CleanClaims.
Import ValidationFacts CleaningFacts.

Lemma count_value_sum (c : cell) (acc : list (cell * nat)) :
  sum_list (count_value c acc).*2 = S (sum_list acc.*2).
Proof.
  induction acc as [|[x n] acc IH]; [done|].
  cbn [count_value]. destruct (decide (x = c)).
  - rewrite !fmap_cons. by simpl.
  - rewrite !fmap_cons. cbn [sum_list_with]. rewrite IH. unfold id. simpl. lia.
Qed.

Lemma count_value_entries (P : cell → Prop) (c : cell) (acc : list (cell * nat)) :
  P c → Forall (λ e, P e.1 ∧ 0 < e.2) acc →
  Forall (λ e, P e.1 ∧ 0 < e.2) (count_value c acc).
Proof.
  intros Hc. induction 1 as [|[x n] acc [Hx Hn] Hacc IH]; simpl.
  - apply Forall_cons. split; [|constructor]. simpl. split; [done|lia].
  - destruct (decide (x = c)); apply Forall_cons; simpl in *.
    + split; [|done]. split; [done|lia].
    + by split.
Qed.

Lemma value_counts_fold (P : cell → Prop) (cells : list cell)
    (acc : list (cell * nat)) :
  Forall (λ c, isnull c = false ∧ P c) cells →
  Forall (λ e, P e.1 ∧ 0 < e.2) acc →
  sum_list (fold_left (λ acc c, if isnull c then acc else count_value c acc)
              cells acc).*2
  = sum_list acc.*2 + length cells
  ∧ Forall (λ e, P e.1 ∧ 0 < e.2)
      (fold_left (λ acc c, if isnull c then acc else count_value c acc)
         cells acc).
Proof.
  intros Hcells. revert acc.
  induction Hcells as [|c cells [Hn Hc] _ IH]; intros acc Hacc;
    cbn [fold_left length].
  - split; [lia|done].
  - rewrite Hn.
    destruct (IH (count_value c acc) (count_value_entries P c acc Hc Hacc))
      as [Hsum Hall].
    split; [|done]. rewrite Hsum, count_value_sum. lia.
Qed.

Lemma cleaned_complete pf float_of_str render raw out md :
  cleaned pf float_of_str render raw = inr (out, md) →
  ∃ c, index_of "crime_against_category" (columns out) = Some c
    ∧ rows_after_cleaning md = length (rows out)
    ∧ ∀ r : row, r ∈ rows out →
        isnull (cell_at c r) = false
        ∧ cell_at c r ≠ CStr "-" ∧ cell_at c r ≠ CStr "NOT_A_CRIME".
Proof.
  intros Hclean.
  apply cleaned_stages in Hclean
    as (df & c & p & Hcols & Hc & Hp & -> & Hn & _ & _ & Hrows).
  exists c. rewrite validate_dates_columns. split; [done|]. split; [done|].
  intros r' Hr'.
  apply validated_row in Hr' as (r & Hr & Hcase); [|intros r0 Hr0; by apply Hrows].
  destruct (Hrows r Hr) as (Hfull & Hc1 & Hc2 & _).
  assert (isnull (cell_at c r) = false) as Hnn
    by (apply Hfull; by eapply index_of_lt).
  destruct Hcase as [[_ ->]|(q & s & Hq & Hlen & _ & ->)]; [done|].
  assert (c ≠ q)
    by (by eapply (index_of_distinct "crime_against_category" "offense_date")).
  by rewrite !cell_at_set_ne.
Qed.

Lemma cleaned_distribution pf float_of_str render raw out md :
  cleaned pf float_of_str render raw = inr (out, md) →
  ∃ c, index_of "crime_against_category" (columns out) = Some c
       ∧ distribution_after md = value_counts (cell_at c <$> rows out).
Proof.
  unfold cleaned. cbv zeta. intros H. first_step. repeat next_step.
  destruct (validate_dates pf render f5) as [t df] eqn:Ev.
  next_step. injection H as <- <-. simpl.
  unfold counts, position in E7.
  destruct (index_of "crime_against_category" (columns df)) as [c|]; [|done].
  simpl in E7. injection E7 as <-. by exists c.
Qed.

(** X15.  The distribution of categories that the cleaning reports for
    the cleaned table adds up: its counts are positive and their sum is
    the number of rows reported, and it lists neither ["-"] nor
    ["NOT_A_CRIME"] nor a missing value. *)
Theorem distribution_after_adds_up
    (pf : platform) (float_of_str : string → option Z) (render : cell → string)
    (h h' : heap) (input l' : loc) (raw : frame) (md : metadata) :
  h !! input = Some raw →
  clean_and_analyze_crime_data pf float_of_str render input h = (inr (l', md), h') →
  sum_list (distribution_after md).*2 = rows_after_cleaning md
  ∧ ∀ x n, (x, n) ∈ distribution_after md →
      0 < n ∧ isnull x = false ∧ x ≠ CStr "-" ∧ x ≠ CStr "NOT_A_CRIME".
Proof.
  intros Hin Hrun.
  destruct (clean_result pf float_of_str render h h' input l' raw md Hin Hrun)
    as (out & Hclean & Hout & _).
  destruct (cleaned_distribution _ _ _ _ _ _ Hclean) as (c & Hc & ->).
  destruct (cleaned_complete _ _ _ _ _ _ Hclean) as (c' & Hc' & Hn & Hrows).
  rewrite Hc in Hc'. injection Hc' as <-. rewrite Hn.
  destruct (value_counts_fold
              (λ x, isnull x = false ∧ x ≠ CStr "-" ∧ x ≠ CStr "NOT_A_CRIME")
              (cell_at c <$> rows out) []) as [Hsum Hall].
  { apply Forall_fmap, Forall_forall. intros r Hr. simpl.
    destruct (Hrows r Hr) as (Hnn & H1 & H2). done. }
  { constructor. }
  unfold value_counts. split.
  - rewrite Hsum. simpl. by rewrite length_fmap.
  - intros x n Hin'. rewrite Forall_forall in Hall.
    destruct (Hall _ Hin') as [(? & ? & ?) ?]. done.
Qed.

Lemma distribution_after_adds_up_witness :
  sum_list (distribution_after metadata_three).*2
  = rows_after_cleaning metadata_three
  ∧ ∀ x n, (x, n) ∈ distribution_after metadata_three →
      0 < n ∧ isnull x = false ∧ x ≠ CStr "-" ∧ x ≠ CStr "NOT_A_CRIME".
Proof.
  apply (distribution_after_adds_up python_311 float_of_sample render_sample
           {[ 0 := three_records ]}
           (clean_and_analyze_crime_data python_311 float_of_sample render_sample 0
              {[ 0 := three_records ]}).2
           0 8 three_records metadata_three).
  - reflexivity.
  - vm_compute. reflexivity.
Defined.

End DistributionClaims.

(* ================================================================== *)
(** * The texts the validation accepts and rewrites *)
(* ================================================================== *)

Module StampFormFacts.
Import Platform Calendar Regex Timestamp Validation Stamps.
Import CalendarFacts RegexFacts ValidationFacts.

Lemma head_seq r1 r2 s g1 s1 g2 s2 :
  head (run r1 s) = Some (g1, s1) → head (run r2 s1) = Some (g2, s2) →
  head (run (Seq r1 r2) s) = Some (g1 ++ g2, s2).
Proof.
  cbn [run]. destruct (run r1 s) as [|[g1' s1'] l1]; [done|].
  intros [= -> ->]. rewrite bind_cons. cbn [fst snd].
  destruct (run r2 s1) as [|[g2' s2'] l2]; [done|]. by intros [= -> ->].
Qed.

Lemma head_lit c s : head (run (Lit c) (String c s)) = Some ([], s).
Proof. simpl. by rewrite Ascii.eqb_refl. Qed.

Lemma head_d n s : head (run d (String (digit_char n) s)) = Some ([], s).
Proof. simpl. by rewrite is_digit_digit. Qed.

Lemma length_append (a b : string) :
  String.length (a +:+ b) = String.length a + String.length b.
Proof. induction a as [|c a IH]; simpl; [done|]. by rewrite IH. Qed.

Lemma consumed_append (a b : string) :
  consumed (a +:+ b) (String.length (a +:+ b) - String.length b) = a.
Proof.
  rewrite length_append.
  replace (String.length a + String.length b - String.length b)
    with (String.length a) by lia.
  induction a as [|c a IH]; simpl; [by destruct b|]. by rewrite IH.
Qed.

Lemma head_group name r (a b : string) g :
  head (run r (a +:+ b)) = Some (g, b) →
  head (run (Group name r) (a +:+ b)) = Some (g ++ [(name, a)], b).
Proof.
  cbn [run]. destruct (run r (a +:+ b)) as [|[g' b'] l]; [done|].
  intros [= -> ->]. simpl. by rewrite consumed_append.
Qed.

Lemma is_space_digit n : is_space (digit_char n) = false.
Proof.
  unfold is_space. rewrite code_digit.
  pose proof (Z.mod_pos_bound n 10 ltac:(lia)).
  repeat match goal with
         | |- context [(?a <=? ?b)%Z] => destruct (Z.leb_spec a b)
         | |- context [(?a =? ?b)%Z] => destruct (Z.eqb_spec a b)
         end; simpl; try done; lia.
Qed.

Lemma head_space n s :
  head (run (Plus is_space) (String " " (String (digit_char n) s)))
  = Some ([], String (digit_char n) s).
Proof. cbn [run plus_class]. rewrite is_space_digit. reflexivity. Qed.

Lemma head_month m s :
  (1 ≤ m ≤ 12)%Z →
  head (run (alt [Seq (Lit "1") (rng "0" "2"); Seq (Lit "0") (rng "1" "9");
                  rng "1" "9"])
            (String (digit_char (m / 10)) (String (digit_char m) s)))
  = Some ([], s).
Proof.
  intros Hm. revert s. pattern m.
  apply (range_cases _ 1%Z 12%Z); [|lia].
  repeat (constructor; [intros ?; vm_compute; reflexivity|]). constructor.
Qed.

Lemma head_day n s :
  (1 ≤ n ≤ 31)%Z →
  head (run (alt [Seq (Lit "3") (rng "0" "1"); Seq (rng "1" "2") d;
                  Seq (Lit "0") (rng "1" "9"); rng "1" "9";
                  Seq (Lit " ") (rng "1" "9")])
            (String (digit_char (n / 10)) (String (digit_char n) s)))
  = Some ([], s).
Proof.
  intros Hm. revert s. pattern n.
  apply (range_cases _ 1%Z 31%Z); [|lia].
  repeat (constructor; [intros ?; vm_compute; reflexivity|]). constructor.
Qed.

Lemma head_hour n s :
  (0 ≤ n ≤ 23)%Z →
  head (run (alt [Seq (Lit "2") (rng "0" "3"); Seq (rng "0" "1") d; d])
            (String (digit_char (n / 10)) (String (digit_char n) s)))
  = Some ([], s).
Proof.
  intros Hm. revert s. pattern n.
  apply (range_cases _ 0%Z 24%Z); [|lia].
  repeat (constructor; [intros ?; vm_compute; reflexivity|]). constructor.
Qed.

Lemma head_minute n s :
  (0 ≤ n ≤ 59)%Z →
  head (run (alt [Seq (rng "0" "5") d; d])
            (String (digit_char (n / 10)) (String (digit_char n) s)))
  = Some ([], s).
Proof.
  intros Hm. revert s. pattern n.
  apply (range_cases _ 0%Z 60%Z); [|lia].
  repeat (constructor; [intros ?; vm_compute; reflexivity|]). constructor.
Qed.

Lemma head_second n s :
  (0 ≤ n ≤ 59)%Z →
  head (run (alt [Seq (Lit "6") (rng "0" "1"); Seq (rng "0" "5") d; d])
            (String (digit_char (n / 10)) (String (digit_char n) s)))
  = Some ([], s).
Proof.
  intros Hm. revert s. pattern n.
  apply (range_cases _ 0%Z 60%Z); [|lia].
  repeat (constructor; [intros ?; vm_compute; reflexivity|]). constructor.
Qed.

Lemma int_of_pad2 n : (0 ≤ n ≤ 99)%Z → int_of (pad2 n) = n.
Proof.
  intros Hn. unfold int_of, pad2. simpl.
  rewrite !is_digit_digit, !code_digit.
  pose proof (Z.div_mod n 10 ltac:(lia)).
  pose proof (Z.mod_pos_bound n 10 ltac:(lia)).
  assert (0 ≤ n / 10 < 10)%Z.
  { split; [apply Z.div_pos; lia|apply Z.div_lt_upper_bound; lia]. }
  rewrite (Z.mod_small (n / 10) 10) by lia. lia.
Qed.

Lemma int_of_pad4 n : (0 ≤ n ≤ 9999)%Z → int_of (pad4 n) = n.
Proof.
  intros Hn. unfold int_of, pad4, pad2. simpl.
  rewrite !is_digit_digit, !code_digit.
  pose proof (Z.div_mod n 10 ltac:(lia)).
  pose proof (Z.mod_pos_bound n 10 ltac:(lia)).
  pose proof (Z.div_mod (n / 10) 10 ltac:(lia)).
  pose proof (Z.mod_pos_bound (n / 10) 10 ltac:(lia)).
  pose proof (Z.div_mod (n / 100) 10 ltac:(lia)).
  pose proof (Z.mod_pos_bound (n / 100) 10 ltac:(lia)).
  assert (n / 10 / 10 = n / 100)%Z as E1 by (rewrite Z.div_div by lia; done).
  assert (n / 100 / 10 = n / 1000)%Z as E2 by (rewrite Z.div_div by lia; done).
  assert (0 ≤ n / 1000 < 10)%Z.
  { split; [apply Z.div_pos; lia|apply Z.div_lt_upper_bound; lia]. }
  rewrite (Z.mod_small (n / 1000) 10) by lia. lia.
Qed.

End StampFormFacts.

Module StampForms.
Import Platform Calendar Regex Timestamp Validation Stamps.
Import CalendarFacts RegexFacts ValidationFacts StampFormFacts.

Lemma head_group2 name r c1 c2 s g :
  head (run r (String c1 (String c2 s))) = Some (g, s) →
  head (run (Group name r) (String c1 (String c2 s)))
  = Some (g ++ [(name, String c1 (String c2 EmptyString))], s).
Proof. apply (head_group name r (String c1 (String c2 EmptyString)) s). Qed.

Lemma head_Y y s :
  head (run directive_Y
          (String (digit_char (y / 1000)) (String (digit_char (y / 100))
          (String (digit_char (y / 10)) (String (digit_char y) s)))))
  = Some ([("Y", pad4 y)], s).
Proof.
  unfold directive_Y.
  apply (head_group "Y" _ (pad4 y) s []).
  change (pad4 y +:+ s)
    with (String (digit_char (y / 1000)) (String (digit_char (y / 100))
         (String (digit_char (y / 10)) (String (digit_char y) s)))).
  cbn [seq].
  repeat (eapply (head_seq _ _ _ [] _ []); [apply head_d|]). apply head_d.
Qed.

Lemma head_m m s :
  (1 ≤ m ≤ 12)%Z →
  head (run directive_m (String (digit_char (m / 10)) (String (digit_char m) s)))
  = Some ([("m", pad2 m)], s).
Proof. intros H. apply (head_group2 "m" _ _ _ s []). by apply head_month. Qed.

Lemma head_dd n s :
  (1 ≤ n ≤ 31)%Z →
  head (run directive_d (String (digit_char (n / 10)) (String (digit_char n) s)))
  = Some ([("d", pad2 n)], s).
Proof. intros H. apply (head_group2 "d" _ _ _ s []). by apply head_day. Qed.

Lemma head_H n s :
  (0 ≤ n ≤ 23)%Z →
  head (run directive_H (String (digit_char (n / 10)) (String (digit_char n) s)))
  = Some ([("H", pad2 n)], s).
Proof. intros H. apply (head_group2 "H" _ _ _ s []). by apply head_hour. Qed.

Lemma head_M n s :
  (0 ≤ n ≤ 59)%Z →
  head (run directive_M (String (digit_char (n / 10)) (String (digit_char n) s)))
  = Some ([("M", pad2 n)], s).
Proof. intros H. apply (head_group2 "M" _ _ _ s []). by apply head_minute. Qed.

Lemma head_S n s :
  (0 ≤ n ≤ 59)%Z →
  head (run directive_S (String (digit_char (n / 10)) (String (digit_char n) s)))
  = Some ([("S", pad2 n)], s).
Proof. intros H. apply (head_group2 "S" _ _ _ s []). by apply head_second. Qed.

Lemma space_form_chars dt :
  space_form dt
  = String (digit_char (year (dt_date dt) / 1000))
     (String (digit_char (year (dt_date dt) / 100))
     (String (digit_char (year (dt_date dt) / 10))
     (String (digit_char (year (dt_date dt)))
     (String "-"
     (String (digit_char (month (dt_date dt) / 10))
     (String (digit_char (month (dt_date dt)))
     (String "-"
     (String (digit_char (day (dt_date dt) / 10))
     (String (digit_char (day (dt_date dt)))
     (String " "
     (String (digit_char (hour dt / 10)) (String (digit_char (hour dt))
     (String ":"
     (String (digit_char (minute dt / 10)) (String (digit_char (minute dt))
     (String ":"
     (String (digit_char (second dt / 10)) (String (digit_char (second dt))
     EmptyString)))))))))))))))))).
Proof. reflexivity. Qed.

Lemma t_form_chars dt :
  t_form dt
  = String (digit_char (year (dt_date dt) / 1000))
     (String (digit_char (year (dt_date dt) / 100))
     (String (digit_char (year (dt_date dt) / 10))
     (String (digit_char (year (dt_date dt)))
     (String "-"
     (String (digit_char (month (dt_date dt) / 10))
     (String (digit_char (month (dt_date dt)))
     (String "-"
     (String (digit_char (day (dt_date dt) / 10))
     (String (digit_char (day (dt_date dt)))
     (String "T"
     (String (digit_char (hour dt / 10)) (String (digit_char (hour dt))
     (String ":"
     (String (digit_char (minute dt / 10)) (String (digit_char (minute dt))
     (String ":"
     (String (digit_char (second dt / 10)) (String (digit_char (second dt))
     EmptyString)))))))))))))))))).
Proof. reflexivity. Qed.

Lemma group_fields (ty tm td tH tM tS : string) :
  let g := [("Y", ty); ("m", tm); ("d", td); ("H", tH); ("M", tM); ("S", tS)] in
  group g "Y" = int_of ty ∧ group g "m" = int_of tm ∧ group g "d" = int_of td
  ∧ group g "H" = int_of tH ∧ group g "M" = int_of tM ∧ group g "S" = int_of tS.
Proof. repeat split. Qed.

Lemma well_formed_bounds dt :
  well_formed dt →
  (1 ≤ year (dt_date dt) ≤ 9999 ∧ 1 ≤ month (dt_date dt) ≤ 12
   ∧ 1 ≤ day (dt_date dt) ≤ 31
   ∧ 0 ≤ hour dt ≤ 23 ∧ 0 ≤ minute dt ≤ 59 ∧ 0 ≤ second dt ≤ 59)%Z.
Proof.
  intros (Hd & Hh & Hm & Hs).
  apply valid_date_spec in Hd as [(Hy & Hmo & Hda) Hy'].
  pose proof (days_in_month_bounds (year (dt_date dt)) (month (dt_date dt))).
  lia.
Qed.

(** The format with a blank reads the text of a timestamp back. *)
Lemma strptime_space dt :
  well_formed dt → strptime format_space (space_form dt) = Some dt.
Proof.
  intros Hwf. pose proof (well_formed_bounds dt Hwf) as (Hy & Hmo & Hda & Hh & Hmi & Hse).
  assert (re_match format_space (space_form dt)
          = Some ([("Y", pad4 (year (dt_date dt))); ("m", pad2 (month (dt_date dt)));
                   ("d", pad2 (day (dt_date dt))); ("H", pad2 (hour dt));
                   ("M", pad2 (minute dt)); ("S", pad2 (second dt))],
                  EmptyString)) as Hmatch.
  { rewrite space_form_chars. unfold re_match, format_space. cbn [seq].
    eapply (head_seq _ _ _ [_] _ _); [apply head_Y|].
    eapply (head_seq _ _ _ [] _ _); [apply head_lit|].
    eapply (head_seq _ _ _ [_] _ _); [by apply head_m|].
    eapply (head_seq _ _ _ [] _ _); [apply head_lit|].
    eapply (head_seq _ _ _ [_] _ _); [by apply head_dd|].
    eapply (head_seq _ _ _ [] _ _); [apply head_space|].
    eapply (head_seq _ _ _ [_] _ _); [by apply head_H|].
    eapply (head_seq _ _ _ [] _ _); [apply head_lit|].
    eapply (head_seq _ _ _ [_] _ _); [by apply head_M|].
    eapply (head_seq _ _ _ [] _ _); [apply head_lit|].
    by apply head_S. }
  unfold strptime. rewrite Hmatch.
  destruct (group_fields (pad4 (year (dt_date dt))) (pad2 (month (dt_date dt)))
              (pad2 (day (dt_date dt))) (pad2 (hour dt)) (pad2 (minute dt))
              (pad2 (second dt))) as (-> & -> & -> & -> & -> & ->).
  rewrite int_of_pad4, !int_of_pad2 by lia.
  destruct Hwf as (Hd & Hh' & Hm' & Hs'). cbn [dt_date hour minute second].
  destruct dt as [[y mo da] h mi se]. simpl in *. rewrite Hd.
  repeat match goal with
         | |- context [(?a <=? ?b)%Z] =>
             destruct (Z.leb_spec a b); [|lia]
         end.
  done.
Qed.

Lemma run_seq_none r1 r2 s g1 s1 :
  run r1 s = [(g1, s1)] → run r2 s1 = [] → run (Seq r1 r2) s = [].
Proof. intros H1 H2. cbn [run]. rewrite H1, bind_cons. simpl. by rewrite H2. Qed.

Lemma run_d n s : run d (String (digit_char n) s) = [([], s)].
Proof. simpl. by rewrite is_digit_digit. Qed.

Lemma run_lit c s : run (Lit c) (String c s) = [([], s)].
Proof. simpl. by rewrite Ascii.eqb_refl. Qed.

Lemma run_month m s :
  (1 ≤ m ≤ 12)%Z →
  run (alt [Seq (Lit "0") (rng "1" "9"); Seq (Lit "1") (rng "0" "2")])
      (String (digit_char (m / 10)) (String (digit_char m) s))
  = [([], s)].
Proof.
  intros Hm. revert s. pattern m.
  apply (range_cases _ 1%Z 12%Z); [|lia].
  repeat (constructor; [intros ?; vm_compute; reflexivity|]). constructor.
Qed.

Lemma run_day n s :
  (1 ≤ n ≤ 31)%Z →
  run (alt [Seq (Lit "0") (rng "1" "9"); Seq (rng "1" "2") d;
            Seq (Lit "3") (rng "0" "1")])
      (String (digit_char (n / 10)) (String (digit_char n) s))
  = [([], s)].
Proof.
  intros Hm. revert s. pattern n.
  apply (range_cases _ 1%Z 31%Z); [|lia].
  repeat (constructor; [intros ?; vm_compute; reflexivity|]). constructor.
Qed.

(** The pattern wants the letter [T] where this text has a blank. *)
Lemma space_form_not_iso dt : well_formed dt → iso_match (space_form dt) = false.
Proof.
  intros Hwf. pose proof (well_formed_bounds dt Hwf) as (Hy & Hmo & Hda & _).
  unfold iso_match, re_match.
  assert (run iso_8601_pattern (space_form dt) = []) as ->; [|done].
  rewrite space_form_chars. unfold iso_8601_pattern. cbn [seq].
  repeat (eapply run_seq_none; [apply run_d|]).
  eapply run_seq_none; [apply run_lit|].
  eapply run_seq_none; [by apply run_month|].
  eapply run_seq_none; [apply run_lit|].
  eapply run_seq_none; [by apply run_day|].
  reflexivity.
Qed.

Lemma t_form_iso dt : well_formed dt → iso_match (t_form dt) = true.
Proof.
  intros Hwf. pose proof (well_formed_bounds dt Hwf) as (Hy & Hmo & Hda & Hh & Hmi & Hse).
  assert (matches iso_8601_pattern (t_form dt) EmptyString) as [g Hg].
  { rewrite t_form_chars. unfold iso_8601_pattern. cbn [seq].
    repeat (eapply matches_seq; [apply matches_d|]).
    eapply matches_seq; [apply matches_lit|].
    eapply matches_seq; [by apply matches_month|].
    eapply matches_seq; [apply matches_lit|].
    eapply matches_seq; [by apply matches_day|].
    eapply matches_seq; [apply matches_lit|].
    eapply matches_seq; [by apply matches_hour|].
    eapply matches_seq; [apply matches_lit|].
    eapply matches_seq; [by apply matches_sixty|].
    eapply matches_seq; [apply matches_lit|].
    eapply matches_seq; [by apply matches_sixty|].
    eexists. vm_compute. repeat constructor. }
  unfold iso_match, re_match. destruct (run iso_8601_pattern (t_form dt)).
  - by apply elem_of_nil in Hg.
  - done.
Qed.

Lemma validate_fold_valid (pf : platform) (vals : list string) (t : tally) :
  Forall (λ s, iso_match s = true) vals →
  fold_left (validate_one pf) vals t
  = mktally (valid_dt t + length vals) (invalid_dt t)
            (corrected_dates t ++ (Some <$> vals)).
Proof.
  intros Hvals. revert t. induction Hvals as [|s vals Hs _ IH]; intros t.
  - simpl. rewrite Nat.add_0_r, app_nil_r. by destruct t.
  - cbn [fold_left]. rewrite IH. unfold validate_one. rewrite Hs. simpl.
    rewrite <- app_assoc. f_equal. lia.
Qed.

End StampForms.

Module FractionFacts.
Import Platform Calendar Regex Timestamp Validation Stamps.
Import CalendarFacts RegexFacts ValidationFacts StampFormFacts StampForms.

Lemma run_seq_fail r1 r2 s :
  (∀ m1, m1 ∈ run r1 s → run r2 m1.2 = []) → run (Seq r1 r2) s = [].
Proof.
  cbn [run]. induction (run r1 s) as [|m1 l IH]; intros H; [done|].
  rewrite bind_cons. pose proof (H m1 ltac:(left)) as E.
  unfold captures in *. rewrite E, IH; [done|].
  intros m Hm. apply H. by right.
Qed.

Lemma run_seq_one r1 r2 s g1 s1 :
  run r1 s = [(g1, s1)] → run r2 s1 = [] → run (Seq r1 r2) s = [].
Proof.
  intros H1 H2. apply run_seq_fail. rewrite H1.
  intros m ->%list_elem_of_singleton. done.
Qed.

Lemma run_group_rest name r s m :
  m ∈ run (Group name r) s → ∃ m0, m0 ∈ run r s ∧ m.2 = m0.2.
Proof.
  cbn [run]. intros (m0 & -> & Hm0)%list_elem_of_fmap. by exists m0.
Qed.

Lemma run_seq_single r1 r2 s g1 s1 :
  run r1 s = [(g1, s1)] →
  run (Seq r1 r2) s = (λ m2, (g1 ++ m2.1, m2.2)) <$> run r2 s1.
Proof. intros H1. cbn [run]. rewrite H1, bind_cons. simpl. apply app_nil_r. Qed.

Lemma run_Y y s m :
  m ∈ run directive_Y
        (String (digit_char (y / 1000)) (String (digit_char (y / 100))
        (String (digit_char (y / 10)) (String (digit_char y) s)))) →
  m.2 = s.
Proof.
  intros (m0 & Hm0 & ->)%run_group_rest. cbn [seq] in Hm0.
  rewrite (run_seq_single _ _ _ _ _ (run_d _ _)) in Hm0.
  rewrite (run_seq_single _ _ _ _ _ (run_d _ _)) in Hm0.
  rewrite (run_seq_single _ _ _ _ _ (run_d _ _)) in Hm0.
  rewrite run_d in Hm0. simpl in Hm0.
  by apply list_elem_of_singleton in Hm0 as ->.
Qed.

Lemma digit_is_no_sign n : Ascii.eqb "-" (digit_char n) = false.
Proof.
  apply Ascii.eqb_neq. intros H. apply (f_equal code) in H.
  rewrite code_digit in H. pose proof (Z.mod_pos_bound n 10 ltac:(lia)).
  vm_compute in H. revert H. change (45 = 48 + n mod 10 → False)%Z. lia.
Qed.

Lemma digit_is_no_T n :
  Ascii.eqb (digit_char n) "T" || Ascii.eqb (digit_char n) "t" = false.
Proof.
  apply orb_false_iff. split; apply Ascii.eqb_neq; intros H;
    apply (f_equal code) in H; rewrite code_digit in H;
    pose proof (Z.mod_pos_bound n 10 ltac:(lia)); vm_compute in H; revert H.
  - change (48 + n mod 10 = 84 → False)%Z. lia.
  - change (48 + n mod 10 = 116 → False)%Z. lia.
Qed.

Ltac rest_cases :=
  let s := fresh "s" in
  let m0 := fresh "m0" in
  let H := fresh "H" in
  intros s m0 H; vm_compute in H; vm_compute;
  repeat (apply elem_of_cons in H as [->|H]; [by (left + right)|]);
  by apply elem_of_nil in H.

Lemma rests_m m s x :
  (1 ≤ m ≤ 12)%Z →
  x ∈ run directive_m (String (digit_char (m / 10)) (String (digit_char m) s)) →
  x.2 = s ∨ x.2 = String (digit_char m) s.
Proof.
  intros Hm (m0 & Hm0 & ->)%run_group_rest. revert s m0 Hm0. pattern m.
  apply (range_cases _ 1%Z 12%Z); [|lia].
  repeat (constructor; [rest_cases|]). constructor.
Qed.

Lemma rests_d n s x :
  (1 ≤ n ≤ 31)%Z →
  x ∈ run directive_d (String (digit_char (n / 10)) (String (digit_char n) s)) →
  x.2 = s ∨ x.2 = String (digit_char n) s.
Proof.
  intros Hm (m0 & Hm0 & ->)%run_group_rest. revert s m0 Hm0. pattern n.
  apply (range_cases _ 1%Z 31%Z); [|lia].
  repeat (constructor; [rest_cases|]). constructor.
Qed.

(** The text of the timestamp, and what follows it. *)
Lemma space_tail_chars dt tail :
  space_form dt +:+ tail
  = String (digit_char (year (dt_date dt) / 1000))
     (String (digit_char (year (dt_date dt) / 100))
     (String (digit_char (year (dt_date dt) / 10))
     (String (digit_char (year (dt_date dt)))
     (String "-"
     (String (digit_char (month (dt_date dt) / 10))
     (String (digit_char (month (dt_date dt)))
     (String "-"
     (String (digit_char (day (dt_date dt) / 10))
     (String (digit_char (day (dt_date dt)))
     (String " "
     (String (digit_char (hour dt / 10)) (String (digit_char (hour dt))
     (String ":"
     (String (digit_char (minute dt / 10)) (String (digit_char (minute dt))
     (String ":"
     (String (digit_char (second dt / 10)) (String (digit_char (second dt))
     tail)))))))))))))))))).
Proof. reflexivity. Qed.

Lemma space_tail_not_iso dt tail :
  well_formed dt → iso_match (space_form dt +:+ tail) = false.
Proof.
  intros Hwf. pose proof (well_formed_bounds dt Hwf) as (Hy & Hmo & Hda & _).
  unfold iso_match, re_match.
  assert (run iso_8601_pattern (space_form dt +:+ tail) = []) as ->; [|done].
  rewrite space_tail_chars. unfold iso_8601_pattern. cbn [seq].
  repeat (eapply run_seq_none; [apply run_d|]).
  eapply run_seq_none; [apply run_lit|].
  eapply run_seq_none; [by apply run_month|].
  eapply run_seq_none; [apply run_lit|].
  eapply run_seq_none; [by apply run_day|].
  reflexivity.
Qed.

Lemma space_tail_match dt tail :
  well_formed dt →
  ∃ g, re_match format_space (space_form dt +:+ tail) = Some (g, tail).
Proof.
  intros Hwf.
  pose proof (well_formed_bounds dt Hwf) as (Hy & Hmo & Hda & Hh & Hmi & Hse).
  eexists. rewrite space_tail_chars. unfold re_match, format_space. cbn [seq].
  eapply (head_seq _ _ _ [_] _ _); [apply head_Y|].
  eapply (head_seq _ _ _ [] _ _); [apply head_lit|].
  eapply (head_seq _ _ _ [_] _ _); [by apply head_m|].
  eapply (head_seq _ _ _ [] _ _); [apply head_lit|].
  eapply (head_seq _ _ _ [_] _ _); [by apply head_dd|].
  eapply (head_seq _ _ _ [] _ _); [apply head_space|].
  eapply (head_seq _ _ _ [_] _ _); [by apply head_H|].
  eapply (head_seq _ _ _ [] _ _); [apply head_lit|].
  eapply (head_seq _ _ _ [_] _ _); [by apply head_M|].
  eapply (head_seq _ _ _ [] _ _); [apply head_lit|].
  by apply head_S.
Qed.

(** The format with the letter [T] finds no way through a text that
    has a blank there. *)
Lemma space_tail_no_T dt tail :
  well_formed dt → run format_T (space_form dt +:+ tail) = [].
Proof.
  intros Hwf. pose proof (well_formed_bounds dt Hwf) as (Hy & Hmo & Hda & _).
  rewrite space_tail_chars. unfold format_T. cbn [seq].
  apply run_seq_fail. intros m1 ->%run_Y.
  eapply run_seq_one; [apply run_lit|].
  apply run_seq_fail. intros m2 Hm2.
  destruct (rests_m _ _ _ Hmo Hm2) as [-> | ->].
  2:{ cbn [run]. by rewrite digit_is_no_sign. }
  eapply run_seq_one; [apply run_lit|].
  apply run_seq_fail. intros m3 Hm3.
  destruct (rests_d _ _ _ Hda Hm3) as [-> | ->].
  - reflexivity.
  - cbn [run letter_T]. by rewrite digit_is_no_T.
Qed.

End FractionFacts.

Module TextFacts.
Import Platform Calendar Regex Timestamp Validation Stamps.
Import CalendarFacts RegexFacts ValidationFacts StampFormFacts StampForms.
Import FractionFacts.

Lemma head_T s : head (run letter_T (String "T" s)) = Some ([], s).
Proof. reflexivity. Qed.

(** The format with the letter [T] reads the text with a [T] back. *)
Lemma strptime_T dt :
  well_formed dt → strptime format_T (t_form dt) = Some dt.
Proof.
  intros Hwf. pose proof (well_formed_bounds dt Hwf) as (Hy & Hmo & Hda & Hh & Hmi & Hse).
  assert (re_match format_T (t_form dt)
          = Some ([("Y", pad4 (year (dt_date dt))); ("m", pad2 (month (dt_date dt)));
                   ("d", pad2 (day (dt_date dt))); ("H", pad2 (hour dt));
                   ("M", pad2 (minute dt)); ("S", pad2 (second dt))],
                  EmptyString)) as Hmatch.
  { rewrite t_form_chars. unfold re_match, format_T. cbn [seq].
    eapply (head_seq _ _ _ [_] _ _); [apply head_Y|].
    eapply (head_seq _ _ _ [] _ _); [apply head_lit|].
    eapply (head_seq _ _ _ [_] _ _); [by apply head_m|].
    eapply (head_seq _ _ _ [] _ _); [apply head_lit|].
    eapply (head_seq _ _ _ [_] _ _); [by apply head_dd|].
    eapply (head_seq _ _ _ [] _ _); [apply head_T|].
    eapply (head_seq _ _ _ [_] _ _); [by apply head_H|].
    eapply (head_seq _ _ _ [] _ _); [apply head_lit|].
    eapply (head_seq _ _ _ [_] _ _); [by apply head_M|].
    eapply (head_seq _ _ _ [] _ _); [apply head_lit|].
    by apply head_S. }
  unfold strptime. rewrite Hmatch.
  destruct (group_fields (pad4 (year (dt_date dt))) (pad2 (month (dt_date dt)))
              (pad2 (day (dt_date dt))) (pad2 (hour dt)) (pad2 (minute dt))
              (pad2 (second dt))) as (-> & -> & -> & -> & -> & ->).
  rewrite int_of_pad4, !int_of_pad2 by lia.
  destruct Hwf as (Hd & Hh' & Hm' & Hs'). cbn [dt_date hour minute second].
  destruct dt as [[y mo da] h mi se]. simpl in *. rewrite Hd.
  repeat match goal with
         | |- context [(?a <=? ?b)%Z] =>
             destruct (Z.leb_spec a b); [|lia]
         end.
  done.
Qed.

(** *** A year below 1000 that is not padded *)

Lemma run_d_sign s : run d (String "-" s) = [].
Proof. reflexivity. Qed.

Lemma run_seq_d_sign r s : run (Seq d r) (String "-" s) = [].
Proof. reflexivity. Qed.

Lemma run_seq_d_digit r n s :
  run (Seq d r) (String (digit_char n) s)
  = (λ m2, ([] ++ m2.1, m2.2)) <$> run r s.
Proof. apply run_seq_single, run_d. Qed.

Lemma append_String c (s t : string) : String c s +:+ t = String c (s +:+ t).
Proof. reflexivity. Qed.

Lemma append_Empty (t : string) : EmptyString +:+ t = t.
Proof. reflexivity. Qed.

(** A pattern that begins with four digits matches no text that
    begins with the plain text of a year below 1000 and a hyphen. *)
Lemma four_digits_short r y rest :
  (y < 1000)%Z →
  run (Seq d (Seq d (Seq d (Seq d r)))) (plain_year y +:+ String "-" rest) = [].
Proof.
  intros Hy. unfold plain_year.
  repeat match goal with
         | |- context [(?a <? ?b)%Z] => destruct (Z.ltb_spec a b)
         end; try lia; unfold pad2; rewrite !append_String, append_Empty;
    rewrite ?run_seq_d_digit, ?run_seq_d_sign; reflexivity.
Qed.

Lemma directive_Y_short y rest :
  (y < 1000)%Z → run directive_Y (plain_year y +:+ String "-" rest) = [].
Proof.
  intros Hy. unfold directive_Y, plain_year. cbn [seq].
  assert (∀ name r s, run r s = [] → run (Group name r) s = []) as Hgroup
    by (intros name r s H; cbn [run]; by rewrite H).
  apply Hgroup.
  repeat match goal with
         | |- context [(?a <? ?b)%Z] => destruct (Z.ltb_spec a b)
         end; try lia; unfold pad2; rewrite !append_String, append_Empty;
    rewrite ?run_seq_d_digit, ?run_seq_d_sign, ?run_d_sign; reflexivity.
Qed.

Lemma strftime_plain pf dt :
  pads_year pf = false →
  strftime pf dt
  = plain_year (year (dt_date dt))
    +:+ String "-" (pad2 (month (dt_date dt)) +:+ "-" +:+ pad2 (day (dt_date dt))
          +:+ "T" +:+ pad2 (hour dt) +:+ ":" +:+ pad2 (minute dt)
          +:+ ":" +:+ pad2 (second dt) +:+ ".000").
Proof. intros Hp. unfold strftime, year_str. by rewrite Hp. Qed.

(** The text [strftime] writes for a year below 1000 without padding
    it: the ISO pattern does not match it, and neither format reads
    it. *)
Lemma short_year_texts pf dt :
  pads_year pf = false → (year (dt_date dt) < 1000)%Z →
  iso_match (strftime pf dt) = false
  ∧ strptime format_space (strftime pf dt) = None
  ∧ strptime format_T (strftime pf dt) = None.
Proof.
  intros Hp Hy. rewrite (strftime_plain pf dt Hp).
  split; [|split].
  - unfold iso_match, re_match, iso_8601_pattern. cbn [seq].
    by rewrite four_digits_short.
  - unfold strptime, re_match, format_space. cbn [seq].
    rewrite run_seq_fail; [done|].
    intros m1 Hm1. rewrite directive_Y_short in Hm1 by done.
    by apply elem_of_nil in Hm1.
  - unfold strptime, re_match, format_T. cbn [seq].
    rewrite run_seq_fail; [done|].
    intros m1 Hm1. rewrite directive_Y_short in Hm1 by done.
    by apply elem_of_nil in Hm1.
Qed.

Lemma corrected_short_year pf dt :
  pads_year pf = false → (year (dt_date dt) < 1000)%Z →
  corrected pf (strftime pf dt) = None.
Proof.
  intros Hp Hy. destruct (short_year_texts pf dt Hp Hy) as (H1 & H2 & H3).
  unfold corrected, correct_datetime. by rewrite H1, H2, H3.
Qed.

(** *** A date without the time of day *)

Lemma date_only_chars (dt : datetime) :
  date_str (dt_date dt)
  = String (digit_char (year (dt_date dt) / 1000))
     (String (digit_char (year (dt_date dt) / 100))
     (String (digit_char (year (dt_date dt) / 10))
     (String (digit_char (year (dt_date dt)))
     (String "-"
     (String (digit_char (month (dt_date dt) / 10))
     (String (digit_char (month (dt_date dt)))
     (String "-"
     (String (digit_char (day (dt_date dt) / 10))
     (String (digit_char (day (dt_date dt)))
     EmptyString))))))))).
Proof. reflexivity. Qed.

(** The text [YYYY-MM-DD] of a date: the ISO pattern does not match
    it, and neither format reads it, for want of a time of day. *)
Lemma date_only_texts dt :
  well_formed dt →
  iso_match (date_str (dt_date dt)) = false
  ∧ strptime format_space (date_str (dt_date dt)) = None
  ∧ strptime format_T (date_str (dt_date dt)) = None.
Proof.
  intros Hwf. pose proof (well_formed_bounds dt Hwf) as (Hy & Hmo & Hda & _).
  rewrite date_only_chars. split; [|split].
  - unfold iso_match, re_match.
    match goal with
    | |- match head ?l with _ => _ end = _ => assert (l = []) as ->; [|done]
    end.
    unfold iso_8601_pattern. cbn [seq].
    repeat (eapply run_seq_none; [apply run_d|]).
    eapply run_seq_none; [apply run_lit|].
    eapply run_seq_none; [by apply run_month|].
    eapply run_seq_none; [apply run_lit|].
    eapply run_seq_none; [by apply run_day|].
    reflexivity.
  - unfold strptime, re_match.
    match goal with
    | |- match head ?l with _ => _ end = _ => assert (l = []) as ->; [|done]
    end.
    unfold format_space. cbn [seq].
    apply run_seq_fail. intros m1 ->%run_Y.
    eapply run_seq_one; [apply run_lit|].
    apply run_seq_fail. intros m2 Hm2.
    destruct (rests_m _ _ _ Hmo Hm2) as [-> | ->].
    2:{ cbn [run]. by rewrite digit_is_no_sign. }
    eapply run_seq_one; [apply run_lit|].
    apply run_seq_fail. intros m3 Hm3.
    destruct (rests_d _ _ _ Hda Hm3) as [-> | ->].
    + reflexivity.
    + cbn [run plus_class]. by rewrite is_space_digit.
  - unfold strptime, re_match.
    match goal with
    | |- match head ?l with _ => _ end = _ => assert (l = []) as ->; [|done]
    end.
    unfold format_T. cbn [seq].
    apply run_seq_fail. intros m1 ->%run_Y.
    eapply run_seq_one; [apply run_lit|].
    apply run_seq_fail. intros m2 Hm2.
    destruct (rests_m _ _ _ Hmo Hm2) as [-> | ->].
    2:{ cbn [run]. by rewrite digit_is_no_sign. }
    eapply run_seq_one; [apply run_lit|].
    apply run_seq_fail. intros m3 Hm3.
    destruct (rests_d _ _ _ Hda Hm3) as [-> | ->].
    + reflexivity.
    + cbn [run letter_T]. by rewrite digit_is_no_T.
Qed.

Lemma corrected_date_only pf dt :
  well_formed dt → corrected pf (date_str (dt_date dt)) = None.
Proof.
  intros Hwf. destruct (date_only_texts dt Hwf) as (H1 & H2 & H3).
  unfold corrected, correct_datetime. by rewrite H1, H2, H3.
Qed.

Lemma corrected_space_form (pf : platform) dt :
  well_formed dt → corrected pf (space_form dt) = Some (strftime pf dt).
Proof.
  intros Hwf. unfold corrected, correct_datetime.
  rewrite (space_form_not_iso dt Hwf), (strptime_space dt Hwf).
  by destruct (strftime_text pf dt) as (c & s & ->).
Qed.

End TextFacts.

Module OrderClaims.
Import Platform Calendar Regex Timestamp Frame Clean Validation TableSamples.
Import RegexFacts HeapFacts CleanFacts FrameFacts CoordinateFacts CleanClaims.
Import ValidationFacts CleaningFacts.

Lemma filter_sublist {A} (p : A → bool) (l : list A) :
  List.filter p l `sublist_of` l.
Proof.
  induction l as [|x l IH]; simpl; [done|].
  destruct (p x); [by apply sublist_skip|by apply sublist_cons].
Qed.

Lemma keep_rows_labels p df :
  (rows (keep_rows p df)).*1 `sublist_of` (rows df).*1.
Proof. apply fmap_sublist, filter_sublist. Qed.

Lemma drop_duplicated_sublist seen (rs : list row) :
  drop_duplicated seen rs `sublist_of` rs.
Proof.
  revert seen. induction rs as [|r rs IH]; intros seen; simpl; [done|].
  destruct (seen_in r.2 seen); [by apply sublist_cons|by apply sublist_skip].
Qed.

Lemma dedup_labels df : (rows (dedup df)).*1 `sublist_of` (rows df).*1.
Proof.
  unfold dedup. destruct (duplicated_any df); [|done].
  apply fmap_sublist, drop_duplicated_sublist.
Qed.

Section Labels.
Variable pf : platform.
Variable float_of_str : string → option Z.
Variable render : cell → string.

Lemma where_ne_labels label text df df' :
  where_ne label text df = inr df' →
  (rows df').*1 `sublist_of` (rows df).*1.
Proof.
  unfold where_ne, position.
  destruct (index_of label (columns df)); [|done]. simpl.
  intros [= <-]. apply keep_rows_labels.
Qed.

Lemma to_float_rows_labels k (rs rs' : list row) :
  to_float_rows float_of_str k rs = inr rs' → rs'.*1 = rs.*1.
Proof.
  revert rs'. induction rs as [|r rs IH]; intros rs'; simpl.
  - by intros [= <-].
  - destruct (to_float float_of_str (cell_at k r)) as [|c]; [done|]. simpl.
    destruct (to_float_rows float_of_str k rs) as [|rs'']; [done|]. simpl.
    intros [= <-]. simpl. f_equal. by apply IH.
Qed.

Lemma astype_float_labels label df df' :
  astype_float float_of_str label df = inr df' → (rows df').*1 = (rows df).*1.
Proof.
  unfold astype_float, position.
  destruct (index_of label (columns df)); [|done]. simpl.
  destruct (to_float_rows float_of_str _ (rows df)) as [|rs'] eqn:Hrs; [done|].
  simpl. intros [= <-]. simpl. by eapply to_float_rows_labels.
Qed.

Lemma set_dates_labels q (dates : list (option string)) (rs : list row) :
  (zip_with (λ r o, set_cell q (date_cell o) r) rs dates).*1 `sublist_of` rs.*1.
Proof.
  revert dates. induction rs as [|r rs IH]; intros [|o dates]; simpl;
    try done.
  - apply sublist_nil_l.
  - by apply sublist_skip.
Qed.

Lemma validate_dates_labels df :
  (rows (validate_dates pf render df).2).*1 `sublist_of` (rows df).*1.
Proof.
  unfold validate_dates. destruct (index_of "offense_date" (columns df)); [|done].
  cbn [snd]. etrans; [apply keep_rows_labels|]. apply set_dates_labels.
Qed.

Lemma cleaned_labels raw out md :
  cleaned pf float_of_str render raw = inr (out, md) →
  (rows out).*1 `sublist_of` (rows raw).*1.
Proof.
  unfold cleaned. cbv zeta. intros H. first_step. repeat next_step.
  destruct (validate_dates pf render f5) as [t df] eqn:Ev.
  next_step. injection H as <- <-.
  pose proof (validate_dates_labels f5) as Hv. rewrite Ev in Hv. simpl in Hv.
  etrans; [exact Hv|].
  unfold drop_zero_coordinates, position in E6.
  destruct (index_of "longitude" (columns f4)); [|done]. simpl in E6.
  destruct (index_of "latitude" (columns f4)); [|done]. simpl in E6.
  injection E6 as <-.
  etrans; [apply keep_rows_labels|].
  etrans; [by eapply where_ne_labels|].
  etrans; [apply keep_rows_labels|].
  rewrite (astype_float_labels _ _ _ E4), (astype_float_labels _ _ _ E3).
  unfold drop_marked_latitude, position in E2.
  destruct (index_of "latitude" (columns f0)); [|done]. simpl in E2.
  injection E2 as <-.
  etrans; [apply keep_rows_labels|].
  etrans; [by eapply where_ne_labels|].
  etrans; [by eapply where_ne_labels|].
  etrans; [apply dedup_labels|].
  exact (dedup_labels (relabel raw)).
Qed.

End Labels.

(** X18.  The cleaning keeps the order of the records and adds none:
    the index labels of the table it returns are, in order, index
    labels of the raw table, each row of the raw table standing for at
    most one row of the result; so the result has at most as many rows
    as the raw table. *)
Theorem cleaning_keeps_order
    (pf : platform) (float_of_str : string → option Z) (render : cell → string)
    (h h' : heap) (input l' : loc) (raw : frame) (md : metadata) :
  h !! input = Some raw →
  clean_and_analyze_crime_data pf float_of_str render input h = (inr (l', md), h') →
  ∃ out, h' !! l' = Some out
    ∧ (rows out).*1 `sublist_of` (rows raw).*1
    ∧ rows_after_cleaning md ≤ length (rows raw).
Proof.
  intros Hin Hrun.
  destruct (clean_result pf float_of_str render h h' input l' raw md Hin Hrun)
    as (out & Hclean & Hout & _).
  pose proof (cleaned_labels _ _ _ _ _ _ Hclean) as Hsub.
  exists out. split; [done|]. split; [done|].
  destruct (cleaned_stages _ _ _ _ _ _ Hclean) as (df & c & p & _ & _ & _ & _ & Hn & _).
  rewrite Hn. apply sublist_length in Hsub. by rewrite !length_fmap in Hsub.
Qed.

Lemma cleaning_keeps_order_witness :
  ∃ out,
    (clean_and_analyze_crime_data python_311 float_of_sample render_sample 0
       {[ 0 := three_records ]}).2 !! 8 = Some out
    ∧ (rows out).*1 `sublist_of` (rows three_records).*1
    ∧ rows_after_cleaning metadata_three ≤ length (rows three_records).
Proof.
  apply (cleaning_keeps_order python_311 float_of_sample render_sample
           {[ 0 := three_records ]}
           (clean_and_analyze_crime_data python_311 float_of_sample render_sample 0
              {[ 0 := three_records ]}).2
           0 8 three_records metadata_three).
  - reflexivity.
  - vm_compute. reflexivity.
Defined.

End OrderClaims.

(* ================================================================== *)
(** * The daily job *)
(* ================================================================== *)

Module JobClaims.
Import Platform Calendar Sink Ingest Remote SinkInvariants Frame Clean Validation.
Import Platform Loader Warehouse Jobs Samples RunSamples TableSamples LoadSamples.
Import SinkFacts IngestFacts SinkGrowth HeapFacts CleanFacts FrameFacts.
Import CoordinateFacts CleanClaims ValidationFacts CleaningFacts LoaderFacts.
Import OrderClaims.





End JobClaims.

(* ================================================================== *)
(** * The filters of the dashboard *)
(* ================================================================== *)

Module DashboardFacts.
Import Dashboard.
Import OrderClaims.

Lemma elem_of_sorted_numbers (values : list Z) x :
  x ∈ sorted_numbers values ↔ x ∈ values.
Proof.
  unfold sorted_numbers. rewrite merge_sort_Permutation.
  apply elem_of_remove_dups.
Qed.

Lemma elem_of_sorted_texts (cells : list (option string)) s :
  s ∈ sorted_texts cells ↔ Some s ∈ cells.
Proof.
  unfold sorted_texts. rewrite merge_sort_Permutation, elem_of_remove_dups.
  rewrite list_elem_of_omap. split.
  - intros (o & Ho & Hs). simpl in Hs. by subst o.
  - intros H. by exists (Some s).
Qed.

Lemma elem_of_List_filter {A} (p : A → bool) (l : list A) x :
  x ∈ List.filter p l ↔ x ∈ l ∧ p x = true.
Proof. rewrite !list_elem_of_In. apply filter_In. Qed.

Section Filters.
Context {R : Type}.

Lemma isin_number_spec (f : R → Z) (c : choice Z) (df : list R) (r : R) :
  r ∈ isin_number R f
        (multiselect_with_select_all (sorted_numbers (f <$> df)) c) df
  ↔ r ∈ df ∧ allows c (f r).
Proof.
  unfold isin_number, multiselect_with_select_all, allows.
  rewrite elem_of_List_filter, bool_decide_eq_true.
  destruct (select_all c).
  - rewrite elem_of_sorted_numbers. split.
    + intros [Hr _]. split; [done|by left].
    + intros [Hr _]. split; [done|]. apply list_elem_of_fmap. by exists r.
  - split; intros [Hr Hin]; (split; [done|]); [by right|].
    by destruct Hin.
Qed.

Lemma filter_text_spec (col : R → option string) (c : choice string)
    (df : list R) (r : R) :
  r ∈ filter_text R col c df
  ↔ r ∈ df ∧ ∃ s, col r = Some s ∧ allows c s.
Proof.
  unfold filter_text, isin_text, multiselect_with_select_all, allows.
  rewrite elem_of_List_filter. split.
  - intros [Hr Hp]. split; [done|].
    destruct (col r) as [s|] eqn:Hs; [|done]. exists s. split; [done|].
    apply bool_decide_eq_true in Hp.
    destruct (select_all c); [by left|by right].
  - intros [Hr (s & Hs & Ha)]. split; [done|]. rewrite Hs.
    apply bool_decide_eq_true. destruct (select_all c).
    + apply elem_of_sorted_texts, list_elem_of_fmap. by exists r.
    + by destruct Ha.
Qed.

Lemma isin_number_sublist (f : R → Z) sel (df : list R) :
  isin_number R f sel df `sublist_of` df.
Proof. apply filter_sublist. Qed.

Lemma filter_text_sublist (col : R → option string) c (df : list R) :
  filter_text R col c df `sublist_of` df.
Proof. apply filter_sublist. Qed.

Lemma filtered_characterised (year_of month_of day_of : R → Z)
    (neighborhood_of sub_category_of precinct_of : R → option string)
    (u : selections) (crime_df : list R) :
  ∃ rows : list R,
    rows `sublist_of` crime_df
    ∧ (∀ r, r ∈ rows
            ↔ r ∈ crime_df
              ∧ passes R year_of month_of day_of neighborhood_of
                  sub_category_of precinct_of u r)
    ∧ filtered R year_of month_of day_of (Some neighborhood_of)
        (Some sub_category_of) (Some precinct_of) u crime_df
      = match rows with
        | [] => NoData R
        | _ => Shown R rows
        end.
Proof.
  unfold filtered. cbv zeta.
  set (d1 := isin_number R year_of _ crime_df).
  set (d2 := isin_number R month_of _ d1).
  set (d3 := isin_number R day_of _ d2).
  set (d4 := filter_text R neighborhood_of _ d3).
  set (d5 := filter_text R sub_category_of _ d4).
  set (d6 := filter_text R precinct_of _ d5).
  exists d6. split; [|split; [|done]].
  - etrans; [apply filter_text_sublist|]. etrans; [apply filter_text_sublist|].
    etrans; [apply filter_text_sublist|]. etrans; [apply isin_number_sublist|].
    etrans; [apply isin_number_sublist|]. apply isin_number_sublist.
  - intros r. unfold d6, d5, d4, d3, d2, d1, passes.
    rewrite !filter_text_spec, !isin_number_spec. tauto.
Qed.

Lemma untouched_allows_nothing {A} (c : choice A) (x : A) :
  untouched c → ¬ allows c x.
Proof.
  intros [Hs Hp] [Ha|Ha]; [congruence|]. rewrite Hp in Ha.
  by apply elem_of_nil in Ha.
Qed.

End Filters.
End DashboardFacts.

Module DashboardClaims.
Import Dashboard DashboardSamples DashboardFacts.

(** X20.  What the dashboard shows.  On a table that has the three
    columns of texts, the rows the charts are drawn from are the rows
    that pass the six filters, in the order of the table, a filter
    letting a value through when its box "Select All" is ticked or the
    value is ticked in its list; when no row passes, the page stops at
    its warning. *)
Theorem filtered_rows {R : Type} (year_of month_of day_of : R → Z)
    (neighborhood_of sub_category_of precinct_of : R → option string)
    (u : selections) (crime_df : list R) :
  ∃ rows : list R,
    rows `sublist_of` crime_df
    ∧ (∀ r, r ∈ rows
            ↔ r ∈ crime_df
              ∧ passes R year_of month_of day_of neighborhood_of
                  sub_category_of precinct_of u r)
    ∧ filtered R year_of month_of day_of (Some neighborhood_of)
        (Some sub_category_of) (Some precinct_of) u crime_df
      = match rows with
        | [] => NoData R
        | _ => Shown R rows
        end.
Proof. apply filtered_characterised. Qed.

(** X21.  The page shows nothing until every filter is set: when one
    of the six filters is as the page first shows it, its box not
    ticked and nothing ticked in its list, the page stops at the
    warning that no data is available, whatever the table holds and
    whatever the other filters are. *)
Theorem untouched_filter_shows_nothing {R : Type}
    (year_of month_of day_of : R → Z)
    (neighborhood_of sub_category_of precinct_of : R → option string)
    (u : selections) (crime_df : list R) :
  untouched (years u) ∨ untouched (months u) ∨ untouched (days u)
  ∨ untouched (neighborhoods u) ∨ untouched (sub_categories u)
  ∨ untouched (precincts u) →
  filtered R year_of month_of day_of (Some neighborhood_of)
    (Some sub_category_of) (Some precinct_of) u crime_df
  = NoData R.
Proof.
  intros Hu.
  destruct (filtered_characterised year_of month_of day_of neighborhood_of
              sub_category_of precinct_of u crime_df) as (rows & _ & Hrows & ->).
  destruct rows as [|r rows]; [done|]. exfalso.
  destruct (Hrows r) as [Hpass _].
  destruct (Hpass ltac:(left))
    as (_ & Hy & Hm & Hd & (n & _ & Hn) & (c & _ & Hc) & (p & _ & Hp)).
  destruct Hu as [H|[H|[H|[H|[H|H]]]]];
    by eapply untouched_allows_nothing.
Qed.

Lemma untouched_filter_shows_nothing_witness :
  filtered incident_row row_year row_month row_day (Some row_neighborhood)
    (Some row_sub_category) (Some row_precinct) no_month two_incidents
  = NoData incident_row.
Proof.
  apply (untouched_filter_shows_nothing row_year row_month row_day
           row_neighborhood row_sub_category row_precinct no_month
           two_incidents).
  right. left. by split.
Defined.

(** X22.  A row that has no text in the neighbourhood, in the
    sub-category or in the precinct is never shown, whatever the user
    selects: ticking "Select All" selects the texts of the column, and
    a cell with no text is none of them. *)
Theorem row_without_text_is_hidden {R : Type}
    (year_of month_of day_of : R → Z)
    (neighborhood_of sub_category_of precinct_of : R → option string)
    (u : selections) (crime_df rows : list R) (r : R) :
  neighborhood_of r = None ∨ sub_category_of r = None ∨ precinct_of r = None →
  filtered R year_of month_of day_of (Some neighborhood_of)
    (Some sub_category_of) (Some precinct_of) u crime_df
  = Shown R rows →
  r ∉ rows.
Proof.
  intros Hmiss Hshown Hin.
  destruct (filtered_characterised year_of month_of day_of neighborhood_of
              sub_category_of precinct_of u crime_df) as (rows' & _ & Hrows & Hf).
  rewrite Hshown in Hf.
  assert (rows' = rows) as -> by (destruct rows'; [done|by injection Hf]).
  apply Hrows in Hin
    as (_ & _ & _ & _ & (n & Hn & _) & (c & Hc & _) & (p & Hp & _)).
  destruct Hmiss as [H|[H|H]]; congruence.
Qed.

Lemma row_without_text_is_hidden_witness :
  mkincident_row 2025 3 1 None (Some "THEFT") (Some "N")
  ∉ [mkincident_row 2025 3 1 (Some "BALLARD") (Some "THEFT") (Some "N")].
Proof.
  apply (row_without_text_is_hidden row_year row_month row_day
           row_neighborhood row_sub_category row_precinct everything
           two_incidents).
  - by left.
  - vm_compute. reflexivity.
Defined.

End DashboardClaims.

Module JobFieldClaims.
Import Platform Calendar Sink Ingest Remote SinkInvariants Frame Clean Validation.
Import Platform Loader Warehouse Jobs Samples RunSamples TableSamples LoadSamples JobSamples.
Import SinkFacts IngestFacts SinkGrowth HeapFacts CleanFacts FrameFacts.
Import CoordinateFacts CleanClaims ValidationFacts CleaningFacts LoaderFacts.
Import TableClaims.

Lemma category_label (c : string) :
  c ∈ required_columns →
  normalize_label c = "crime_against_category" →
  c = "nibrs_crime_against_category".
Proof.
  unfold required_columns. intros Hc Hn.
  repeat (apply elem_of_cons in Hc as [->|Hc];
          [first [reflexivity | (vm_compute in Hn; discriminate Hn)]|]).
  by apply elem_of_nil in Hc.
Qed.

Lemma loaded_without_category to_datetime (docs : list doc) :
  docs ≠ [] →
  (∀ k, k ∈ Loader.fields docs → lower k ≠ "nibrs_crime_against_category") →
  "crime_against_category"
  ∉ normalize_label
      <$> columns (load_and_process_crime_data_from_mongodb to_datetime docs).1.
Proof.
  intros Hdocs Hnone.
  assert ((load_and_process_crime_data_from_mongodb to_datetime docs).1
          = convert_dates to_datetime "offense_date"
              (convert_dates to_datetime "report_date_time" (table_of docs)))
    as -> by (by destruct docs).
  rewrite !convert_dates_columns. cbn [table_of columns].
  intros (c & Hn & Hc)%list_elem_of_fmap.
  apply list_elem_of_fmap in Hc as ([c' k] & -> & Hpair). simpl in Hn.
  apply available_columns_spec in Hpair as [Hreq [Hk Hlow]%source_field_Some].
  apply category_label in Hreq; [|done]. subst c'. by apply (Hnone k).
Qed.

(** The table of a collection that is not empty has a column or a
    row: it is not [pd.DataFrame()]. *)
Lemma loaded_named to_datetime (docs : list doc) :
  docs ≠ [] →
  columns (load_and_process_crime_data_from_mongodb to_datetime docs).1 ≠ []
  ∨ rows (load_and_process_crime_data_from_mongodb to_datetime docs).1 ≠ [].
Proof.
  intros Hdocs.
  assert ((load_and_process_crime_data_from_mongodb to_datetime docs).1
          = convert_dates to_datetime "offense_date"
              (convert_dates to_datetime "report_date_time" (table_of docs)))
    as -> by (by destruct docs).
  destruct (columns (table_of docs)) as [|c cols] eqn:Hcols.
  - right. unfold convert_dates at 2. rewrite Hcols. cbn [index_of].
    unfold convert_dates. rewrite Hcols. cbn [index_of].
    unfold table_of. cbn [rows]. by destruct docs.
  - left. by rewrite !convert_dates_columns, Hcols.
Qed.

(** X23.  The daily job needs the category of the offence: when the
    collection, as the fetch leaves it, has documents but none with a
    field [nibrs_crime_against_category], the job does not reach the
    database, which stays as it was; if the fetch ended, it is the
    cleaning that raises, with the [KeyError] of
    [crime_against_category]. *)
Theorem job_needs_category_field
    (http_get : request → response)
    (exec_order : list (string * doc) → list (string * doc))
    (to_date : string → option date)
    (to_datetime : list cell → list cell)
    (pf : platform) (float_of_str : string → option Z) (render : cell → string)
    (dfuel pfuel : nat) (today : date) (s s' : stores) (o : job_outcome) :
  daily_crime_ingestion_job http_get exec_order to_date to_datetime
    pf float_of_str render dfuel pfuel today s = (o, s') →
  mongo s' ≠ [] → case_free (mongo s') →
  (∀ k, k ∈ Loader.fields (mongo s') → lower k ≠ "nibrs_crime_against_category") →
  postgres s' = postgres s
  ∧ (o = CleanRaised (Frame.KeyError "crime_against_category")
     ∨ o = FetchRunning ∨ ∃ e, o = FetchRaised e).
Proof.
  unfold daily_crime_ingestion_job.
  destruct (fetch_crime_data http_get exec_order to_date dfuel pfuel today (mongo s))
    as [fo w] eqn:Hfetch.
  set (loaded := (load_and_process_crime_data_from_mongodb to_datetime (sink w)).1).
  assert (∀ o s',
    match clean_and_analyze_crime_data pf float_of_str render 0 {[ 0 := loaded ]} with
    | (inl e, _) => (CleanRaised e, mkstores (sink w) (postgres s))
    | (inr (l, md), h) =>
        match h !! l with
        | Some out =>
            let '((_, sm), db) := store_crime_data_postgres out (postgres s) in
            (Materialized md sm, mkstores (sink w) db)
        | None => (CleanRaised NoObject, mkstores (sink w) (postgres s))
        end
    end = (o, s') →
    mongo s' ≠ [] → case_free (mongo s') →
    (∀ k, k ∈ Loader.fields (mongo s') → lower k ≠ "nibrs_crime_against_category") →
    postgres s' = postgres s
    ∧ (o = CleanRaised (Frame.KeyError "crime_against_category")
       ∨ o = FetchRunning ∨ ∃ e, o = FetchRaised e)) as Hrest.
  { clear o s'. intros o s' Hjob Hdocs Hfree Hnone.
    destruct (clean_runs pf float_of_str render {[ 0 := loaded ]} 0 loaded
                (lookup_singleton_eq _ _)) as [_ Hres].
    assert (mongo s' = sink w) as Hs.
    { destruct (clean_and_analyze_crime_data _ _ _ _) as [[e|[l md]] h];
        [by injection Hjob as _ <-|].
      destruct (h !! l); by injection Hjob as _ <-. }
    rewrite Hs in Hdocs, Hnone.
    destruct (cleaned_missing_column pf float_of_str render loaded) as [Hmiss _].
    { right. apply (loaded_named to_datetime (sink w) Hdocs). }
    rewrite (Hmiss (loaded_without_category to_datetime (sink w) Hdocs Hnone))
      in Hres.
    destruct (clean_and_analyze_crime_data _ _ _ _) as [res h].
    simpl in Hres. subst res. injection Hjob as <- <-. split; [done|by left]. }
  destruct fo as [d1 d2|d1 d2 n|e|]; try (by apply Hrest).
  - intros [= <- <-] _ _ _. split; [done|]. right. right. by eexists.
  - intros [= <- <-] _ _ _. split; [done|]. right. by left.
Qed.

Lemma job_needs_category_field_witness :
  let run :=
    daily_crime_ingestion_job (soda_get uncategorised) in_order leading_date
      to_datetime_sample python_311 float_of_sample render_sample 3 4 jan_2
      (mkstores [] ∅) in
  postgres run.2 = ∅
  ∧ (run.1 = CleanRaised (Frame.KeyError "crime_against_category")
     ∨ run.1 = FetchRunning ∨ ∃ e, run.1 = FetchRaised e).
Proof.
  intros run.
  assert (mongo run.2 = uncategorised) as Hm by (vm_compute; reflexivity).
  assert (∀ k, k ∈ Loader.fields uncategorised →
            k = "report_number" ∨ k = "offense_date") as Hk.
  { intros k [d [Hd [v Hv]]]%fields_spec. unfold uncategorised in Hd.
    apply list_elem_of_singleton in Hd as ->. unfold incident in Hv.
    destruct (decide (k = "report_number")) as [|H1]; [by left|].
    destruct (decide (k = "offense_date")) as [|H3]; [by right|].
    by rewrite lookup_insert_ne, lookup_singleton_ne in Hv. }
  apply (job_needs_category_field (soda_get uncategorised) in_order leading_date
           to_datetime_sample python_311 float_of_sample render_sample 3 4 jan_2
           (mkstores [] ∅) run.2 run.1).
  - apply surjective_pairing.
  - by rewrite Hm.
  - rewrite Hm. intros k1 k2 H1 H2. apply Hk in H1, H2.
    destruct H1 as [-> | ->]; destruct H2 as [-> | ->]; done.
  - rewrite Hm. intros k H. apply Hk in H. by destruct H as [-> | ->].
Defined.

End JobFieldClaims.

(* ================================================================== *)
(** * The labels of the columns *)
(* ================================================================== *)

Module LabelClaims.
Import Platform Regex Frame Labels.

Lemma chars_append (a b : string) : chars (a +:+ b) = chars a ++ chars b.
Proof. induction a as [|c a IH]; simpl; [done|]. by rewrite IH. Qed.

Lemma chars_rev_app (s acc : string) :
  chars (String.rev_app s acc) = reverse (chars s) ++ chars acc.
Proof.
  revert acc. induction s as [|c s IH]; intros acc; [done|].
  cbn [String.rev_app String.list_ascii_of_string].
  rewrite IH, reverse_cons, <- app_assoc. done.
Qed.

Lemma chars_rev (s : string) : chars (String.rev s) = reverse (chars s).
Proof. unfold String.rev. by rewrite chars_rev_app, app_nil_r. Qed.

Lemma lstrip_spec (c : ascii) (s : string) :
  (∃ n, chars (lstrip c s) = drop n (chars s))
  ∧ head (chars (lstrip c s)) ≠ Some c.
Proof.
  induction s as [|x s [[n Hn] Hh]]; simpl.
  - split; [by exists 0|done].
  - destruct (Ascii.eqb_spec c x) as [->|Hne].
    + split; [by exists (S n)|done].
    + split; [by exists 0|]. simpl. congruence.
Qed.

Lemma strip_spec (c : ascii) (s : string) :
  (∃ n k, chars (strip c s) = take k (drop n (chars s)))
  ∧ head (chars (strip c s)) ≠ Some c
  ∧ last (chars (strip c s)) ≠ Some c.
Proof.
  unfold strip.
  destruct (lstrip_spec c s) as [[n Hn] Hh].
  destruct (lstrip_spec c (String.rev (lstrip c s))) as [[m Hm] Hh'].
  rewrite chars_rev in Hm |- *. rewrite Hm, Hn.
  assert (reverse (drop m (reverse (drop n (chars s))))
          = take (length (drop n (chars s)) - m) (drop n (chars s))) as Heq.
  { by rewrite drop_reverse, reverse_involutive. }
  split; [|split].
  - rewrite Heq. by eexists _, _.
  - rewrite Heq. rewrite <- Hn.
    destruct (length (chars (lstrip c s)) - m) as [|k]; [done|].
    destruct (chars (lstrip c s)) as [|x l]; [done|]. done.
  - rewrite last_reverse. by rewrite <- Hn, <- Hm.
Qed.

Lemma replace_from_chars (P : ascii → Prop) (pat rep : string) skip (s : string) :
  Forall P (chars rep) → Forall P (chars s) →
  Forall P (chars (replace_from pat rep skip s)).
Proof.
  intros Hrep. revert skip. induction s as [|c s IH]; intros skip Hs;
    cbn [replace_from]; [done|].
  cbn [String.list_ascii_of_string] in Hs.
  apply Forall_cons in Hs as [Hc Hs]. destruct skip as [|k]; [|by apply IH].
  destruct (String.prefix pat (String c s)).
  - rewrite chars_append. apply Forall_app. split; [done|by apply IH].
  - cbn [String.list_ascii_of_string]. apply Forall_cons. split; [done|by apply IH].
Qed.

Lemma replace_space (s : string) :
  Forall (λ c, c ≠ " "%char) (chars (replace " " "_" s)).
Proof.
  unfold replace. induction s as [|c s IH]; [done|].
  cbn [replace_from].
  destruct (String.prefix " " (String c s)) eqn:Hp.
  - change (String.length " " - 1) with 0. rewrite chars_append.
    apply Forall_app. split; [|done]. by repeat constructor.
  - cbn [String.list_ascii_of_string]. apply Forall_cons. split; [|done].
    intros ->. by destruct s.
Qed.

Lemma lower_char_small (c : ascii) : ¬ capital (lower_char c).
Proof.
  unfold capital, lower_char, code.
  set (n := Z.of_N (Ascii.N_of_ascii c)).
  assert (0 ≤ n < 256)%Z as Hn.
  { unfold n. pose proof (Ascii.N_ascii_bounded c). lia. }
  destruct ((65 <=? n) && (n <=? 90)
            || (192 <=? n) && (n <=? 222) && negb (n =? 215))%Z eqn:Hc.
  - rewrite Ascii.N_ascii_embedding by lia.
    rewrite Z2N.id by lia.
    rewrite orb_true_iff, !andb_true_iff, !Z.leb_le in Hc. lia.
  - fold n. rewrite orb_false_iff, !andb_false_iff, !Z.leb_gt in Hc. lia.
Qed.

Lemma lower_chars (s : string) : Forall (λ c, ¬ capital c) (chars (lower s)).
Proof.
  induction s as [|c s IH]; simpl; [done|].
  constructor; [apply lower_char_small|done].
Qed.

Lemma Forall_take_drop {A} (P : A → Prop) (l : list A) n k :
  Forall P l → Forall P (take k (drop n l)).
Proof. intros H. by apply Forall_take, Forall_drop. Qed.

(** X24.  The labels after the renaming of lines 185-191: a label has
    no blank and no capital letter of the Latin alphabet, and it
    neither begins nor ends with an underscore. *)
Theorem normalized_label_shape (label : string) :
  Forall (λ c, c ≠ " "%char ∧ ¬ capital c) (chars (normalize_label label))
  ∧ head (chars (normalize_label label)) ≠ Some "_"%char
  ∧ last (chars (normalize_label label)) ≠ Some "_"%char.
Proof.
  unfold normalize_label.
  set (s1 := replace "nibrs" EmptyString (lower label)).
  set (s2 := replace " " "_" s1).
  set (s3 := replace "__" "_" s2).
  destruct (strip_spec "_" s3) as ((n & k & Hs) & Hh & Hl).
  split; [|done]. rewrite Hs. apply Forall_take_drop.
  assert (Forall (λ c, ¬ capital c) (chars s1)) as H1.
  { apply replace_from_chars; [constructor|apply lower_chars]. }
  assert (Forall (λ c, ¬ capital c) (chars s2)) as H2.
  { apply replace_from_chars; [|done].
    repeat constructor. unfold capital. vm_compute. intros [? ?]. done. }
  assert (Forall (λ c, c ≠ " "%char) (chars s2)) as H3 by apply replace_space.
  assert (Forall (λ c, c ≠ " "%char ∧ ¬ capital c) (chars s2)) as H4.
  { rewrite Forall_forall in H2, H3. apply Forall_forall. intros c Hc.
    split; [by apply H3|by apply H2]. }
  apply replace_from_chars; [|done].
  repeat constructor; [done|]. unfold capital. vm_compute. intros [? ?]. done.
Qed.

End LabelClaims.

(* ================================================================== *)
(** * Timestamps that come from the loading asset *)
(* ================================================================== *)

Module PipelineDates.
Import Platform Calendar Regex Timestamp Frame Clean Validation Stamps TableSamples.
Import PipelineSamples.
Import RegexFacts HeapFacts CleanFacts FrameFacts CoordinateFacts CleanClaims.
Import ValidationFacts CleaningFacts StampFormFacts StampForms.
Import FractionFacts TextFacts.

Section Source.
Variable pf : platform.
Variable float_of_str : string → option Z.
Variable render : cell → string.

(** The table that enters the validation, and where its timestamps
    come from. *)
Lemma cleaned_dates_source raw out md :
  cleaned pf float_of_str render raw = inr (out, md) →
  ∃ df : frame,
    columns df = normalize_label <$> columns raw
    ∧ out = (validate_dates pf render df).2
    ∧ rows_after_cleaning md = length (rows out)
    ∧ valid_records md = valid_dt (validate_dates pf render df).1
    ∧ invalid_records md = invalid_dt (validate_dates pf render df).1
    ∧ (∀ r : row, r ∈ rows df →
         ∀ k, k < length (columns df) → isnull (cell_at k r) = false)
    ∧ ∀ q, index_of "offense_date" (columns df) = Some q →
        ∀ r : row, r ∈ rows df →
          ∃ r0 : row, r0 ∈ rows raw ∧ cell_at q r = cell_at q r0.
Proof.
  unfold cleaned. cbv zeta. intros H.
  first_step. repeat next_step.
  destruct (validate_dates pf render f5) as [t df] eqn:Ev.
  next_step. injection H as <- <-.
  apply where_ne_rows in E as [C0 R0], E0 as [C1 R1], E5 as [C5 R5].
  apply drop_marked_latitude_rows in E2 as (C2 & j & Hj & R2).
  apply astype_float_rows in E3 as (C3 & j' & Hj' & R3).
  apply astype_float_rows in E4 as (C4 & i & Hi & R4).
  apply drop_zero_coordinates_rows in E6 as (C6 & i' & j'' & Hi' & Hj'' & R6).
  rewrite !dedup_columns in C0. simpl in C0, C5.
  set (cols := normalize_label <$> columns raw) in *.
  rewrite C0 in C1. rewrite C1 in C2, Hj. rewrite C2 in C3, Hj'.
  rewrite C3 in C4, Hi. rewrite C4 in C5. rewrite C5 in C6.
  exists f5. rewrite Ev, C6. simpl. repeat split; try done.
  - intros r Hr. apply R6 in Hr as [Hr _]. apply R5 in Hr.
    apply dropna_rows in Hr as [_ Hfull]. by rewrite <- C4.
  - intros q Hq r Hr. apply R6 in Hr as [Hr _]. apply R5 in Hr.
    apply dropna_rows in Hr as [Hr _].
    destruct (R4 r Hr) as (r2 & x & Hr2 & _ & ->).
    destruct (R3 r2 Hr2) as (r1 & y & Hr1 & _ & ->).
    apply R2 in Hr1 as [Hr1 _]. apply R1, R0, dedup_rows, dedup_rows in Hr1.
    exists r1. split; [done|].
    rewrite !cell_at_set_ne; [done| |].
    + by eapply (index_of_distinct "offense_date" "latitude").
    + by eapply (index_of_distinct "offense_date" "longitude").
Qed.

End Source.

(** X25.  Timestamps that come from the loading asset.  The
    [offense_date] cells of the raw table are timestamps or missing,
    and line 236 has pandas write the timestamps of the column as
    texts.  When pandas writes them with the time of day, as
    [YYYY-MM-DD HH:MM:SS], which it does for a column of whole seconds
    that are not all midnights, the cleaning counts no invalid
    timestamp, and every [offense_date] of the table it returns is the
    text [YYYY-MM-DDTHH:MM:SS.000] of the moment of a raw row (the
    year of a pandas timestamp, from 1677 to 2262, has four digits).
    When pandas writes them as dates, [YYYY-MM-DD], which it does for
    a column of midnights, the cleaning counts no timestamp valid and
    returns a table without rows. *)
Theorem loaded_timestamps_are_rewritten
    (pf : platform) (float_of_str : string → option Z) (render : cell → string)
    (h h' : heap) (input l' : loc) (raw : frame) (md : metadata) (q : nat) :
  h !! input = Some raw →
  clean_and_analyze_crime_data pf float_of_str render input h = (inr (l', md), h') →
  index_of "offense_date" (normalize_label <$> columns raw) = Some q →
  (∀ r : row, r ∈ rows raw →
     cell_at q r = CNull ∨ ∃ t, cell_at q r = CTime t) →
  ∃ out,
    h' !! l' = Some out
    ∧ ((∀ t, ∃ dt, well_formed dt ∧ (1677 ≤ year (dt_date dt) ≤ 2262)%Z
                   ∧ render (CTime t) = space_form dt) →
       invalid_records md = 0
       ∧ ∀ r : row, r ∈ rows out →
           ∃ (r0 : row) t dt,
             r0 ∈ rows raw ∧ cell_at q r0 = CTime t
             ∧ well_formed dt ∧ render (CTime t) = space_form dt
             ∧ cell_at q r = CStr (t_form dt +:+ ".000"))
    ∧ ((∀ t, ∃ dt, well_formed dt
                   ∧ render (CTime t) = date_str (dt_date dt)) →
       rows out = [] ∧ valid_records md = 0 ∧ rows_after_cleaning md = 0).
Proof.
  intros Hin Hrun Hq Hcells.
  destruct (clean_result pf float_of_str render h h' input l' raw md Hin Hrun)
    as (out & Hclean & Hout & _).
  destruct (cleaned_dates_source _ _ _ _ _ _ Hclean)
    as (df & Hcols & -> & Hn & Hv & Hi & Hfull & Hsrc).
  rewrite <- Hcols in Hq.
  assert (Forall (λ r : row, q < length r.2) (rows df)) as Hlong.
  { apply Forall_forall. intros r Hr. apply cell_at_present.
    apply (Hfull r Hr). by eapply index_of_lt. }
  destruct (validate_dates_exact pf render df q Hq Hlong) as (Hrows & Hvalid & Hsum).
  assert (∀ r : row, r ∈ rows df →
            ∃ (r0 : row) t,
              r0 ∈ rows raw ∧ cell_at q r0 = CTime t
              ∧ as_str render (cell_at q r) = render (CTime t)) as Htime.
  { intros r Hr. destruct (Hsrc q Hq r Hr) as (r0 & Hr0 & Heq).
    pose proof (Hfull r Hr q ltac:(by eapply index_of_lt)) as Hnn.
    destruct (Hcells r0 Hr0) as [Hnull|[t Ht]].
    { rewrite Heq, Hnull in Hnn. done. }
    exists r0, t. split; [done|]. split; [done|]. by rewrite Heq, Ht. }
  exists (validate_dates pf render df).2. split; [done|]. split.
  - intros Hrender.
    assert (∀ r : row, r ∈ rows df →
              ∃ (r0 : row) t dt,
                r0 ∈ rows raw ∧ cell_at q r0 = CTime t
                ∧ well_formed dt ∧ render (CTime t) = space_form dt
                ∧ fix_row pf render q r
                  = Some (set_cell q (CStr (t_form dt +:+ ".000")) r))
      as Hfix.
    { intros r Hr. destruct (Htime r Hr) as (r0 & t & Hr0 & Ht & Hstr).
      destruct (Hrender t) as (dt & Hwf & Hy & Hdt).
      exists r0, t, dt. split; [done|]. split; [done|]. split; [done|].
      split; [done|].
      unfold fix_row. rewrite Hstr, Hdt, (corrected_space_form pf dt Hwf).
      simpl. rewrite strftime_full; [done|]. right. lia. }
    split.
    + rewrite Hi.
      assert (length (omap (fix_row pf render q) (rows df)) = length (rows df))
        as Hall.
      { clear Hrows Hvalid Hsum Hlong Hsrc Hfull Hout Htime Hn.
        revert Hfix. generalize (rows df). intros rs Hfix.
        induction rs as [|r rs IH]; [done|].
        cbn [omap list_omap].
        destruct (Hfix r ltac:(left)) as (r0 & t & dt & _ & _ & _ & _ & ->).
        simpl. f_equal. apply IH. intros r' Hr'. apply Hfix. by right. }
      rewrite Hrows in Hvalid. lia.
    + rewrite Hrows. intros r' (r & Hr & Hr')%list_elem_of_omap.
      destruct (Hfix r Hr) as (r0 & t & dt & Hr0 & Ht & Hwf & Hdt & Hfixed).
      rewrite Hfixed in Hr'. injection Hr' as <-.
      exists r0, t, dt. split; [done|]. split; [done|]. split; [done|].
      split; [done|].
      rewrite cell_at_set_eq; [done|]. rewrite Forall_forall in Hlong.
      by apply Hlong.
  - intros Hrender.
    assert (omap (fix_row pf render q) (rows df) = []) as Hnone.
    { clear Hrows Hvalid Hsum Hlong Hsrc Hfull Hout Hn.
      revert Htime. generalize (rows df). intros rs Htime.
      induction rs as [|r rs IH]; [done|].
      cbn [omap list_omap].
      destruct (Htime r ltac:(left)) as (r0 & t & _ & _ & Hstr).
      destruct (Hrender t) as (dt & Hwf & Hdt).
      unfold fix_row. rewrite Hstr, Hdt, (corrected_date_only pf dt Hwf).
      simpl. apply IH. intros r' Hr'. apply Htime. by right. }
    rewrite Hnone in Hrows. rewrite Hrows in Hvalid, Hn. simpl in Hvalid, Hn.
    split; [done|]. split; [lia|done].
Qed.

Lemma loaded_timestamps_are_rewritten_witness :
  (∃ out,
     (clean_and_analyze_crime_data python_311 float_of_sample render_moment 0
        {[ 0 := loaded_record ]}).2 !! 8 = Some out
     ∧ invalid_records metadata_loaded = 0
     ∧ ∀ r : row, r ∈ rows out →
         ∃ (r0 : row) t dt,
           r0 ∈ rows loaded_record ∧ cell_at 1 r0 = CTime t
           ∧ well_formed dt ∧ render_moment (CTime t) = space_form dt
           ∧ cell_at 1 r = CStr (t_form dt +:+ ".000"))
  ∧ (∃ out,
       (clean_and_analyze_crime_data python_311 float_of_sample render_day 0
          {[ 0 := midnight_record ]}).2 !! 8 = Some out
       ∧ rows out = [] ∧ valid_records metadata_midnight = 0
       ∧ rows_after_cleaning metadata_midnight = 0).
Proof.
  split.
  - destruct (loaded_timestamps_are_rewritten python_311 float_of_sample
                render_moment {[ 0 := loaded_record ]}
                (clean_and_analyze_crime_data python_311 float_of_sample
                   render_moment 0 {[ 0 := loaded_record ]}).2
                0 8 loaded_record metadata_loaded 1)
      as (out & Hout & H & _).
    + reflexivity.
    + vm_compute. reflexivity.
    + reflexivity.
    + intros r Hr. unfold loaded_record in Hr. cbn [rows] in Hr.
      apply list_elem_of_singleton in Hr as ->. right. by eexists.
    + exists out. split; [exact Hout|]. apply H.
      intros t. exists sample_moment. split; [|split; [|reflexivity]].
      * unfold well_formed. simpl. repeat split; lia.
      * simpl. lia.
  - destruct (loaded_timestamps_are_rewritten python_311 float_of_sample
                render_day {[ 0 := midnight_record ]}
                (clean_and_analyze_crime_data python_311 float_of_sample
                   render_day 0 {[ 0 := midnight_record ]}).2
                0 8 midnight_record metadata_midnight 1)
      as (out & Hout & _ & H).
    + reflexivity.
    + vm_compute. reflexivity.
    + reflexivity.
    + intros r Hr. unfold midnight_record in Hr. cbn [rows] in Hr.
      apply list_elem_of_singleton in Hr as ->. right. by eexists.
    + exists out. split; [exact Hout|]. apply H.
      intros t. exists sample_midnight. split; [|reflexivity].
      unfold well_formed. simpl. repeat split; lia.
Defined.

End PipelineDates.

(* ================================================================== *)
(** * Timestamps with a fraction of a second *)
(* ================================================================== *)


Module FractionClaims.
Import Platform Calendar Regex Timestamp Validation Stamps TableSamples.
Import CalendarFacts RegexFacts ValidationFacts StampFormFacts StampForms.
Import FractionFacts.

(** X26.  A timestamp that pandas writes with something after the
    seconds, a fraction of a second or an offset from UTC, is lost:
    the text matches no pattern, neither format reads it to its end,
    and the loop counts it invalid and puts a missing value in its
    place, so that line 251 drops the row. *)
Theorem timestamp_with_a_tail_is_invalid (pf : platform) (t : tally) (dt : datetime)
    (tail : string) :
  well_formed dt → tail ≠ EmptyString →
  iso_match (space_form dt +:+ tail) = false
  ∧ correct_datetime pf (space_form dt +:+ tail) = None
  ∧ validate_one pf t (space_form dt +:+ tail)
    = mktally (valid_dt t) (invalid_dt t + 1) (corrected_dates t ++ [None]).
Proof.
  intros Hwf Htail.
  pose proof (space_tail_not_iso dt tail Hwf) as Hiso.
  assert (correct_datetime pf (space_form dt +:+ tail) = None) as Hfix.
  { unfold correct_datetime, strptime.
    destruct (space_tail_match dt tail Hwf) as [g ->].
    unfold re_match. rewrite (space_tail_no_T dt tail Hwf). simpl.
    by destruct tail. }
  split; [done|]. split; [done|].
  unfold validate_one. by rewrite Hiso, Hfix.
Qed.

Lemma timestamp_with_a_tail_is_invalid_witness :
  iso_match (space_form (mkdatetime (mkdate 2025 3 1) 10 15 30) +:+ ".500000")
  = false
  ∧ correct_datetime python_311
      (space_form (mkdatetime (mkdate 2025 3 1) 10 15 30) +:+ ".500000")
    = None
  ∧ validate_one python_311 (mktally 0 0 [])
      (space_form (mkdatetime (mkdate 2025 3 1) 10 15 30) +:+ ".500000")
    = mktally 0 (0 + 1) ([] ++ [None]).
Proof.
  apply (timestamp_with_a_tail_is_invalid python_311 (mktally 0 0 [])
           (mkdatetime (mkdate 2025 3 1) 10 15 30) ".500000").
  - unfold well_formed. simpl. repeat split; lia.
  - discriminate.
Defined.

End FractionClaims.

(* ================================================================== *)
(** * The timestamp loop on the two platforms *)
(* ================================================================== *)

Module RepairClaims.
Import Platform Calendar Regex Timestamp Frame Clean Validation Stamps TableSamples.
Import CalendarFacts RegexFacts ValidationFacts StampFormFacts StampForms.
Import FractionFacts TextFacts.

Lemma validate_one_rewritten pf (t : tally) (val : string) (dt : datetime) :
  iso_match val = false →
  correct_datetime pf val = Some (strftime pf dt) →
  validate_one pf t val
  = mktally (valid_dt t + 1) (invalid_dt t)
            (corrected_dates t ++ [Some (strftime pf dt)]).
Proof.
  intros Hiso Hfix. unfold validate_one. rewrite Hiso, Hfix.
  by destruct (strftime_text pf dt) as (c & s & ->).
Qed.

(** X16.  The loop over the timestamps on the two texts of a moment on
    a whole second.  The text with a blank, which is how pandas writes
    a timestamp, matches no pattern as it is; [strptime] reads the
    moment back from it, and it is counted valid under the text
    [strftime] writes for the moment.  Where the year is written with
    four digits, because it is 1000 or later or because [strftime]
    pads it, that is the text with the letter [T] and the fraction
    [.000], which the ISO pattern matches; for a year below 1000 that
    [strftime] does not pad, it is a text the ISO pattern does not
    match.  The text with the letter [T] and no fraction is counted
    valid as it is, and gets no fraction. *)
Theorem whole_second_timestamps (pf : platform) (t : tally) (dt : datetime) :
  well_formed dt →
  iso_match (space_form dt) = false
  ∧ strptime format_space (space_form dt) = Some dt
  ∧ validate_one pf t (space_form dt)
    = mktally (valid_dt t + 1) (invalid_dt t)
              (corrected_dates t ++ [Some (strftime pf dt)])
  ∧ (pads_year pf = true ∨ (1000 ≤ year (dt_date dt))%Z →
     strftime pf dt = t_form dt +:+ ".000"
     ∧ iso_match (strftime pf dt) = true)
  ∧ (pads_year pf = false → (year (dt_date dt) < 1000)%Z →
     iso_match (strftime pf dt) = false)
  ∧ validate_one pf t (t_form dt)
    = mktally (valid_dt t + 1) (invalid_dt t)
              (corrected_dates t ++ [Some (t_form dt)]).
Proof.
  intros Hwf.
  pose proof (space_form_not_iso dt Hwf) as Hiso.
  pose proof (strptime_space dt Hwf) as Hread.
  assert (correct_datetime pf (space_form dt) = Some (strftime pf dt)) as Hfix
    by (unfold correct_datetime; by rewrite Hread).
  split; [done|]. split; [done|].
  split; [by apply validate_one_rewritten|].
  split; [|split].
  - intros Hfour. split; [by apply strftime_full|by apply strftime_iso].
  - intros Hp Hy. by apply short_year_texts.
  - unfold validate_one. by rewrite (t_form_iso dt Hwf).
Qed.

Lemma whole_second_timestamps_witness :
  iso_match (space_form (mkdatetime (mkdate 999 12 31) 23 59 59)) = false
  ∧ strptime format_space (space_form (mkdatetime (mkdate 999 12 31) 23 59 59))
    = Some (mkdatetime (mkdate 999 12 31) 23 59 59)
  ∧ validate_one python_311 (mktally 0 0 [])
      (space_form (mkdatetime (mkdate 999 12 31) 23 59 59))
    = mktally (0 + 1) 0
        ([] ++ [Some (strftime python_311 (mkdatetime (mkdate 999 12 31) 23 59 59))])
  ∧ (pads_year python_311 = true
     ∨ (1000 ≤ year (dt_date (mkdatetime (mkdate 999 12 31) 23 59 59)))%Z →
     strftime python_311 (mkdatetime (mkdate 999 12 31) 23 59 59)
     = t_form (mkdatetime (mkdate 999 12 31) 23 59 59) +:+ ".000"
     ∧ iso_match (strftime python_311 (mkdatetime (mkdate 999 12 31) 23 59 59))
       = true)
  ∧ (pads_year python_311 = false →
     (year (dt_date (mkdatetime (mkdate 999 12 31) 23 59 59)) < 1000)%Z →
     iso_match (strftime python_311 (mkdatetime (mkdate 999 12 31) 23 59 59))
     = false)
  ∧ validate_one python_311 (mktally 0 0 [])
      (t_form (mkdatetime (mkdate 999 12 31) 23 59 59))
    = mktally (0 + 1) 0
        ([] ++ [Some (t_form (mkdatetime (mkdate 999 12 31) 23 59 59))]).
Proof.
  apply (whole_second_timestamps python_311 (mktally 0 0 [])
           (mkdatetime (mkdate 999 12 31) 23 59 59)).
  unfold well_formed. simpl. repeat split; lia.
Defined.

(** X17.  Where [strftime] writes the year with four digits, the loop
    is idempotent on what it keeps: run again on the timestamps it
    kept, it counts every one of them valid and none invalid, and
    keeps each as it is.  Where [strftime] does not pad the year, it
    is not: the text kept for a whole second of a year below 1000 is
    counted invalid by a second run. *)
Theorem validation_is_idempotent (pf : platform) (vals : list string) :
  (pads_year pf = true →
     validate_all pf (omap id (corrected_dates (validate_all pf vals)))
     = mktally (length (omap id (corrected_dates (validate_all pf vals)))) 0
               (Some <$> omap id (corrected_dates (validate_all pf vals))))
  ∧ (pads_year pf = false →
     ∀ dt, well_formed dt → (year (dt_date dt) < 1000)%Z →
       validate_all pf [space_form dt] = mktally 1 0 [Some (strftime pf dt)]
       ∧ validate_all pf
           (omap id (corrected_dates (validate_all pf [space_form dt])))
         = mktally 0 1 [None]).
Proof.
  split.
  - intros Hp. unfold validate_all at 1.
    rewrite validate_fold_valid; [done|].
    unfold validate_all.
    destruct (validate_fold pf vals (mktally 0 0 [])) as (-> & _).
    simpl. apply Forall_forall. intros s (o & Hin & Ho)%list_elem_of_omap.
    simpl in Ho. subst o. apply list_elem_of_fmap in Hin as (val & Hval & _).
    by eapply corrected_iso.
  - intros Hp dt Hwf Hy.
    assert (validate_all pf [space_form dt] = mktally 1 0 [Some (strftime pf dt)])
      as Hfirst.
    { unfold validate_all. cbn [fold_left].
      rewrite (validate_one_rewritten pf _ _ dt); [done| |].
      - by apply space_form_not_iso.
      - unfold correct_datetime. by rewrite (strptime_space dt Hwf). }
    split; [done|]. rewrite Hfirst. cbn [corrected_dates omap list_omap id].
    unfold validate_all. cbn [fold_left]. unfold validate_one, correct_datetime.
    destruct (short_year_texts pf dt Hp Hy) as (-> & -> & ->). done.
Qed.

Lemma validation_is_idempotent_witness :
  validate_all python_313
    (omap id (corrected_dates
                (validate_all python_313 ["0999-12-31 23:59:59"; "not-a-date"])))
  = mktally 1 0 [Some "0999-12-31T23:59:59.000"]
  ∧ validate_all python_311
      (omap id (corrected_dates
                  (validate_all python_311
                     [space_form (mkdatetime (mkdate 999 12 31) 23 59 59)])))
    = mktally 0 1 [None].
Proof.
  split.
  - destruct (validation_is_idempotent python_313
                ["0999-12-31 23:59:59"; "not-a-date"]) as [H _].
    rewrite H; [|reflexivity]. vm_compute. reflexivity.
  - destruct (validation_is_idempotent python_311 []) as [_ H].
    destruct (H eq_refl (mkdatetime (mkdate 999 12 31) 23 59 59)) as [_ H'].
    + unfold well_formed. simpl. repeat split; lia.
    + simpl. lia.
    + exact H'.
Defined.

(** X27.  One iteration of the timestamp loop, on any text.  A value
    the ISO pattern matches is kept as it is and counted valid.
    Another value that [strptime] reads in the format with a blank or,
    failing that, in the format with a T, is replaced by what
    [strftime] writes for the timestamp read, and counted valid.
    Where the year is written with four digits, because it is 1000 or
    later or because [strftime] pads it, the text written is the one
    with the letter [T] and three zero decimals of that timestamp: the
    ISO pattern matches it and the timestamp can be read back from it.
    For a year below 1000 that [strftime] does not pad, the text
    written is one the ISO pattern does not match.  Any other value
    gives a missing date, which removes the row, and adds one to the
    count of invalid values.  In particular ["2025-03-01 10:15:30"]
    becomes ["2025-03-01T10:15:30.000"], an ISO value with
    milliseconds is kept, and ["not-a-date"] is invalid. *)
Theorem timestamp_repair (pf : platform) (t : tally) (val : string) :
  (iso_match val = true →
     validate_one pf t val
     = mktally (valid_dt t + 1) (invalid_dt t) (corrected_dates t ++ [Some val]))
  ∧ (∀ dt, iso_match val = false →
       strptime format_space val = Some dt
       ∨ (strptime format_space val = None ∧ strptime format_T val = Some dt) →
       validate_one pf t val
       = mktally (valid_dt t + 1) (invalid_dt t)
                 (corrected_dates t ++ [Some (strftime pf dt)])
       ∧ well_formed dt
       ∧ (pads_year pf = true ∨ (1000 ≤ year (dt_date dt))%Z →
          strftime pf dt = t_form dt +:+ ".000"
          ∧ iso_match (strftime pf dt) = true
          ∧ strptime format_T (t_form dt) = Some dt)
       ∧ (pads_year pf = false → (year (dt_date dt) < 1000)%Z →
          iso_match (strftime pf dt) = false))
  ∧ (iso_match val = false →
     strptime format_space val = None → strptime format_T val = None →
     validate_one pf t val
     = mktally (valid_dt t) (invalid_dt t + 1) (corrected_dates t ++ [None]))
  ∧ (∀ i (r : row), i < length r.2 →
       negb (isnull (cell_at i (set_cell i (date_cell None) r))) = false
       ∧ ∀ s, negb (isnull (cell_at i (set_cell i (date_cell (Some s)) r))) = true)
  ∧ iso_match "2025-03-01 10:15:30" = false
  ∧ correct_datetime pf "2025-03-01 10:15:30" = Some "2025-03-01T10:15:30.000"
  ∧ iso_match "2025-03-01T10:15:30.000" = true
  ∧ iso_match "not-a-date" = false
  ∧ correct_datetime pf "not-a-date" = None.
Proof.
  split; [|split; [|split; [|split]]].
  - intros Hiso. unfold validate_one. by rewrite Hiso.
  - intros dt Hiso Hparse.
    assert (correct_datetime pf val = Some (strftime pf dt)) as Hfix.
    { unfold correct_datetime. by destruct Hparse as [->|[-> ->]]. }
    assert (well_formed dt) as Hwf.
    { destruct Hparse as [H|[_ H]]; by eapply strptime_well_formed. }
    split; [by apply validate_one_rewritten|]. split; [done|]. split.
    + intros Hfour. split; [by apply strftime_full|].
      split; [by apply strftime_iso|by apply strptime_T].
    + intros Hp Hy. by apply short_year_texts.
  - intros Hiso H1 H2. unfold validate_one, correct_datetime.
    by rewrite Hiso, H1, H2.
  - intros i r Hi. unfold cell_at, set_cell. simpl. split.
    + by rewrite list_lookup_insert_eq.
    + intros s. by rewrite list_lookup_insert_eq.
  - destruct pf as [[] ?]; repeat split; vm_compute; reflexivity.
Qed.

Lemma timestamp_repair_witness :
  validate_one python_311 (mktally 0 0 []) "2025-03-01 10:15:30"
  = mktally 1 0 [Some "2025-03-01T10:15:30.000"]
  ∧ strptime format_T
      (t_form (mkdatetime (mkdate 2025 3 1) 10 15 30))
    = Some (mkdatetime (mkdate 2025 3 1) 10 15 30).
Proof.
  destruct (timestamp_repair python_311 (mktally 0 0 []) "2025-03-01 10:15:30")
    as (_ & H & _).
  destruct (H (mkdatetime (mkdate 2025 3 1) 10 15 30)) as (H1 & _ & H2 & _).
  - vm_compute. reflexivity.
  - left. vm_compute. reflexivity.
  - destruct H2 as (_ & _ & H3); [right; simpl; lia|].
    split; [exact H1|exact H3].
Defined.

End RepairClaims.
